(** * Room editor: the room document engine

    A shallow embedding of the document engine of the room editor
    ([src/contexts/RoomContext.tsx], the brush placement of
    [src/components/Canvas.tsx]) and the properties of its commands, its
    undo/redo history, its paint sessions, its brushes and its brush library.

    Conventions of the embedding.

    - A JavaScript array is a [list]; [push] and [[...a, x]] append at the
      end, so the top of a history stack is the LAST element.
    - Coordinates, sizes and tile indices are integers ([Z]); the relative
      coordinates of a brush tile are quotients and are rationals ([Q]).
    - An optional or possibly [undefined] field is an [option].
    - [JSON.parse (JSON.stringify r)] rebuilds a room field by field.  The
      values of the embedding have no identity, so the copy is the room
      itself ([deepCopy]).  A write through an object ([layer.tiles = ...],
      [push], [splice]) is the update of the value that holds it.  One
      handler reads a shared object after it wrote through it
      ([removeTile]), and its definition follows the write.  A history
      entry is followed as the value it was recorded with: the snapshots
      that [undo] restores are copies taken when the entry was recorded.
    - React state: every operation of the context is one event, and it reads
      the state committed by the event before it.  The state variables of
      [RoomProvider] are the fields of [State]. *)

From Stdlib Require Import ZArith List String Bool QArith Qround Lia.
Import ListNotations.
Open Scope string_scope.
Open Scope list_scope.
Open Scope Z_scope.

(** ** Array helpers *)

(** [Array.prototype.findIndex]; [None] stands for [-1]. *)
Fixpoint findIndex {A : Type} (p : A -> bool) (l : list A) : option nat :=
  match l with
  | [] => None
  | a :: t => if p a then Some O else option_map S (findIndex p t)
  end.

(** [a[i] = v] for an index inside the array. *)
Fixpoint replaceAt {A : Type} (i : nat) (v : A) (l : list A) : list A :=
  match l, i with
  | [], _ => []
  | _ :: t, O => v :: t
  | a :: t, S j => a :: replaceAt j v t
  end.

(** [a[i] = f (a[i])]: a write through the object stored at index [i]. *)
Fixpoint updateAt {A : Type} (i : nat) (f : A -> A) (l : list A) : list A :=
  match l, i with
  | [], _ => []
  | a :: t, O => f a :: t
  | a :: t, S j => a :: updateAt j f t
  end.

(** [a.splice(i, 1)], also [a.filter((_, k) => k !== i)]. *)
Fixpoint removeAt {A : Type} (i : nat) (l : list A) : list A :=
  match l, i with
  | [], _ => []
  | _ :: t, O => t
  | a :: t, S j => a :: removeAt j t
  end.

(** The element a stack shows on top: [a[a.length - 1]]. *)
Fixpoint top {A : Type} (l : list A) : option A :=
  match l with
  | [] => None
  | [a] => Some a
  | _ :: t => top t
  end.

(** [a[i]] for a JavaScript number [i]: [undefined] off the array. *)
Definition jsNth {A : Type} (l : list A) (i : Z) : option A :=
  if i <? 0 then None else nth_error l (Z.to_nat i).

(** A string is truthy unless it is empty. *)
Definition truthyString (s : string) : bool := negb (s =? "")%string.

(** [Math.round]: the nearest integer, halves upwards. *)
Definition mathRound (q : Q) : Z := Qfloor (q + (1 # 2)).

(** [Math.floor (a / b)] and [Math.ceil (a / b)] on integers, [0 < b]. *)
Definition floorDiv (a b : Z) : Z := a / b.
Definition ceilDiv (a b : Z) : Z := - ((- a) / b).

(** ** Data model ([src/types/room.ts]) *)

(** [instance_layer_name: string | number]. *)
Inductive LayerRef : Type :=
| RefStr (s : string)
| RefNum (n : Z).

Record Instance : Type := mkInstance {
  instance_layer_name : LayerRef;
  obj_name : string;
  inst_x : Z;
  inst_y : Z
}.

Record Tile : Type := mkTile {
  tile_x : Z;
  tile_y : Z;
  tile_index : Z;
  tile_selected : option bool
}.

Inductive LayerType : Type := TileLayer | ObjectLayer.

Record Layer : Type := mkLayer {
  layer_name : string;
  layer_depth : Z;
  layer_type : LayerType;
  layer_visible : bool;
  layer_tiles : list Tile;
  layer_texture : option string
}.

(** [chance] is not declared in [room.ts]; [defaultRoom], [createNewRoom]
    and [updateRoomChance] use it. *)
Record Room : Type := mkRoom {
  instances : list Instance;
  layers : list Layer;
  width : Z;
  height : Z;
  name : string;
  index : string;
  type : option string;
  biome : option string;
  chance : option Z
}.

(** A brush tile: [x] and [y] are relative, in grid cells. *)
Record BrushTile : Type := mkBrushTile {
  brush_x : Q;
  brush_y : Q;
  brush_index : Z
}.

Record TileBrush : Type := mkTileBrush {
  brush_tiles : list BrushTile;
  brush_width : Z;
  brush_height : Z;
  brush_texture : string;
  offsetX : Z;
  offsetY : Z
}.

(** An entry of [batchedTiles], [paintedTiles], [tilesBeforePlacement]. *)
Record BatchedTile : Type := mkBatched {
  batched_layerName : string;
  batched_x : Z;
  batched_y : Z;
  batched_index : option Z
}.

(** An entry of [tilesModified]. *)
Record ModifiedTile : Type := mkModified {
  modified_x : Z;
  modified_y : Z;
  prevIndex : option Z
}.

(** The values a payload field holds. *)
Inductive PVal : Type :=
| PUndefined
| PNum (n : Z)
| PStr (s : string)
| PBool (b : bool)
| PRoom (r : Room)
| PInstance (i : Instance)
| PInstances (l : list Instance)
| PLayer (l : Layer)
| PTile (t : Tile)
| PTiles (l : list Tile)
| PBatched (l : list BatchedTile)
| PModified (l : list ModifiedTile).

(** [RoomAction.payload] is an open bag of fields ([[key: string]: any]):
    a list of bindings, read by key, the first binding of a key counting.
    The object literal [{a: x, b: y}] is [[("a", x); ("b", y)]] and
    [{...p, k: v}] is [(k, v) :: p]. *)
Definition Payload : Type := list (string * PVal).

Fixpoint field (k : string) (p : Payload) : PVal :=
  match p with
  | [] => PUndefined
  | (k', v) :: t => if (k =? k')%string then v else field k t
  end.

(** The [description] of an action is a label for the user; no operation
    reads it, and the embedding leaves it out. *)
Record RoomAction : Type := mkAction {
  action_type : string;
  payload : Payload
}.

(** The state variables of [RoomProvider] the engine works on. *)
Record State : Type := mkState {
  room : Room;
  undoStack : list RoomAction;
  redoStack : list RoomAction;
  isUndoRedoAction : bool;
  isPainting : bool;
  paintedTiles : list BatchedTile;
  initialRoomState : option Room;
  tileBrush : option TileBrush
}.

(** ** Field updates ([{...r, f: v}]) *)

Definition setInstances (v : list Instance) (r : Room) : Room :=
  mkRoom v (layers r) (width r) (height r) (name r) (index r) (type r) (biome r) (chance r).
Definition setLayers (v : list Layer) (r : Room) : Room :=
  mkRoom (instances r) v (width r) (height r) (name r) (index r) (type r) (biome r) (chance r).
Definition setWidth (v : Z) (r : Room) : Room :=
  mkRoom (instances r) (layers r) v (height r) (name r) (index r) (type r) (biome r) (chance r).
Definition setHeight (v : Z) (r : Room) : Room :=
  mkRoom (instances r) (layers r) (width r) v (name r) (index r) (type r) (biome r) (chance r).
Definition setName (v : string) (r : Room) : Room :=
  mkRoom (instances r) (layers r) (width r) (height r) v (index r) (type r) (biome r) (chance r).
Definition setIndex (v : string) (r : Room) : Room :=
  mkRoom (instances r) (layers r) (width r) (height r) (name r) v (type r) (biome r) (chance r).
Definition setType (v : option string) (r : Room) : Room :=
  mkRoom (instances r) (layers r) (width r) (height r) (name r) (index r) v (biome r) (chance r).
Definition setBiome (v : option string) (r : Room) : Room :=
  mkRoom (instances r) (layers r) (width r) (height r) (name r) (index r) (type r) v (chance r).
Definition setChance (v : option Z) (r : Room) : Room :=
  mkRoom (instances r) (layers r) (width r) (height r) (name r) (index r) (type r) (biome r) v.

Definition setLayerName (v : string) (l : Layer) : Layer :=
  mkLayer v (layer_depth l) (layer_type l) (layer_visible l) (layer_tiles l) (layer_texture l).
Definition setLayerType (v : LayerType) (l : Layer) : Layer :=
  mkLayer (layer_name l) (layer_depth l) v (layer_visible l) (layer_tiles l) (layer_texture l).
Definition setLayerVisible (v : bool) (l : Layer) : Layer :=
  mkLayer (layer_name l) (layer_depth l) (layer_type l) v (layer_tiles l) (layer_texture l).
Definition setLayerTiles (v : list Tile) (l : Layer) : Layer :=
  mkLayer (layer_name l) (layer_depth l) (layer_type l) (layer_visible l) v (layer_texture l).
Definition setLayerTexture (v : option string) (l : Layer) : Layer :=
  mkLayer (layer_name l) (layer_depth l) (layer_type l) (layer_visible l) (layer_tiles l) v.

Definition setInstanceLayer (v : LayerRef) (i : Instance) : Instance :=
  mkInstance v (obj_name i) (inst_x i) (inst_y i).

Definition setRoom (v : Room) (s : State) : State :=
  mkState v (undoStack s) (redoStack s) (isUndoRedoAction s) (isPainting s)
          (paintedTiles s) (initialRoomState s) (tileBrush s).
Definition setUndoStack (v : list RoomAction) (s : State) : State :=
  mkState (room s) v (redoStack s) (isUndoRedoAction s) (isPainting s)
          (paintedTiles s) (initialRoomState s) (tileBrush s).
Definition setRedoStack (v : list RoomAction) (s : State) : State :=
  mkState (room s) (undoStack s) v (isUndoRedoAction s) (isPainting s)
          (paintedTiles s) (initialRoomState s) (tileBrush s).
Definition setIsUndoRedoAction (v : bool) (s : State) : State :=
  mkState (room s) (undoStack s) (redoStack s) v (isPainting s)
          (paintedTiles s) (initialRoomState s) (tileBrush s).
Definition setIsPainting (v : bool) (s : State) : State :=
  mkState (room s) (undoStack s) (redoStack s) (isUndoRedoAction s) v
          (paintedTiles s) (initialRoomState s) (tileBrush s).
Definition setPaintedTiles (v : list BatchedTile) (s : State) : State :=
  mkState (room s) (undoStack s) (redoStack s) (isUndoRedoAction s) (isPainting s)
          v (initialRoomState s) (tileBrush s).
Definition setInitialRoomState (v : option Room) (s : State) : State :=
  mkState (room s) (undoStack s) (redoStack s) (isUndoRedoAction s) (isPainting s)
          (paintedTiles s) v (tileBrush s).
Definition setTileBrush (v : option TileBrush) (s : State) : State :=
  mkState (room s) (undoStack s) (redoStack s) (isUndoRedoAction s) (isPainting s)
          (paintedTiles s) (initialRoomState s) v.

(** [JSON.parse (JSON.stringify room)]. *)
Definition deepCopy (r : Room) : Room := r.

(** ** Initial document ([defaultRoom]) *)

Definition defaultLayers : list Layer :=
  [ mkLayer "TilesForest" 0 TileLayer true [] (Some "tileset_forest");
    mkLayer "Objects" 100 ObjectLayer true [] None ].

Definition defaultRoom : Room :=
  mkRoom [] defaultLayers 800 600 "New Room" "@ref room(New Room)"
         None None (Some 100).

(** The state of a freshly mounted [RoomProvider]. *)
Definition initialState : State :=
  mkState (deepCopy defaultRoom) [] [] false false [] None None.

(** ** Predicates of the callbacks *)

(** [layer => layer.name === n]. *)
Definition hasName (n : string) (l : Layer) : bool := (layer_name l =? n)%string.

Definition isTileLayer (l : Layer) : bool :=
  match layer_type l with TileLayer => true | ObjectLayer => false end.

Definition isObjectLayer (l : Layer) : bool :=
  match layer_type l with ObjectLayer => true | TileLayer => false end.

(** [t => t.x === x && t.y === y]. *)
Definition sameCell (x y : Z) (t : Tile) : bool :=
  (tile_x t =? x) && (tile_y t =? y).

(** [instance.instance_layer_name === n] for a string [n]. *)
Definition onLayer (n : string) (i : Instance) : bool :=
  match instance_layer_name i with
  | RefStr s => (s =? n)%string
  | RefNum _ => false
  end.

(** [i => i.x === j.x && i.y === j.y && i.obj_name === j.obj_name]. *)
Definition sameInstance (j i : Instance) : bool :=
  (inst_x i =? inst_x j) && (inst_y i =? inst_y j)
  && (obj_name i =? obj_name j)%string.

(** [tile.x < width && tile.y < height && tile.x >= 0 && tile.y >= 0]. *)
Definition withinBounds (w h x y : Z) : bool :=
  (x <? w) && (y <? h) && (x >=? 0) && (y >=? 0).

(** The write [o.f = v] through the object that [find p] returns: the first
    element that satisfies [p]. *)
Fixpoint updateFirst {A : Type} (p : A -> bool) (f : A -> A) (l : list A) : list A :=
  match l with
  | [] => []
  | a :: t => if p a then f a :: t else a :: updateFirst p f t
  end.

(** ** History recording *)

Definition addToHistory (action : RoomAction) (s : State) : State :=
  if isUndoRedoAction s then s
  else setRedoStack [] (setUndoStack (undoStack s ++ [action]) s).

Definition updateRoomWithHistory (newRoom : Room) (action : RoomAction)
    (s : State) : State :=
  let s1 :=
    if negb (isUndoRedoAction s) then
      let previousRoom := deepCopy (room s) in
      setRedoStack []
        (addToHistory
           (mkAction (action_type action)
                     (("previousRoom", PRoom previousRoom) :: payload action))
           s)
    else s in
  setRoom newRoom s1.

(** ** Mutation commands *)

Definition setRoomName (n : string) (s : State) : State :=
  let newRoom := setIndex ("@ref room(" ++ n ++ ")") (setName n (room s)) in
  updateRoomWithHistory newRoom (mkAction "RENAME_ROOM" [("name", PStr n)]) s.

(** [layer?.type === 'object'] for the first layer named [layerName].  The
    callers pass [instance_layer_name as string]: a number equals no layer
    name. *)
Definition canPlaceObjectOnLayer (r : Room) (layerName : LayerRef) : bool :=
  match layerName with
  | RefStr n =>
      match find (hasName n) (layers r) with
      | Some layer => isObjectLayer layer
      | None => false
      end
  | RefNum _ => false
  end.

Definition addInstance (instance : Instance) (s : State) : State :=
  if negb (canPlaceObjectOnLayer (room s) (instance_layer_name instance)) then s
  else
    let newRoom := setInstances (instances (room s) ++ [instance]) (room s) in
    updateRoomWithHistory newRoom
      (mkAction "ADD_INSTANCE"
                [("instance", PInstance instance); ("previousRoom", PRoom (room s))])
      s.

(** [None]: [removedInstance.obj_name] throws a [TypeError] before anything
    is recorded or set, when [index] is off the array. *)
Definition removeInstance (i : Z) (s : State) : option State :=
  match jsNth (instances (room s)) i with
  | None => None
  | Some removedInstance =>
      let newRoom :=
        setInstances (removeAt (Z.to_nat i) (instances (room s))) (room s) in
      Some (updateRoomWithHistory newRoom
              (mkAction "REMOVE_INSTANCE"
                        [("instance", PInstance removedInstance); ("index", PNum i)])
              s)
  end.

(** [layer.type || 'tile'] and the default of [visible] apply to a layer
    that lacks the field; a [Layer] has both. *)
Definition addLayer (layer : Layer) (s : State) : State :=
  let completeLayer :=
    setLayerVisible (layer_visible layer) (setLayerType (layer_type layer) layer) in
  let newRoom := setLayers (layers (room s) ++ [completeLayer]) (room s) in
  updateRoomWithHistory newRoom
    (mkAction "ADD_LAYER" [("layer", PLayer completeLayer)]) s.

Definition removeLayer (n : string) (s : State) : State :=
  match find (hasName n) (layers (room s)) with
  | None => s
  | Some layerToRemove =>
      let newRoom :=
        setInstances (filter (fun i => negb (onLayer n i)) (instances (room s)))
          (setLayers (filter (fun l => negb (hasName n l)) (layers (room s)))
             (room s)) in
      updateRoomWithHistory newRoom
        (mkAction "REMOVE_LAYER"
           [("layer", PLayer layerToRemove);
            ("removedInstances", PInstances (filter (onLayer n) (instances (room s))))])
        s
  end.

Definition toggleLayerVisibility (n : string) (s : State) : State :=
  let newLayers :=
    map (fun l => if hasName n l then setLayerVisible (negb (layer_visible l)) l else l)
        (layers (room s)) in
  let newVisibility :=
    match find (hasName n) (layers (room s)) with
    | Some layer => negb (layer_visible layer)
    | None => true
    end in
  updateRoomWithHistory (setLayers newLayers (room s))
    (mkAction "TOGGLE_LAYER_VISIBILITY"
              [("layerName", PStr n); ("visible", PBool newVisibility)])
    s.

Definition layerTypeName (t : LayerType) : string :=
  match t with TileLayer => "tile" | ObjectLayer => "object" end.

Definition updateLayerType (n : string) (t : LayerType) (s : State) : State :=
  let newLayers :=
    map (fun l => if hasName n l then setLayerType t l else l) (layers (room s)) in
  updateRoomWithHistory (setLayers newLayers (room s))
    (mkAction "UPDATE_LAYER_TYPE"
              [("layerName", PStr n); ("type", PStr (layerTypeName t))])
    s.

Definition updateLayerTexture (n : string) (texture : string) (s : State) : State :=
  let newLayers :=
    map (fun l => if hasName n l then setLayerTexture (Some texture) l else l)
        (layers (room s)) in
  updateRoomWithHistory (setLayers newLayers (room s))
    (mkAction "UPDATE_LAYER_TEXTURE"
              [("layerName", PStr n); ("texture", PStr texture)])
    s.

(** The tile array of [addTile] after its write: the tile at the cell is
    replaced where it stands, or the new tile is pushed. *)
Definition upsertTile (x y i : Z) (tiles : list Tile) : list Tile :=
  match findIndex (sameCell x y) tiles with
  | Some existingTileIndex => replaceAt existingTileIndex (mkTile x y i None) tiles
  | None => tiles ++ [mkTile x y i None]
  end.

Definition addTile (layerName : string) (x y i : Z) (s : State) : State :=
  let newRoom := deepCopy (room s) in
  match find (hasName layerName) (layers newRoom) with
  | None => s
  | Some layer =>
      if negb (isTileLayer layer) then s
      else
        let newRoom :=
          setLayers
            (updateFirst (hasName layerName)
               (fun l => setLayerTiles (upsertTile x y i (layer_tiles l)) l)
               (layers newRoom))
            newRoom in
        if isPainting s then
          setRoom newRoom
            (setPaintedTiles (paintedTiles s ++ [mkBatched layerName x y (Some i)]) s)
        else
          updateRoomWithHistory newRoom
            (mkAction "ADD_TILE"
               [("layerName", PStr layerName); ("x", PNum x); ("y", PNum y);
                ("index", PNum i)])
            s
  end.

Definition startPainting (s : State) : State :=
  setInitialRoomState (Some (deepCopy (room s)))
    (setPaintedTiles [] (setIsPainting true s)).

Definition resetPainting (s : State) : State :=
  setInitialRoomState None (setPaintedTiles [] (setIsPainting false s)).

(** [previousRoom: initialRoomState] binds [undefined] when no session
    snapshot is held. *)
Definition endPainting (s : State) : State :=
  if negb (isPainting s) || (List.length (paintedTiles s) =? 0)%nat then resetPainting s
  else
    let action :=
      mkAction "BATCH_ADD_TILES"
        [("batchedTiles", PBatched (paintedTiles s));
         ("previousRoom",
          match initialRoomState s with Some r => PRoom r | None => PUndefined end)] in
    resetPainting (addToHistory action s).

(** Outside a paint session the updater splices the tile out of
    [layer.tiles], the array that [prevRoom], [newRoom] and the [room] read
    by [updateRoomWithHistory] all share ([{...prevRoom}] copies the top
    level only): when [updateRoomWithHistory] copies [room] for the history
    entry, the tile is already gone from it, and its [previousRoom] comes
    before the one of the payload. *)
Definition removeTile (layerName : string) (x y : Z) (s : State) : State :=
  if isPainting s then
    let s1 := setPaintedTiles (paintedTiles s ++ [mkBatched layerName x y None]) s in
    match find (hasName layerName) (layers (room s)) with
    | None => s1
    | Some layer =>
        if negb (isTileLayer layer) then s1
        else
          setRoom
            (setLayers
               (updateFirst (hasName layerName)
                  (fun l => setLayerTiles
                              (filter (fun t => negb (sameCell x y t)) (layer_tiles l)) l)
                  (layers (room s)))
               (room s))
            s1
    end
  else
    match find (hasName layerName) (layers (room s)) with
    | None => s
    | Some layer =>
        if negb (isTileLayer layer) then s
        else
          match findIndex (sameCell x y) (layer_tiles layer) with
          | None => s
          | Some tileIndex =>
              let previousRoom := deepCopy (room s) in
              let newRoom :=
                setLayers
                  (updateFirst (hasName layerName)
                     (fun l => setLayerTiles (removeAt tileIndex (layer_tiles l)) l)
                     (layers (room s)))
                  (room s) in
              updateRoomWithHistory newRoom
                (mkAction "REMOVE_TILE"
                   [("layerName", PStr layerName); ("x", PNum x); ("y", PNum y);
                    ("previousRoom", PRoom previousRoom)])
                (setRoom newRoom s)
          end
    end.

(** The bookkeeping of the open tabs and the save to local storage are left
    out: they do not touch the room or the two stacks. *)
Definition updateRoomSize (w h : Z) (s : State) : State :=
  let newRoom := setHeight h (setWidth w (deepCopy (room s))) in
  let newRoom :=
    setLayers
      (map (fun layer =>
              if isTileLayer layer then
                setLayerTiles
                  (filter (fun tile => withinBounds w h (tile_x tile) (tile_y tile))
                          (layer_tiles layer))
                  layer
              else layer)
           (layers newRoom))
      newRoom in
  let newRoom :=
    setInstances
      (filter (fun i => withinBounds w h (inst_x i) (inst_y i)) (instances newRoom))
      newRoom in
  let action :=
    mkAction "UPDATE_ROOM_SIZE"
      [("width", PNum w); ("height", PNum h);
       ("previousWidth", PNum (width (room s)));
       ("previousHeight", PNum (height (room s)));
       ("previousRoom", PRoom (room s))] in
  addToHistory action (setRoom newRoom s).

Definition optStr (o : option string) : PVal :=
  match o with Some v => PStr v | None => PUndefined end.

Definition updateRoomType (t : option string) (s : State) : State :=
  updateRoomWithHistory (setType t (room s))
    (mkAction "UPDATE_ROOM_TYPE" [("previousType", optStr (type (room s)))]) s.

Definition updateRoomBiome (b : option string) (s : State) : State :=
  updateRoomWithHistory (setBiome b (room s))
    (mkAction "UPDATE_ROOM_BIOME" [("previousBiome", optStr (biome (room s)))]) s.

Definition updateRoomChance (c : option Z) (s : State) : State :=
  setRoom (setChance c (room s)) s.

(** ** Brush engine *)

(** [tileSize] of [applyTileBrush], a constant of the source. *)
Definition brushTileSize : Z := 16.

(** One pass of [tileBrush.tiles.forEach] in [applyTileBrush], on the tiles
    of [targetLayer] and the entries of [batchedTiles] collected so far.  An
    entry records the index the cell held BEFORE the stamp, [null] for a
    free cell. *)
Definition stampTile (r : Room) (layerName : string) (x y : Z)
    (acc : list Tile * list BatchedTile) (brushTile : BrushTile)
    : list Tile * list BatchedTile :=
  let (tiles, batchedTiles) := acc in
  let tileX := x + mathRound (brush_x brushTile * inject_Z brushTileSize) in
  let tileY := y + mathRound (brush_y brushTile * inject_Z brushTileSize) in
  if (tileX <? 0) || (tileY <? 0) || (tileX >=? width r) || (tileY >=? height r)
  then acc
  else
    let existingTileIndex := findIndex (sameCell tileX tileY) tiles in
    let entry :=
      mkBatched layerName tileX tileY
        (match existingTileIndex with
         | Some i => option_map tile_index (nth_error tiles i)
         | None => None
         end) in
    let tiles :=
      match existingTileIndex with
      | Some i => removeAt i tiles
      | None => tiles
      end in
    (tiles ++ [mkTile tileX tileY (brush_index brushTile) None],
     batchedTiles ++ [entry]).

(** [applyTileBrush]: the room and the entry it leaves.  The source writes
    the tiles in place, into the array of [targetLayer.tiles].  An older
    entry of the history that holds that array (the layer of an [ADD_LAYER]
    entry, a snapshot that [redo] has set live) is written too; the
    embedding follows an entry as the value it was recorded with, and the
    properties on the stacks after a stamp are on the number and the kinds
    of the entries and on the snapshots, which are copies. *)
Definition applyTileBrush (layerName : string) (x y : Z) (s : State) : State :=
  match tileBrush s with
  | None => s
  | Some brush =>
      match findIndex (hasName layerName) (layers (room s)) with
      | None => s
      | Some layerIndex =>
          match nth_error (layers (room s)) layerIndex with
          | None => s
          | Some layer =>
              if negb (isTileLayer layer) then s
              else
                let initialRoomState := deepCopy (room s) in
                let (tiles, batchedTiles) :=
                  fold_left (stampTile (room s) layerName x y) (brush_tiles brush)
                            (layer_tiles layer, []) in
                let newRoom :=
                  setLayers (replaceAt layerIndex (setLayerTiles tiles layer)
                                       (layers (room s)))
                            (room s) in
                if isPainting s then
                  setRoom newRoom (setPaintedTiles (paintedTiles s ++ batchedTiles) s)
                else
                  setRoom newRoom
                    (addToHistory
                       (mkAction "BATCH_ADD_TILES"
                          [("batchedTiles", PBatched batchedTiles);
                           ("previousRoom", PRoom initialRoomState)])
                       s)
          end
      end
  end.

(** [Math.floor (v / tileSize) * tileSize] of [placeTile], for a tile size
    [0 < tileSize].  At the size 0, and at the [NaN] that the size field
    hands over when it is emptied, the source computes [NaN], which the
    integers do not have: the properties that range over the tile size
    assume it positive. *)
Definition snapToCell (tileSize v : Z) : Z := floorDiv v tileSize * tileSize.

(** [(brushTopLeftX, brushTopLeftY)] of [placeTile]. *)
Definition brushTopLeft (tileSize : Z) (brush : TileBrush) (x y : Z) : Z * Z :=
  (snapToCell tileSize x - offsetX brush * tileSize,
   snapToCell tileSize y - offsetY brush * tileSize).

(** [placeTile] of the canvas at the cursor [(x, y)], in room coordinates.
    [tileSize], [selectedLayer], [selectedTileIndex] and [lastTilePosition]
    are state of the canvas; its writes to [lastTilePosition] and [selectedObject] are not
    part of the document. *)
Definition placeTile (tileSize : Z) (selectedLayer : option string)
    (selectedTileIndex : Z) (lastTilePosition : option (Z * Z)) (x y : Z)
    (s : State) : State :=
  match selectedLayer with
  | None => s
  | Some selected =>
      match find (hasName selected) (layers (room s)) with
      | None => s
      | Some layerObj =>
          if negb (isTileLayer layerObj) then s
          else
            match tileBrush s with
            | Some brush =>
                let (brushTopLeftX, brushTopLeftY) := brushTopLeft tileSize brush x y in
                applyTileBrush selected brushTopLeftX brushTopLeftY s
            | None =>
                let snappedX := snapToCell tileSize x in
                let snappedY := snapToCell tileSize y in
                if (snappedX <? 0) || (snappedY <? 0)
                   || (snappedX >=? width (room s)) || (snappedY >=? height (room s))
                then s
                else
                  match lastTilePosition with
                  | Some (lx, ly) =>
                      if (lx =? snappedX) && (ly =? snappedY) then s
                      else addTile selected snappedX snappedY selectedTileIndex s
                  | None => addTile selected snappedX snappedY selectedTileIndex s
                  end
            end
      end
  end.

Record SelectionArea : Type := mkSelection {
  sel_x : Z;
  sel_y : Z;
  sel_width : Z;
  sel_height : Z
}.

(** [Math.min (...l)] of a list with head [a]. *)
Definition minOf (a : Z) (l : list Z) : Z := fold_left Z.min l a.

(** The tiles [getTilesInSelection] returns.  It also marks the [selected]
    flag of the tiles of the layer, which no brush keeps. *)
Definition getTilesInSelection (sel : SelectionArea) (layer : Layer) : list Tile :=
  filter (fun tile =>
            (tile_x tile >=? sel_x sel) && (tile_x tile <? sel_x sel + sel_width sel)
            && (tile_y tile >=? sel_y sel) && (tile_y tile <? sel_y sel + sel_height sel))
         (layer_tiles layer).

(** [copySelectionToBrush] of the canvas: the brush it sets, [None] where it
    returns without one. *)
Definition copySelectionToBrush (tileSize : Z) (selectionArea : option SelectionArea)
    (selectedLayer : option string) (r : Room) : option TileBrush :=
  match selectionArea, selectedLayer with
  | Some sel, Some selected =>
      match find (hasName selected) (layers r) with
      | None => None
      | Some layerObj =>
          match layer_texture layerObj with
          | None => None
          | Some texture =>
              if negb (isTileLayer layerObj) || negb (truthyString texture) then None
              else
                match getTilesInSelection sel layerObj with
                | [] => None
                | t0 :: rest =>
                    let tilesInSelection := t0 :: rest in
                    let minX := minOf (tile_x t0) (map tile_x rest) in
                    let minY := minOf (tile_y t0) (map tile_y rest) in
                    let widthInTiles := ceilDiv (sel_width sel) tileSize in
                    let heightInTiles := ceilDiv (sel_height sel) tileSize in
                    let normalizedTiles :=
                      map (fun tile =>
                             mkBrushTile
                               (inject_Z (tile_x tile - minX) / inject_Z tileSize)
                               (inject_Z (tile_y tile - minY) / inject_Z tileSize)
                               (tile_index tile))
                          tilesInSelection in
                    Some (mkTileBrush normalizedTiles widthInTiles heightInTiles texture
                                      (floorDiv widthInTiles 2) (floorDiv heightInTiles 2))
                end
          end
      end
  | _, _ => None
  end.

(** ** History engine *)

Definition setTileIndex (v : Z) (t : Tile) : Tile :=
  mkTile (tile_x t) (tile_y t) v (tile_selected t).

(** A payload field read as [string | undefined]. *)
Definition asOptString (v : PVal) : option string :=
  match v with PStr v' => Some v' | _ => None end.

(** [layer.tiles = layer.tiles.filter (t => !(t.x === x && t.y === y))]. *)
Definition clearCell (x y : Z) (l : Layer) : Layer :=
  setLayerTiles (filter (fun t => negb (sameCell x y t)) (layer_tiles l)) l.

(** [layer.tiles.push ({x, y, index})]. *)
Definition pushTile (x y i : Z) (l : Layer) : Layer :=
  setLayerTiles (layer_tiles l ++ [mkTile x y i None]) l.

(** One pass of [tilesBeforePlacement.forEach] in the undo of a prefab. *)
Definition restoreTile (r : Room) (tile : BatchedTile) : Room :=
  match findIndex (hasName (batched_layerName tile)) (layers r) with
  | None => r
  | Some layerIndex =>
      setLayers
        (updateAt layerIndex
           (fun layer =>
              match batched_index tile with
              | None => clearCell (batched_x tile) (batched_y tile) layer
              | Some i =>
                  match findIndex (sameCell (batched_x tile) (batched_y tile))
                                  (layer_tiles layer) with
                  | Some tileIndex =>
                      setLayerTiles
                        (updateAt tileIndex (setTileIndex i) (layer_tiles layer)) layer
                  | None => pushTile (batched_x tile) (batched_y tile) i layer
                  end
              end)
           (layers r))
        r
  end.

(** The [switch] of [undo], reached by an action without [previousRoom]:
    the room it sets, the room itself where it sets none. *)
Definition undoSwitch (lastUndoAction : RoomAction) (r : Room) : Room :=
  let p := payload lastUndoAction in
  let t := action_type lastUndoAction in
  if (t =? "ADD_INSTANCE")%string then
    match field "instance" p with
    | PInstance instanceToRemove =>
        match findIndex (sameInstance instanceToRemove) (instances r) with
        | Some instanceIndex => setInstances (removeAt instanceIndex (instances r)) r
        | None => r
        end
    | _ => r
    end
  else if (t =? "REMOVE_INSTANCE")%string then
    match field "instance" p with
    | PInstance instanceToRestore =>
        match instance_layer_name instanceToRestore with
        | RefStr n =>
            if canPlaceObjectOnLayer r (RefStr n)
            then setInstances (instances r ++ [instanceToRestore]) r
            else r
        | RefNum _ => r
        end
    | _ => r
    end
  else if (t =? "ADD_LAYER")%string then
    match field "layer" p with
    | PLayer layerToRemove =>
        let layerName := layer_name layerToRemove in
        setInstances (filter (fun i => negb (onLayer layerName i)) (instances r))
          (setLayers (filter (fun l => negb (hasName layerName l)) (layers r)) r)
    | _ => r
    end
  else if (t =? "REMOVE_LAYER")%string then
    match field "layer" p with
    | PLayer layerToRestore =>
        let removedInstances :=
          match field "removedInstances" p with PInstances l => l | _ => [] end in
        setInstances (instances r ++ removedInstances)
          (setLayers (layers r ++ [layerToRestore]) r)
    | _ => r
    end
  else if (t =? "ADD_TILE")%string then
    match field "layerName" p, field "x" p, field "y" p with
    | PStr layerName, PNum x, PNum y =>
        if truthyString layerName then
          match findIndex (hasName layerName) (layers r) with
          | Some layerIndex =>
              setLayers (updateAt layerIndex (clearCell x y) (layers r)) r
          | None => r
          end
        else r
    | _, _, _ => r
    end
  else if (t =? "REMOVE_TILE")%string then
    match field "layerName" p, field "x" p, field "y" p, field "removedTile" p with
    | PStr layerName, PNum x, PNum y, PTile removedTile =>
        if truthyString layerName then
          match findIndex (hasName layerName) (layers r) with
          | Some layerIndex =>
              setLayers
                (updateAt layerIndex (pushTile x y (tile_index removedTile)) (layers r)) r
          | None => r
          end
        else r
    | _, _, _, _ => r
    end
  else if (t =? "PLACE_PREFAB")%string then
    match field "tilesBeforePlacement" p with
    | PBatched tilesBeforePlacement => fold_left restoreTile tilesBeforePlacement r
    | _ => r
    end
  else if (t =? "UPDATE_ROOM_TYPE")%string then
    setType (asOptString (field "previousType" p)) r
  else if (t =? "UPDATE_ROOM_BIOME")%string then
    setBiome (asOptString (field "previousBiome" p)) r
  else if (t =? "APPLY_TILE_BRUSH")%string then
    match field "layerName" p, field "tilesBefore" p with
    | PStr layerName, PTiles tilesBefore =>
        if truthyString layerName then
          match findIndex (hasName layerName) (layers r) with
          | Some layerIndex =>
              setLayers (updateAt layerIndex (setLayerTiles tilesBefore) (layers r)) r
          | None => r
          end
        else r
    | _, _ => r
    end
  else if (t =? "BATCH_ADD_TILES")%string || (t =? "BATCH_REMOVE_TILES")%string then
    match field "previousRoom" p with
    | PRoom previousRoom => previousRoom
    | _ => r
    end
  else r.

(** [undo].  The handler raises [isUndoRedoAction] and schedules a timer of
    delay zero that lowers it again; the timer runs before the next event,
    so the flag is down when [undo] is over. *)
Definition undo (s : State) : State :=
  match top (undoStack s) with
  | None => s
  | Some lastUndoAction =>
      let s1 := setIsUndoRedoAction true s in
      let s2 :=
        match field "previousRoom" (payload lastUndoAction) with
        | PRoom previousRoom =>
            setUndoStack (removelast (undoStack s))
              (setRedoStack (redoStack s ++ [lastUndoAction])
                 (setRoom (deepCopy previousRoom) s1))
        | _ =>
            setUndoStack (removelast (undoStack s))
              (setRedoStack (redoStack s ++ [lastUndoAction])
                 (setRoom (undoSwitch lastUndoAction (room s)) s1))
        end in
      setIsUndoRedoAction false s2
  end.

(** One pass of [batchedTiles.forEach] in the redo of a batch: the entry is
    applied as the tile to set ([index]) or to clear ([null]). *)
Definition redoBatched (r : Room) (entry : BatchedTile) : Room :=
  match findIndex (hasName (batched_layerName entry)) (layers r) with
  | None => r
  | Some layerIndex =>
      setLayers
        (updateAt layerIndex
           (fun layer =>
              let cleared := clearCell (batched_x entry) (batched_y entry) layer in
              match batched_index entry with
              | Some i => pushTile (batched_x entry) (batched_y entry) i cleared
              | None => cleared
              end)
           (layers r))
        r
  end.

(** The [switch] of [redo]: the room it sets.  A kind without a [case]
    ([RENAME_ROOM], [TOGGLE_LAYER_VISIBILITY], [UPDATE_LAYER_TYPE],
    [UPDATE_LAYER_TEXTURE], [UPDATE_ROOM_SIZE], [PLACE_PREFAB],
    [BATCH_REMOVE_TILES]) sets none. *)
Definition redoSwitch (lastRedoAction : RoomAction) (r : Room) : Room :=
  let p := payload lastRedoAction in
  let t := action_type lastRedoAction in
  if (t =? "ADD_INSTANCE")%string then
    match field "instance" p with
    | PInstance instanceToAdd =>
        match instance_layer_name instanceToAdd with
        | RefStr n =>
            if canPlaceObjectOnLayer r (RefStr n)
            then setInstances (instances r ++ [instanceToAdd]) r
            else r
        | RefNum _ => r
        end
    | _ => r
    end
  else if (t =? "REMOVE_INSTANCE")%string then
    match field "instance" p with
    | PInstance instanceToRemove =>
        match findIndex (sameInstance instanceToRemove) (instances r) with
        | Some instanceIndex => setInstances (removeAt instanceIndex (instances r)) r
        | None => r
        end
    | _ => r
    end
  else if (t =? "ADD_LAYER")%string then
    match field "layer" p with
    | PLayer layerToAdd => setLayers (layers r ++ [layerToAdd]) r
    | _ => r
    end
  else if (t =? "REMOVE_LAYER")%string then
    match field "layer" p with
    | PLayer layerToRemove =>
        let layerName := layer_name layerToRemove in
        setInstances (filter (fun i => negb (onLayer layerName i)) (instances r))
          (setLayers (filter (fun l => negb (hasName layerName l)) (layers r)) r)
    | _ => r
    end
  else if (t =? "ADD_TILE")%string then
    match field "layerName" p, field "x" p, field "y" p, field "tileIndex" p with
    | PStr layerName, PNum x, PNum y, PNum tileIndex =>
        if truthyString layerName then
          match findIndex (hasName layerName) (layers r) with
          | Some layerIndex =>
              setLayers
                (updateAt layerIndex
                   (fun l => pushTile x y tileIndex (clearCell x y l)) (layers r))
                r
          | None => r
          end
        else r
    | _, _, _, _ => r
    end
  else if (t =? "REMOVE_TILE")%string then
    match field "layerName" p, field "x" p, field "y" p, field "removedTile" p with
    | PStr layerName, PNum x, PNum y, PTile _ =>
        if truthyString layerName then
          match findIndex (hasName layerName) (layers r) with
          | Some layerIndex =>
              setLayers (updateAt layerIndex (clearCell x y) (layers r)) r
          | None => r
          end
        else r
    | _, _, _, _ => r
    end
  else if (t =? "UPDATE_ROOM_TYPE")%string then
    match field "previousRoom" p with
    | PRoom previousRoom => previousRoom
    | _ => setType (asOptString (field "type" p)) r
    end
  else if (t =? "UPDATE_ROOM_BIOME")%string then
    match field "previousRoom" p with
    | PRoom previousRoom => previousRoom
    | _ => setBiome (asOptString (field "biome" p)) r
    end
  else if (t =? "APPLY_TILE_BRUSH")%string then
    match field "previousRoom" p with
    | PRoom previousRoom => previousRoom
    | _ =>
        match field "layerName" p, field "tilesModified" p with
        | PStr layerName, PModified tilesModified =>
            if truthyString layerName then
              match findIndex (hasName layerName) (layers r) with
              | Some layerIndex =>
                  setLayers
                    (updateAt layerIndex
                       (fun targetLayer =>
                          let cleared :=
                            fold_left
                              (fun l m => clearCell (modified_x m) (modified_y m) l)
                              tilesModified targetLayer in
                          fold_left
                            (fun l m =>
                               match prevIndex m with
                               | Some i => pushTile (modified_x m) (modified_y m) i l
                               | None => l
                               end)
                            tilesModified cleared)
                       (layers r))
                    r
              | None => r
              end
            else r
        | _, _ => r
        end
    end
  else if (t =? "BATCH_ADD_TILES")%string then
    match field "batchedTiles" p with
    | PBatched batchedTiles => fold_left redoBatched batchedTiles r
    | _ => r
    end
  else r.

(** [redo]; the flag as in [undo]. *)
Definition redo (s : State) : State :=
  match top (redoStack s) with
  | None => s
  | Some lastRedoAction =>
      let s1 := setIsUndoRedoAction true s in
      let s2 :=
        setUndoStack (undoStack s ++ [lastRedoAction])
          (setRedoStack (removelast (redoStack s))
             (setRoom (redoSwitch lastRedoAction (room s)) s1)) in
      setIsUndoRedoAction false s2
  end.

(** ** Layer renaming ([handleSaveRename] of the sidebar)

    The sidebar renames a layer with [setRoom], past the history.  [trim] is
    [String.prototype.trim]. *)
Definition handleSaveRename (trim : string -> string) (oldName newName : string)
    (s : State) : State :=
  if negb (truthyString (trim newName)) || (newName =? oldName)%string then s
  else
    match find (hasName oldName) (layers (room s)) with
    | None => s
    | Some _ =>
        let newLayers :=
          map (fun layer =>
                 if hasName oldName layer then setLayerName (trim newName) layer
                 else layer)
              (layers (room s)) in
        let newInstances :=
          map (fun instance =>
                 if onLayer oldName instance
                 then setInstanceLayer (RefStr (trim newName)) instance
                 else instance)
              (instances (room s)) in
        setRoom (setInstances newInstances (setLayers newLayers (room s))) s
    end.

(** ** The closed set of mutation commands *)

Inductive Command : Type :=
| RenameRoom (n : string)
| AddInstance (i : Instance)
| RemoveInstance (i : Z)
| AddLayer (l : Layer)
| RemoveLayer (n : string)
| ToggleLayerVisibility (n : string)
| UpdateLayerType (n : string) (t : LayerType)
| UpdateLayerTexture (n : string) (texture : string)
| RenameLayer (oldName newName : string)
| AddTile (layerName : string) (x y i : Z)
| RemoveTile (layerName : string) (x y : Z)
| ResizeRoom (w h : Z)
| UpdateRoomType (t : option string)
| UpdateRoomBiome (b : option string)
| UpdateRoomChance (c : option Z)
| BatchTiles (layerName : string) (x y : Z).

(** A command as one event.  An exception thrown by the handler
    ([removeInstance] off the array) leaves the state as it was. *)
Definition exec (trim : string -> string) (c : Command) (s : State) : State :=
  match c with
  | RenameRoom n => setRoomName n s
  | AddInstance i => addInstance i s
  | RemoveInstance i =>
      match removeInstance i s with Some s' => s' | None => s end
  | AddLayer l => addLayer l s
  | RemoveLayer n => removeLayer n s
  | ToggleLayerVisibility n => toggleLayerVisibility n s
  | UpdateLayerType n t => updateLayerType n t s
  | UpdateLayerTexture n texture => updateLayerTexture n texture s
  | RenameLayer oldName newName => handleSaveRename trim oldName newName s
  | AddTile layerName x y i => addTile layerName x y i s
  | RemoveTile layerName x y => removeTile layerName x y s
  | ResizeRoom w h => updateRoomSize w h s
  | UpdateRoomType t => updateRoomType t s
  | UpdateRoomBiome b => updateRoomBiome b s
  | UpdateRoomChance c' => updateRoomChance c' s
  | BatchTiles layerName x y => applyTileBrush layerName x y s
  end.

(** The commands whose handler records the room it starts from: all but
    [RemoveTile] (its entry holds the room after the removal),
    [UpdateRoomChance] and [RenameLayer] (no entry). *)
Definition snapshotCommand (c : Command) : bool :=
  match c with
  | RemoveTile _ _ _ | UpdateRoomChance _ | RenameLayer _ _ => false
  | _ => true
  end.

Definition run (trim : string -> string) (cs : list Command) (s : State) : State :=
  fold_left (fun st c => exec trim c st) cs s.

(** [n] calls of [undo]. *)
Fixpoint undoTimes (n : nat) (s : State) : State :=
  match n with
  | O => s
  | S k => undoTimes k (undo s)
  end.

(** ** Paint sessions *)

Inductive PaintOp : Type :=
| PaintAdd (layerName : string) (x y i : Z)
| PaintRemove (layerName : string) (x y : Z).

Definition paint (op : PaintOp) (s : State) : State :=
  match op with
  | PaintAdd layerName x y i => addTile layerName x y i s
  | PaintRemove layerName x y => removeTile layerName x y s
  end.

(** A stroke: [startPainting], the operations, [endPainting]. *)
Definition paintSession (ops : list PaintOp) (s : State) : State :=
  endPainting (fold_left (fun st op => paint op st) ops (startPainting s)).

(** An operation the session buffers: every removal, and an addition on an
    existing layer of type [tile]. *)
Definition buffered (r : Room) (op : PaintOp) : bool :=
  match op with
  | PaintAdd layerName _ _ _ =>
      match find (hasName layerName) (layers r) with
      | Some layer => isTileLayer layer
      | None => false
      end
  | PaintRemove _ _ _ => true
  end.

(** ** The tile invariant *)

Definition cell (t : Tile) : Z * Z := (tile_x t, tile_y t).

(** At most one tile per cell. *)
Definition uniqueCells (tiles : list Tile) : Prop := NoDup (map cell tiles).



(** The tiles of the first layer named [n], the layer tile commands write. *)
Definition tilesOf (n : string) (r : Room) : list Tile :=
  match find (hasName n) (layers r) with
  | Some l => layer_tiles l
  | None => []
  end.

(** ** Brush library *)

(** A value [JSON.parse] returns.  The fields of an object are bindings read
    by key, one per key. *)
#[local] Unset Elimination Schemes.
Inductive JSON : Type :=
| JNull
| JBool (b : bool)
| JNum (n : Q)
| JStr (s : string)
| JArr (l : list JSON)
| JObj (fields : list (string * JSON)).
#[local] Set Elimination Schemes.

Fixpoint lookup (k : string) (fields : list (string * JSON)) : option JSON :=
  match fields with
  | [] => None
  | (k', v) :: t => if (k =? k')%string then Some v else lookup k t
  end.

(** [v.k]: [undefined] on a value without the property. *)
Definition prop (k : string) (v : JSON) : option JSON :=
  match v with
  | JObj fields => lookup k fields
  | _ => None
  end.

Definition truthy (v : JSON) : bool :=
  match v with
  | JNull => false
  | JBool b => b
  | JNum n => negb (Qeq_bool n 0)
  | JStr s => truthyString s
  | JArr _ | JObj _ => true
  end.

Definition typeofString (v : option JSON) : bool :=
  match v with Some (JStr _) => true | _ => false end.
Definition typeofNumber (v : option JSON) : bool :=
  match v with Some (JNum _) => true | _ => false end.
Definition isArray (v : option JSON) : bool :=
  match v with Some (JArr _) => true | _ => false end.

(** The callback of [parsedBrushes.filter]. *)
Definition validBrush (brush : JSON) : bool :=
  truthy brush
  && typeofString (prop "id" brush)
  && typeofString (prop "name" brush)
  && isArray (prop "tiles" brush)
  && typeofNumber (prop "width" brush)
  && typeofNumber (prop "height" brush)
  && typeofString (prop "texture" brush).

(** [importBrushLibrary]: the library it leaves and the boolean it returns.
    [JSON_parse] is [JSON.parse], [None] where it throws; the library holds
    the parsed objects as they are. *)
Definition importBrushLibrary (JSON_parse : string -> option JSON)
    (savedBrushes : list JSON) (jsonData : string) : list JSON * bool :=
  match JSON_parse jsonData with
  | None => (savedBrushes, false)
  | Some parsedBrushes =>
      match parsedBrushes with
      | JArr entries =>
          let validBrushes := filter validBrush entries in
          if (0 <? List.length validBrushes)%nat then (validBrushes, true)
          else (savedBrushes, false)
      | _ => (savedBrushes, false)
      end
  end.

(** An entry as the specification words it: an object with a string [id]
    and [name], an array of [tiles], a numeric [width] and [height], and a
    string [texture]. *)
Definition wellFormedEntry (v : JSON) : Prop :=
  exists fields,
    v = JObj fields
    /\ (exists i, lookup "id" fields = Some (JStr i))
    /\ (exists n, lookup "name" fields = Some (JStr n))
    /\ (exists t, lookup "tiles" fields = Some (JArr t))
    /\ (exists w, lookup "width" fields = Some (JNum w))
    /\ (exists h, lookup "height" fields = Some (JNum h))
    /\ (exists t, lookup "texture" fields = Some (JStr t)).

(** ** Recent rooms ([saveRoom], [loadRoom]) *)

(** [[name, ...recentRooms.filter (r => r !== name)].slice (0, 10)]: the
    list of recent rooms after [name] is saved or loaded. *)
Definition updatedRecent (n : string) (recentRooms : list string) : list string :=
  firstn 10 (n :: filter (fun r => negb (r =? n)%string) recentRooms).

(** ** Tabs *)

Inductive Tool : Type := ToolSelect | ToolPlace | ToolErase | ToolPan.

Record RoomTab : Type := mkRoomTab {
  tab_id : string;
  tab_room : Room;
  tab_undoStack : list RoomAction;
  tab_redoStack : list RoomAction;
  tab_scale : Q;
  tab_panOffset : Q * Q;
  tab_selectedLayer : option string;
  tab_selectedTool : Tool
}.

(** The state of [RoomProvider] with its tabs: the state of the engine, the
    view of the active document, the tabs and the id of the active one. *)
Record Editor : Type := mkEditor {
  live : State;
  scale : Q;
  panOffset : Q * Q;
  selectedLayer : option string;
  selectedTool : Tool;
  tabs : list RoomTab;
  activeTabId : string
}.

(** [tab => tab.id === id]. *)
Definition hasId (id : string) (tab : RoomTab) : bool := (tab_id tab =? id)%string.

(** [getTabIdForRoom]. *)
Definition getTabIdForRoom (roomName : string) (e : Editor) : option string :=
  option_map tab_id
    (find (fun tab => (name (tab_room tab) =? roomName)%string) (tabs e)).

(** The updater both [switchToTab] and [addTab] queue to store the live
    document in the slot of the active tab. *)
Definition saveActiveTab (e : Editor) (prevTabs : list RoomTab) : list RoomTab :=
  map (fun tab =>
         if hasId (activeTabId e) tab then
           mkRoomTab (tab_id tab) (room (live e)) (undoStack (live e))
                     (redoStack (live e)) (scale e) (panOffset e)
                     (selectedLayer e) (selectedTool e)
         else tab)
      prevTabs.

(** [switchToTab]: the target is looked up in the tabs as they were when the
    handler was created, before the slot of the active tab is stored. *)
Definition switchToTab (tabId : string) (e : Editor) : Editor :=
  if (tabId =? activeTabId e)%string then e
  else
    let tabs1 :=
      if truthyString (activeTabId e) then saveActiveTab e (tabs e) else tabs e in
    match find (hasId tabId) (tabs e) with
    | Some targetTab =>
        mkEditor
          (setRedoStack (tab_redoStack targetTab)
             (setUndoStack (tab_undoStack targetTab)
                (setRoom (tab_room targetTab) (live e))))
          (tab_scale targetTab) (tab_panOffset targetTab)
          (tab_selectedLayer targetTab) (tab_selectedTool targetTab)
          tabs1 tabId
    | None =>
        mkEditor (live e) (scale e) (panOffset e) (selectedLayer e) (selectedTool e)
                 tabs1 (activeTabId e)
    end.

(** [addTab].  [newTabId] is [`tab-${Date.now ()}`]. *)
Definition addTab (newTabId : string) (newRoom : Room) (e : Editor) : Editor :=
  match find (fun tab => (name (tab_room tab) =? name newRoom)%string) (tabs e) with
  | Some existingTab => switchToTab (tab_id existingTab) e
  | None =>
      let roomWithLayers :=
        setLayers
          (if (0 <? List.length (layers newRoom))%nat then layers newRoom
           else defaultLayers)
          newRoom in
      let newTab :=
        mkRoomTab newTabId roomWithLayers [] [] 1%Q (0%Q, 0%Q) None ToolSelect in
      let tabs1 :=
        if truthyString (activeTabId e) then saveActiveTab e (tabs e) else tabs e in
      mkEditor
        (setRedoStack [] (setUndoStack [] (setRoom roomWithLayers (live e))))
        1%Q (0%Q, 0%Q) None ToolSelect
        (tabs1 ++ [newTab]) newTabId
  end.

(** [closeTab].  [None]: [tabs[newIndex].id] throws a [TypeError] when the
    active tab to close is not among the tabs. *)
Definition closeTab (tabId : string) (e : Editor) : option Editor :=
  if (List.length (tabs e) <=? 1)%nat then Some e
  else
    let remove (e1 : Editor) :=
      mkEditor (live e1) (scale e1) (panOffset e1) (selectedLayer e1)
               (selectedTool e1)
               (filter (fun tab => negb (hasId tabId tab)) (tabs e1))
               (activeTabId e1) in
    if (tabId =? activeTabId e)%string then
      match findIndex (hasId tabId) (tabs e) with
      | None => None
      | Some tabIndex =>
          let newIndex := match tabIndex with O => 1%nat | S k => k end in
          match nth_error (tabs e) newIndex with
          | None => None
          | Some neighbour => Some (remove (switchToTab (tab_id neighbour) e))
          end
      end
    else Some (remove e).

(** The editor after the first tab is made: [id] is [`tab-${Date.now ()}`]. *)
Definition initialEditor (id : string) : Editor :=
  mkEditor (setRoom defaultRoom initialState) 1%Q (0%Q, 0%Q) None ToolSelect
           [mkRoomTab id defaultRoom [] [] 1%Q (0%Q, 0%Q) None ToolSelect] id.

(** The engine at work in the active tab. *)
Definition withLive (f : State -> State) (e : Editor) : Editor :=
  mkEditor (f (live e)) (scale e) (panOffset e) (selectedLayer e) (selectedTool e)
           (tabs e) (activeTabId e).

(** ** Deleting a selection ([deleteSelectedTiles] of the canvas) *)

(** [isInSelection] of [getTilesInSelection]. *)
Definition inSelection (sel : SelectionArea) (tile : Tile) : bool :=
  (tile_x tile >=? sel_x sel) && (tile_x tile <? sel_x sel + sel_width sel)
  && (tile_y tile >=? sel_y sel) && (tile_y tile <? sel_y sel + sel_height sel).

(** The write [tile.selected = isInSelection] that [getTilesInSelection]
    makes on every tile of the layer it searches. *)
Definition markSelected (sel : SelectionArea) (l : Layer) : Layer :=
  setLayerTiles
    (map (fun tile =>
            mkTile (tile_x tile) (tile_y tile) (tile_index tile)
                   (Some (inSelection sel tile)))
         (layer_tiles l))
    l.

(** [deleteSelectedTiles].  The call of [getTilesInSelection] marks the
    tiles of the selected layer in place, in the room of the state: the
    marks are on the room the handler copies for the entry and on the room
    it leaves, also where it returns for an empty selection.  A
    [selectedLayer] that is [null] or the empty string is falsy. *)
Definition deleteSelectedTiles (selectionArea : option SelectionArea)
    (selectedLayer : option string) (s : State) : State :=
  match selectionArea, selectedLayer with
  | Some sel, Some selected =>
      if negb (truthyString selected) then s
      else
        match find (hasName selected) (layers (room s)) with
        | None => s
        | Some selectedLayerObj =>
            if negb (isTileLayer selectedLayerObj) then s
            else
              let marked :=
                setLayers
                  (updateFirst (hasName selected) (markSelected sel) (layers (room s)))
                  (room s) in
              let tilesInSelection :=
                getTilesInSelection sel (markSelected sel selectedLayerObj) in
              if (List.length tilesInSelection =? 0)%nat then setRoom marked s
              else
                let previousRoom := deepCopy marked in
                let newRoom :=
                  setLayers
                    (map (fun layer =>
                            if hasName selected layer then
                              setLayerTiles
                                (filter
                                   (fun tile =>
                                      negb (existsb
                                              (fun selectedTile =>
                                                 (tile_x selectedTile =? tile_x tile)
                                                 && (tile_y selectedTile =? tile_y tile))
                                              tilesInSelection))
                                   (layer_tiles layer))
                                layer
                            else layer)
                         (layers marked))
                    marked in
                addToHistory
                  (mkAction "BATCH_REMOVE_TILES"
                     [("layerName", PStr selected);
                      ("tiles", PTiles tilesInSelection);
                      ("previousRoom", PRoom previousRoom)])
                  (setRoom newRoom s)
        end
  | _, _ => s
  end.

(** ** Cutting a selection (Ctrl+X in [handleKeyDown] of the canvas) *)

(** [layer.texture || 'default']. *)
Definition textureOrDefault (texture : option string) : string :=
  match texture with
  | Some t => if truthyString t then t else "default"
  | None => "default"
  end.

(** The branch of [handleKeyDown] for Ctrl+X, with [tileSize] for
    [customTileSize]: the brush it sets and the removal it records.  The
    selection it clears and the tool it selects are not part of the
    document. *)
Definition cutSelection (tileSize : Z) (selectionArea : option SelectionArea)
    (selectedLayer : option string) (s : State) : State :=
  match selectionArea, selectedLayer with
  | Some sel, Some selected =>
      if negb (truthyString selected) then s
      else
        match find (hasName selected) (layers (room s)) with
        | None => s
        | Some layer =>
            if negb (isTileLayer layer) then s
            else
              let marked :=
                setLayers
                  (updateFirst (hasName selected) (markSelected sel) (layers (room s)))
                  (room s) in
              let tilesInSelection :=
                getTilesInSelection sel (markSelected sel layer) in
              if (0 <? List.length tilesInSelection)%nat then
                let previousRoom := deepCopy marked in
                let minX := sel_x sel in
                let minY := sel_y sel in
                let normalizedTiles :=
                  map (fun tile =>
                         mkBrushTile
                           (inject_Z (tile_x tile - minX) / inject_Z tileSize)
                           (inject_Z (tile_y tile - minY) / inject_Z tileSize)
                           (tile_index tile))
                      tilesInSelection in
                let widthInTiles := ceilDiv (sel_width sel) tileSize in
                let heightInTiles := ceilDiv (sel_height sel) tileSize in
                let brush :=
                  mkTileBrush normalizedTiles widthInTiles heightInTiles
                              (textureOrDefault (layer_texture layer))
                              (floorDiv widthInTiles 2) (floorDiv heightInTiles 2) in
                let newRoom :=
                  setLayers
                    (map (fun l =>
                            if hasName selected l then
                              setLayerTiles
                                (filter
                                   (fun tile =>
                                      negb (existsb
                                              (fun selectedTile =>
                                                 (tile_x selectedTile =? tile_x tile)
                                                 && (tile_y selectedTile =? tile_y tile))
                                              tilesInSelection))
                                   (layer_tiles l))
                                l
                            else l)
                         (layers marked))
                    marked in
                addToHistory
                  (mkAction "BATCH_REMOVE_TILES"
                     [("layerName", PStr selected);
                      ("tiles", PTiles tilesInSelection);
                      ("previousRoom", PRoom previousRoom)])
                  (setRoom newRoom (setTileBrush (Some brush) s))
              else setRoom marked s
        end
  | _, _ => s
  end.

(** ** Vocabulary of the properties *)

(** The name and the type of a layer: what the guards of the tile commands
    read of it. *)
Definition layerSig (l : Layer) : string * LayerType := (layer_name l, layer_type l).

(** The session adds one entry to the history. *)
Definition sessionRecordsOneEntry (ops : list PaintOp) (s : State) : Prop :=
  exists entry, undoStack (paintSession ops s) = undoStack s ++ [entry].

(** The entry holds a room under [previousRoom]. *)
Definition hasSnapshot (a : RoomAction) : Prop :=
  exists r, field "previousRoom" (payload a) = PRoom r.

(** The claim of C2 at a sequence [cs] and a state [s]: as many undos as
    commands give back the room the sequence started from. *)
Definition undoneInReverse (trim : string -> string) (cs : list Command)
    (s : State) : Prop :=
  room (undoTimes (List.length cs) (run trim cs s)) = room s.


(** The cell [(x, y)] lies in [[0, w) x [0, h)]. *)
Definition insideRoom (w h x y : Z) : Prop := 0 <= x < w /\ 0 <= y < h.

(** The claim of C6 on the tiles: after the resize no tile of any layer is
    left outside the new bounds. *)
Definition resizePrunesEveryLayer (w h : Z) (s : State) : Prop :=
  forall l t, In l (layers (room (updateRoomSize w h s))) ->
              In t (layer_tiles l) ->
              insideRoom w h (tile_x t) (tile_y t).

(** [kept] holds the well-formed entries of [entries], each as often as
    [entries] does and in the same order. *)
Definition keepsWellFormed (entries kept : list JSON) : Prop :=
  exists keep, kept = filter keep entries
               /\ forall e, keep e = true <-> wellFormedEntry e.

(** The reference string of the room is the one of its name. *)
Definition indexMatchesName (r : Room) : Prop :=
  index r = ("@ref room(" ++ name r ++ ")")%string.

(** Every instance of the room sits on a layer that takes objects. *)
Definition instancesPlaced (r : Room) : Prop :=
  forall i, In i (instances r) ->
            canPlaceObjectOnLayer r (instance_layer_name i) = true.

(** The commands that neither retype nor rename a layer. *)
Definition keepsLayerSignatures (c : Command) : bool :=
  match c with
  | UpdateLayerType _ _ | RenameLayer _ _ => false
  | _ => true
  end.


(** The offsets [applyTileBrush] adds to its anchor for a brush tile. *)
Definition stampOffset (b : BrushTile) : Z * Z :=
  (mathRound (brush_x b * inject_Z brushTileSize),
   mathRound (brush_y b * inject_Z brushTileSize)).

(** The cell a brush tile lands on when the brush is anchored at [(x, y)]. *)
Definition stampCell (x y : Z) (b : BrushTile) : Z * Z :=
  (x + fst (stampOffset b), y + snd (stampOffset b)).

(** The commands whose entry [redo] does not apply again: the kinds without
    a [case] in [redo], the kinds whose [case] sets the room the entry
    holds, and [ADD_TILE], whose [case] reads the key [tileIndex] where the
    entry has [index]. *)
Definition redoLeavesRoom (c : Command) : bool :=
  match c with
  | RenameRoom _ | ToggleLayerVisibility _ | UpdateLayerType _ _
  | UpdateLayerTexture _ _ | ResizeRoom _ _ | UpdateRoomType _
  | UpdateRoomBiome _ | AddTile _ _ _ _ => true
  | _ => false
  end.

(** What a tile says to the game: its cell and its index. *)
Definition tileData (t : Tile) : Z * Z * Z := (tile_x t, tile_y t, tile_index t).





(** The kinds of the entries of a stack, bottom first. *)
Definition kinds (stack : list RoomAction) : list string := map action_type stack.

(** ** Sample documents *)

(** The fresh room with a square of four tiles of size 16 at its origin. *)
Definition squareRoomState : State :=
  addTile "TilesForest" 16 16 4
    (addTile "TilesForest" 0 16 3
       (addTile "TilesForest" 16 0 2
          (addTile "TilesForest" 0 0 1 initialState))).

(** The selection of 2 x 2 cells around the square. *)
Definition squareSelection : SelectionArea := mkSelection 0 0 32 32.

(** The brush the canvas derives from the selection, tile size 16. *)
Definition squareBrush : option TileBrush :=
  copySelectionToBrush 16 (Some squareSelection) (Some "TilesForest")
                       (room squareRoomState).

(** The click at [(100, 100)] with the brush in hand, tile size 16. *)
Definition squareStamp : State :=
  placeTile 16 (Some "TilesForest") 0 None 100 100
            (setTileBrush squareBrush squareRoomState).

(** A well-formed entry of a brush library. *)
Definition sampleBrush (i : string) : JSON :=
  JObj [("id", JStr i); ("name", JStr "stamp"); ("tiles", JArr []);
        ("width", JNum 1); ("height", JNum 1); ("texture", JStr "default")].

(** Three entries, the second without the fields of a brush. *)
Definition sampleEntries : list JSON :=
  [sampleBrush "a"; JObj [("id", JStr "b")]; sampleBrush "c"].

(** * Properties *)

(** Splits a conjunction into its parts, and nothing else. *)
Ltac split_and := repeat match goal with |- _ /\ _ => split end.

(** ** Stacks *)

Lemma top_snoc (A : Type) (l : list A) (a : A) : top (l ++ [a]) = Some a.
Proof.
  induction l as [|b l IH]; [reflexivity|].
  change ((b :: l) ++ [a]) with (b :: (l ++ [a])).
  destruct (l ++ [a]) eqn:E.
  - destruct l; discriminate.
  - exact IH.
Qed.

(** ** History recording *)

Lemma updateRoomWithHistory_room newRoom action s :
  room (updateRoomWithHistory newRoom action s) = newRoom.
Proof. reflexivity. Qed.

Lemma updateRoomWithHistory_undoStack newRoom action s :
  isUndoRedoAction s = false ->
  undoStack (updateRoomWithHistory newRoom action s)
  = undoStack s
      ++ [mkAction (action_type action)
                   (("previousRoom", PRoom (room s)) :: payload action)].
Proof.
  intros H. unfold updateRoomWithHistory, addToHistory. rewrite H. reflexivity.
Qed.

(** An undo of an entry that holds a snapshot sets the snapshot and takes
    the entry off the stack. *)
Lemma undo_snapshot s stack a r :
  undoStack s = stack ++ [a] ->
  field "previousRoom" (payload a) = PRoom r ->
  room (undo s) = r /\ undoStack (undo s) = stack
  /\ redoStack (undo s) = redoStack s ++ [a]
  /\ isUndoRedoAction (undo s) = false
  /\ isPainting (undo s) = isPainting s.
Proof.
  intros Hs Hp. unfold undo. rewrite Hs, top_snoc, Hp, removelast_last.
  repeat split.
Qed.

Lemma undo_empty s : undoStack s = [] -> undo s = s.
Proof. intros H. unfold undo. rewrite H. reflexivity. Qed.

(** ** UpdateRoomChance and the history (C4) *)

Lemma updateRoomChance_undoStack c s :
  undoStack (updateRoomChance c s) = undoStack s.
Proof. reflexivity. Qed.

(** C4.  The claim: every mutation command, [UpdateRoomChance] in
    particular, comes with a history entry, so that [updateRoomChance]
    followed by [undo] restores the chance the room had.  The code: in a
    fresh editor (chance 100) [updateRoomChance (50)] sets the chance and
    records nothing, and the [undo] that follows finds an empty stack and
    leaves the chance at 50.  The sibling [updateRoomType] records its entry
    and is undone. *)
Theorem updateRoomChance_undo_keeps_chance :
  chance (room initialState) = Some 100
  /\ undoStack (updateRoomChance (Some 50) initialState) = []
  /\ chance (room (undo (updateRoomChance (Some 50) initialState))) = Some 50
  /\ List.length (undoStack (updateRoomType (Some "boss") initialState)) = 1%nat
  /\ room (undo (updateRoomType (Some "boss") initialState)) = room initialState.
Proof. repeat split. Qed.

(** ** Undo followed by redo (C1) *)

(** C1.  The claim: [undo] then [redo] gives back the room as it was before
    the [undo], for every kind of entry.  The code: after
    [updateRoomType ("boss")] in a fresh editor, [undo] sets the snapshot
    of the entry (type unset) and [redo] of [UPDATE_ROOM_TYPE] sets the same
    snapshot again, the room BEFORE the command: the type stays unset where
    the room before the [undo] had type "boss".  [updateRoomBiome] goes the
    same way. *)
Theorem undo_redo_updateRoomType_loses_type :
  let s := updateRoomType (Some "boss") initialState in
  let b := updateRoomBiome (Some "forest") initialState in
  type (room s) = Some "boss"
  /\ type (room (undo s)) = None
  /\ type (room (redo (undo s))) = None
  /\ room (redo (undo s)) <> room s
  /\ undoStack (redo (undo s)) = undoStack s
  /\ biome (room b) = Some "forest"
  /\ biome (room (redo (undo b))) = None.
Proof.
  cbv zeta. repeat split; try reflexivity.
  intros H. apply (f_equal type) in H. discriminate H.
Qed.

(** The scenario of the specification: a tile layer "Ground", one tile
    [{16, 16, 3}], undo, redo.  [addTile] records the index under the key
    [index]; [redo] reads [tileIndex], finds no number, and sets no room:
    the layer stays empty. *)
Lemma undo_redo_addTile_loses_tile :
  let ground := mkLayer "Ground" 0 TileLayer true [] None in
  let s := addTile "Ground" 16 16 3 (addLayer ground initialState) in
  tilesOf "Ground" (room s) = [mkTile 16 16 3 None]
  /\ tilesOf "Ground" (room (undo s)) = []
  /\ tilesOf "Ground" (room (redo (undo s))) = [].
Proof. repeat split. Qed.

(** A brush stamp records, for each cell, the index the cell held before
    the stamp; [redo] applies the entries as the tiles to set.  One brush
    tile of index 7 stamped on the free cell (32, 32): after undo and redo
    the cell is free again. *)
Lemma undo_redo_brush_loses_stamp :
  let brush := mkTileBrush [mkBrushTile 0 0 7] 1 1 "tileset_forest" 0 0 in
  let s := applyTileBrush "TilesForest" 32 32 (setTileBrush (Some brush) initialState) in
  tilesOf "TilesForest" (room s) = [mkTile 32 32 7 None]
  /\ tilesOf "TilesForest" (room (redo (undo s))) = [].
Proof. split; vm_compute; reflexivity. Qed.

(** The kinds whose [redo] re-applies the command: an added instance comes
    back at the end of the instances. *)
Lemma undo_redo_addInstance s i :
  isUndoRedoAction s = false ->
  canPlaceObjectOnLayer (room s) (instance_layer_name i) = true ->
  room (redo (undo (addInstance i s))) = room (addInstance i s).
Proof.
  intros Hf Hc. unfold addInstance. rewrite Hc. cbn [negb].
  set (a := mkAction "ADD_INSTANCE" _).
  set (nr := setInstances _ _).
  pose proof (updateRoomWithHistory_undoStack nr a s Hf) as Hu.
  destruct (undo_snapshot (updateRoomWithHistory nr a s) _ _ (room s) Hu eq_refl)
    as (Hr & _ & Hrs & _).
  unfold redo. rewrite Hrs, top_snoc. cbn [room setIsUndoRedoAction setRoom
    setRedoStack setUndoStack]. rewrite Hr.
  unfold redoSwitch. cbn.
  destruct (instance_layer_name i) as [n|n] eqn:E; [|discriminate Hc].
  unfold canPlaceObjectOnLayer in Hc. rewrite Hc. reflexivity.
Qed.

(** ** AddInstance on a layer that takes no objects (C8) *)

Lemma find_some_name n ls l :
  find (hasName n) ls = Some l -> In l ls /\ layer_name l = n.
Proof.
  intros H. apply find_some in H. destruct H as [Hin Hn].
  split; [exact Hin|]. apply String.eqb_eq. exact Hn.
Qed.

(** C8.  An instance whose [instance_layer_name] names no layer of type
    [object] of the room is not added: [addInstance] leaves the whole state,
    the room and both history stacks, as it was. *)
Theorem addInstance_silent_noop (s : State) (i : Instance) :
  (forall l, In l (layers (room s)) ->
             instance_layer_name i = RefStr (layer_name l) ->
             layer_type l <> ObjectLayer) ->
  addInstance i s = s.
Proof.
  intros H. unfold addInstance.
  assert (Hc : canPlaceObjectOnLayer (room s) (instance_layer_name i) = false).
  { unfold canPlaceObjectOnLayer.
    destruct (instance_layer_name i) as [n|n] eqn:E; [|reflexivity].
    destruct (find (hasName n) (layers (room s))) as [l|] eqn:F; [|reflexivity].
    apply find_some_name in F. destruct F as [Hin Hn].
    specialize (H l Hin). rewrite Hn in H. specialize (H eq_refl).
    unfold isObjectLayer. destruct (layer_type l); [reflexivity|].
    exfalso. apply H. reflexivity. }
  rewrite Hc. reflexivity.
Qed.

Lemma addInstance_silent_noop_witness :
  let i := mkInstance (RefStr "TilesForest") "oTree" 16 16 in
  (forall l, In l (layers (room initialState)) ->
             instance_layer_name i = RefStr (layer_name l) ->
             layer_type l <> ObjectLayer)
  /\ addInstance i initialState = initialState.
Proof.
  cbv zeta.
  assert (H : forall l, In l (layers (room initialState)) ->
             instance_layer_name (mkInstance (RefStr "TilesForest") "oTree" 16 16)
             = RefStr (layer_name l) ->
             layer_type l <> ObjectLayer).
  { intros l Hin Hn. simpl in Hin. destruct Hin as [<-|[<-|[]]].
    - discriminate.
    - discriminate Hn. }
  split; [exact H|].
  exact (addInstance_silent_noop initialState _ H).
Defined.

(** ** ResizeRoom (C6) *)

Lemma withinBounds_inside w h x y :
  withinBounds w h x y = true <-> insideRoom w h x y.
Proof.
  unfold withinBounds, insideRoom.
  rewrite !andb_true_iff, !Z.ltb_lt, !Z.geb_le. lia.
Qed.

(** The history does not stand in the way of the resize. *)
Lemma updateRoomSize_room w h s :
  room (updateRoomSize w h s)
  = setInstances
      (filter (fun i => withinBounds w h (inst_x i) (inst_y i)) (instances (room s)))
      (setLayers
         (map (fun layer =>
                 if isTileLayer layer then
                   setLayerTiles
                     (filter (fun tile => withinBounds w h (tile_x tile) (tile_y tile))
                             (layer_tiles layer))
                     layer
                 else layer)
              (layers (room s)))
         (setHeight h (setWidth w (room s)))).
Proof.
  unfold updateRoomSize, addToHistory.
  destruct (isUndoRedoAction s) eqn:E; cbn; rewrite ?E; reflexivity.
Qed.

(** A layer painted as a tile layer and then retyped to [object] keeps its
    tiles through a resize: the tile at x = 700 survives the resize to
    100 x 100. *)
Lemma updateRoomSize_keeps_tiles_of_object_layers :
  ~ resizePrunesEveryLayer 100 100
      (updateLayerType "TilesForest" ObjectLayer
         (addTile "TilesForest" 700 0 1 initialState)).
Proof.
  intros H.
  specialize (H (mkLayer "TilesForest" 0 ObjectLayer true [mkTile 700 0 1 None]
                         (Some "tileset_forest"))
                (mkTile 700 0 1 None)).
  assert (Hi : insideRoom 100 100 700 0).
  { apply H; vm_compute; left; reflexivity. }
  unfold insideRoom in Hi. lia.
Qed.

(** C6, amended.  [updateRoomSize (w, h)] sets the width and the height,
    keeps the other fields of the room, keeps of the instances exactly those
    inside [[0, w) x [0, h)], in their order, and keeps the layers in their
    order with their name, depth, type, visibility and texture; of the tiles
    of a layer of type [tile] it keeps exactly those inside the bounds, in
    their order, and the tiles of a layer of type [object] it leaves as they
    are. *)
Theorem updateRoomSize_prunes_tile_layers (w h : Z) (s : State) :
  let r := room s in
  let r' := room (updateRoomSize w h s) in
  width r' = w /\ height r' = h
  /\ name r' = name r /\ index r' = index r /\ type r' = type r
  /\ biome r' = biome r /\ chance r' = chance r
  /\ (exists keep,
        instances r' = filter keep (instances r)
        /\ forall i, keep i = true <-> insideRoom w h (inst_x i) (inst_y i))
  /\ List.length (layers r') = List.length (layers r)
  /\ forall k l, nth_error (layers r) k = Some l ->
       exists l', nth_error (layers r') k = Some l'
         /\ layer_name l' = layer_name l /\ layer_depth l' = layer_depth l
         /\ layer_type l' = layer_type l /\ layer_visible l' = layer_visible l
         /\ layer_texture l' = layer_texture l
         /\ (layer_type l = TileLayer ->
               exists keep,
                 layer_tiles l' = filter keep (layer_tiles l)
                 /\ forall t, keep t = true <-> insideRoom w h (tile_x t) (tile_y t))
         /\ (layer_type l = ObjectLayer -> layer_tiles l' = layer_tiles l).
Proof.
  cbv zeta. rewrite updateRoomSize_room. cbn.
  repeat split.
  - exists (fun i => withinBounds w h (inst_x i) (inst_y i)).
    split; [reflexivity|]. intros i. apply withinBounds_inside.
  - apply length_map.
  - intros k l Hk.
    erewrite map_nth_error by exact Hk.
    eexists. split; [reflexivity|].
    unfold isTileLayer. destruct (layer_type l) eqn:T; cbn; rewrite ?T;
      repeat split; try discriminate; try reflexivity.
    intros _. exists (fun t => withinBounds w h (tile_x t) (tile_y t)).
    split; [reflexivity|]. intros t. apply withinBounds_inside.
Qed.

(** ** Brush library import (C9, C10) *)

Lemma typeofString_iff v : typeofString v = true <-> exists s, v = Some (JStr s).
Proof.
  split.
  - destruct v as [[]|]; try discriminate. intros _. eexists. reflexivity.
  - intros [s ->]. reflexivity.
Qed.

Lemma typeofNumber_iff v : typeofNumber v = true <-> exists n, v = Some (JNum n).
Proof.
  split.
  - destruct v as [[]|]; try discriminate. intros _. eexists. reflexivity.
  - intros [s ->]. reflexivity.
Qed.

Lemma isArray_iff v : isArray v = true <-> exists l, v = Some (JArr l).
Proof.
  split.
  - destruct v as [[]|]; try discriminate. intros _. eexists. reflexivity.
  - intros [s ->]. reflexivity.
Qed.

(** The filter of the code accepts the entries the specification calls
    well formed, and no other. *)
Lemma validBrush_wellFormed v : validBrush v = true <-> wellFormedEntry v.
Proof.
  unfold validBrush, wellFormedEntry. split.
  - rewrite !andb_true_iff.
    intros [[[[[[_ Hi] Hn] Ht] Hw] Hh] Hx].
    destruct v as [| | | | |fields];
      try (apply typeofString_iff in Hi; destruct Hi as [? Hi]; discriminate Hi).
    exists fields. split; [reflexivity|]. cbn [prop] in *.
    repeat split;
      [ apply typeofString_iff, Hi | apply typeofString_iff, Hn
      | apply isArray_iff, Ht | apply typeofNumber_iff, Hw
      | apply typeofNumber_iff, Hh | apply typeofString_iff, Hx ].
  - intros (fields & -> & (i & Hi) & (n & Hn) & (t & Ht) & (w & Hw) & (h & Hh) & (x & Hx)).
    cbn [prop truthy]. rewrite Hi, Hn, Ht, Hw, Hh, Hx. reflexivity.
Qed.

Lemma filter_nil_iff (A : Type) (p : A -> bool) (l : list A) :
  filter p l = [] <-> forall a, In a l -> p a = false.
Proof.
  induction l as [|a l IH]; cbn.
  - split; [intros _ b []|reflexivity].
  - destruct (p a) eqn:E.
    + split; [discriminate|]. intros H. rewrite (H a (or_introl eq_refl)) in E.
      discriminate.
    + rewrite IH. split.
      * intros H b [<-|Hb]; [exact E|exact (H b Hb)].
      * intros H b Hb. apply H. right. exact Hb.
Qed.

Section BrushLibraryImport.

Variable JSON_parse : string -> option JSON.

(** C9.  [importBrushLibrary] checks every entry of the parsed array.  When
    at least one entry is well formed it reports success and the library
    holds exactly the well-formed entries; when no entry is well formed,
    when the parsed value is not an array and when the text does not parse,
    it reports a failure and the library is the one it was. *)
Theorem importBrushLibrary_validates_entries (savedBrushes : list JSON)
    (jsonData : string) :
  (forall entries, JSON_parse jsonData = Some (JArr entries) ->
     (Exists wellFormedEntry entries ->
        exists kept,
          importBrushLibrary JSON_parse savedBrushes jsonData = (kept, true)
          /\ keepsWellFormed entries kept /\ kept <> [])
     /\ (~ Exists wellFormedEntry entries ->
           importBrushLibrary JSON_parse savedBrushes jsonData = (savedBrushes, false)))
  /\ ((forall entries, JSON_parse jsonData <> Some (JArr entries)) ->
        importBrushLibrary JSON_parse savedBrushes jsonData = (savedBrushes, false)).
Proof.
  split.
  - intros entries Hp. unfold importBrushLibrary. rewrite Hp. split.
    + intros Hex. apply Exists_exists in Hex. destruct Hex as (e & Hin & Hwf).
      assert (Hne : filter validBrush entries <> []).
      { intros Hnil. rewrite filter_nil_iff in Hnil.
        apply validBrush_wellFormed in Hwf. rewrite (Hnil e Hin) in Hwf.
        discriminate. }
      exists (filter validBrush entries).
      destruct (filter validBrush entries) eqn:F; [contradiction|].
      repeat split; try discriminate.
      exists validBrush. split; [symmetry; exact F|]. apply validBrush_wellFormed.
    + intros Hno.
      assert (Hnil : filter validBrush entries = []).
      { apply filter_nil_iff. intros e Hin.
        destruct (validBrush e) eqn:E; [|reflexivity].
        exfalso. apply Hno. apply Exists_exists. exists e. split; [exact Hin|].
        apply validBrush_wellFormed. exact E. }
      rewrite Hnil. reflexivity.
  - intros Hno. unfold importBrushLibrary.
    destruct (JSON_parse jsonData) as [[]|] eqn:E; try reflexivity.
    exfalso. exact (Hno _ eq_refl).
Qed.

(** C10.  A successful import replaces the library: the new library is made
    of the well-formed entries of the imported array and of nothing else,
    whatever the library held before. *)
Theorem importBrushLibrary_replaces_library (savedBrushes : list JSON)
    (jsonData : string) (kept : list JSON) :
  importBrushLibrary JSON_parse savedBrushes jsonData = (kept, true) ->
  exists entries,
    JSON_parse jsonData = Some (JArr entries)
    /\ keepsWellFormed entries kept
    /\ (forall b, In b kept <-> In b entries /\ wellFormedEntry b)
    /\ (forall b, In b savedBrushes ->
                  ~ (In b entries /\ wellFormedEntry b) -> ~ In b kept)
    /\ (forall others,
          importBrushLibrary JSON_parse others jsonData = (kept, true)).
Proof.
  unfold importBrushLibrary.
  destruct (JSON_parse jsonData) as [[| | | |entries|]|] eqn:E; try discriminate.
  destruct (filter validBrush entries) as [|b0 rest] eqn:F; [discriminate|].
  cbn. intros [= <-].
  assert (Hin : forall b, In b (b0 :: rest) <-> In b entries /\ wellFormedEntry b).
  { intros b. rewrite <- F, filter_In, validBrush_wellFormed. reflexivity. }
  exists entries. split; [reflexivity|]. split; [|split; [exact Hin|split]].
  - exists validBrush. split; [symmetry; exact F|]. apply validBrush_wellFormed.
  - intros b _ Hn Hb. apply Hn. apply Hin. exact Hb.
  - intros others. reflexivity.
Qed.

End BrushLibraryImport.

(** Two entries of three are well formed: the import succeeds and a library
    of one brush becomes the library of these two.  An object that is not
    an array is refused and the library stays. *)
Lemma importBrushLibrary_two_of_three :
  importBrushLibrary (fun _ => Some (JArr sampleEntries)) [sampleBrush "old"] "[...]"
  = ([sampleBrush "a"; sampleBrush "c"], true)
  /\ importBrushLibrary (fun _ => Some (JObj [])) [sampleBrush "old"] "{}"
     = ([sampleBrush "old"], false).
Proof. split; reflexivity. Qed.

Lemma importBrushLibrary_replaces_library_witness :
  importBrushLibrary (fun _ => Some (JArr sampleEntries)) [sampleBrush "old"] "[...]"
  = ([sampleBrush "a"; sampleBrush "c"], true)
  /\ exists entries,
       Some (JArr sampleEntries) = Some (JArr entries)
       /\ keepsWellFormed entries [sampleBrush "a"; sampleBrush "c"]
       /\ (forall b, In b [sampleBrush "a"; sampleBrush "c"]
                     <-> In b entries /\ wellFormedEntry b)
       /\ (forall b, In b [sampleBrush "old"] ->
                     ~ (In b entries /\ wellFormedEntry b) ->
                     ~ In b [sampleBrush "a"; sampleBrush "c"])
       /\ (forall others,
             importBrushLibrary (fun _ => Some (JArr sampleEntries)) others "[...]"
             = ([sampleBrush "a"; sampleBrush "c"], true)).
Proof.
  split; [reflexivity|].
  exact (importBrushLibrary_replaces_library
           (fun _ => Some (JArr sampleEntries)) [sampleBrush "old"] "[...]"
           [sampleBrush "a"; sampleBrush "c"] eq_refl).
Defined.

(** ** Brush placement (C5) *)

Lemma snapToCell_16 v : snapToCell 16 v = 16 * (v / 16).
Proof. unfold snapToCell, floorDiv. lia. Qed.

(** The claim of C5 puts the top-left cell of the stamp at (84, 84).  The
    canvas snaps the cursor (100, 100) to the cell (96, 96) first and then
    steps back one cell of 16: the top-left cell is (80, 80), and no tile
    lands on (84, 84). *)
Lemma brush_2x2_top_left_is_not_84_84 :
  option_map (fun brush => brushTopLeft 16 brush 100 100) squareBrush <> Some (84, 84)
  /\ ~ In (84, 84) (map cell (tilesOf "TilesForest" (room squareStamp))).
Proof.
  split.
  - vm_compute. discriminate.
  - vm_compute. intros H.
    repeat (destruct H as [H|H]; [discriminate H|]). exact H.
Qed.

(** C5, amended.  The brush derived from the 2 x 2 selection has size 2 x 2
    and the hot-spot (1, 1).  Applied at the cursor (100, 100) with tile size
    16 its top-left cell is (80, 80): the cursor snapped down to the grid,
    (96, 96), less one cell on each axis.  The four tiles land on (80, 80),
    (96, 80), (80, 96) and (96, 96) with the indices of the selection, and
    the stamp is one history entry.  For every cursor and every brush the
    top-left cell is the snapped cursor less [offset * tileSize]. *)
Theorem brush_2x2_top_left_is_80_80 :
  (exists brush,
     squareBrush = Some brush
     /\ brush_width brush = 2 /\ brush_height brush = 2
     /\ offsetX brush = 1 /\ offsetY brush = 1
     /\ List.length (brush_tiles brush) = 4%nat
     /\ brushTopLeft 16 brush 100 100 = (80, 80))
  /\ tilesOf "TilesForest" (room squareStamp)
     = tilesOf "TilesForest" (room squareRoomState)
       ++ [mkTile 80 80 1 None; mkTile 96 80 2 None;
           mkTile 80 96 3 None; mkTile 96 96 4 None]
  /\ List.length (undoStack squareStamp)
     = S (List.length (undoStack squareRoomState))
  /\ (forall brush x y,
        brushTopLeft 16 brush x y
        = (16 * (x / 16) - offsetX brush * 16, 16 * (y / 16) - offsetY brush * 16)).
Proof.
  split; [|split; [|split]].
  - eexists. split; [vm_compute; reflexivity|]. repeat split.
  - vm_compute. reflexivity.
  - vm_compute. reflexivity.
  - intros brush x y. unfold brushTopLeft. rewrite !snapToCell_16. reflexivity.
Qed.

(** ** Paint sessions (C3) *)

Lemma find_hasName_sig n ls ls' :
  map layerSig ls = map layerSig ls' ->
  option_map isTileLayer (find (hasName n) ls)
  = option_map isTileLayer (find (hasName n) ls').
Proof.
  revert ls'. induction ls as [|l ls IH]; intros [|l' ls'] H; try discriminate.
  - reflexivity.
  - cbn in H. injection H as Hn Ht Hrest.
    cbn. unfold hasName at 1 3. rewrite Hn.
    destruct (layer_name l' =? n)%string.
    + cbn. unfold isTileLayer. rewrite Ht. reflexivity.
    + apply IH. exact Hrest.
Qed.

Lemma updateFirst_sig p f ls :
  (forall l, layerSig (f l) = layerSig l) ->
  map layerSig (updateFirst p f ls) = map layerSig ls.
Proof.
  intros Hf. induction ls as [|l ls IH]; [reflexivity|].
  cbn. destruct (p l); cbn; [rewrite Hf|rewrite IH]; reflexivity.
Qed.

Lemma buffered_sig r r' op :
  map layerSig (layers r) = map layerSig (layers r') ->
  buffered r op = buffered r' op.
Proof.
  intros H. destruct op as [n x y i|n x y]; [|reflexivity].
  cbn. pose proof (find_hasName_sig n _ _ H) as Hf.
  destruct (find (hasName n) (layers r)), (find (hasName n) (layers r'));
    cbn in Hf; congruence.
Qed.

(** One operation of a session: the history and the snapshot of the session
    stay, the layers keep their names and types, and the buffer grows by one
    entry exactly when the operation is buffered. *)
Lemma paint_step op st :
  isPainting st = true ->
  isPainting (paint op st) = true
  /\ undoStack (paint op st) = undoStack st
  /\ isUndoRedoAction (paint op st) = isUndoRedoAction st
  /\ initialRoomState (paint op st) = initialRoomState st
  /\ map layerSig (layers (room (paint op st))) = map layerSig (layers (room st))
  /\ exists extra, paintedTiles (paint op st) = paintedTiles st ++ extra
                   /\ (extra = [] <-> buffered (room st) op = false).
Proof.
  intros Hp.
  assert (Hnone : forall st', st' = st ->
            exists extra, paintedTiles st' = paintedTiles st ++ extra
                          /\ (extra = [] <-> false = false)).
  { intros st' ->. exists []. rewrite app_nil_r. split; [reflexivity|].
    split; reflexivity. }
  assert (Hone : forall (b : bool) (entry : BatchedTile),
            exists extra, paintedTiles st ++ [entry] = paintedTiles st ++ extra
                          /\ (extra = [] <-> true = false)).
  { intros _ entry. exists [entry]. split; [reflexivity|]. split; discriminate. }
  destruct op as [n x y i|n x y]; cbn [paint buffered].
  - unfold addTile, deepCopy.
    destruct (find (hasName n) (layers (room st))) as [l|] eqn:F.
    + destruct (isTileLayer l) eqn:T; cbn [negb].
      * rewrite Hp. cbn. split_and; try assumption; try reflexivity.
        -- apply updateFirst_sig. reflexivity.
        -- apply (Hone true).
      * split_and; try assumption; try reflexivity. apply Hnone. reflexivity.
    + split_and; try assumption; try reflexivity. apply Hnone. reflexivity.
  - unfold removeTile. rewrite Hp.
    destruct (find (hasName n) (layers (room st))) as [l|] eqn:F.
    + destruct (isTileLayer l) eqn:T; cbn [negb]; cbn;
        split_and; try assumption; try reflexivity;
        try (apply updateFirst_sig; reflexivity); apply (Hone true).
    + cbn. split_and; try assumption; try reflexivity. apply (Hone true).
Qed.

Lemma existsb_pointwise (A : Type) (f g : A -> bool) (l : list A) :
  (forall a, f a = g a) -> existsb f l = existsb g l.
Proof.
  intros H. induction l as [|a l IH]; [reflexivity|].
  cbn. rewrite H, IH. reflexivity.
Qed.

Lemma paint_fold ops : forall st,
  isPainting st = true ->
  let st' := fold_left (fun a op => paint op a) ops st in
  isPainting st' = true
  /\ undoStack st' = undoStack st
  /\ isUndoRedoAction st' = isUndoRedoAction st
  /\ initialRoomState st' = initialRoomState st
  /\ map layerSig (layers (room st')) = map layerSig (layers (room st))
  /\ exists extra, paintedTiles st' = paintedTiles st ++ extra
                   /\ (extra = [] <-> existsb (buffered (room st)) ops = false).
Proof.
  induction ops as [|op ops IH]; intros st Hp; cbn zeta.
  - cbn. split_and; try assumption; try reflexivity.
    exists []. rewrite app_nil_r. split; [reflexivity|]. split; reflexivity.
  - cbn [fold_left existsb].
    destruct (paint_step op st Hp) as (P1 & U1 & F1 & I1 & S1 & e1 & E1 & B1).
    destruct (IH (paint op st) P1) as (P2 & U2 & F2 & I2 & S2 & e2 & E2 & B2).
    split_and; try congruence.
    exists (e1 ++ e2). split.
    + rewrite E2, E1, app_assoc. reflexivity.
    + rewrite (existsb_pointwise _ _ _ ops (fun op' => buffered_sig _ _ op' S1)) in B2.
      split.
      * intros H. apply app_eq_nil in H. destruct H as [H1 H2].
        apply B1 in H1. apply B2 in H2. rewrite H1, H2. reflexivity.
      * intros H. apply orb_false_iff in H. destruct H as [H1 H2].
        apply B1 in H1. apply B2 in H2. subst e1 e2. reflexivity.
Qed.

(** Five additions on the layer "Objects", a layer of type [object]: every
    one returns at the guard of [addTile], the buffer stays empty and the
    session records no entry. *)
Lemma paintSession_of_refused_additions_records_nothing :
  ~ sessionRecordsOneEntry
      [PaintAdd "Objects" 0 0 1; PaintAdd "Objects" 16 0 1; PaintAdd "Objects" 32 0 1;
       PaintAdd "Objects" 48 0 1; PaintAdd "Objects" 64 0 1]
      initialState.
Proof.
  intros [entry H]. vm_compute in H. discriminate H.
Qed.

(** C3, amended.  A session (start, tile additions and removals, end) in
    which at least one operation is buffered, which every removal is and
    every addition on an existing layer of type [tile], adds exactly one
    entry to the history, and one [undo] of it restores the room of the
    start of the session and takes the entry off again.  A session in which no operation is
    buffered, and any end of painting with an empty buffer, records no
    entry. *)
Theorem paintSession_records_one_entry (ops : list PaintOp) (s : State) :
  isUndoRedoAction s = false ->
  (existsb (buffered (room s)) ops = true ->
     sessionRecordsOneEntry ops s
     /\ room (undo (paintSession ops s)) = room s
     /\ List.length (undoStack (undo (paintSession ops s)))
        = List.length (undoStack s))
  /\ (existsb (buffered (room s)) ops = false ->
        undoStack (paintSession ops s) = undoStack s)
  /\ (forall st, paintedTiles st = [] -> undoStack (endPainting st) = undoStack st).
Proof.
  intros Hf.
  assert (Hs : isPainting (startPainting s) = true) by reflexivity.
  destruct (paint_fold ops (startPainting s) Hs) as (P & U & F & I & _ & e & E & B).
  cbv zeta in *. cbn [startPainting] in *.
  set (st := fold_left (fun a op => paint op a) ops (startPainting s)) in *.
  change (paintSession ops s) with (endPainting st).
  change (undoStack (startPainting s)) with (undoStack s) in U.
  change (isUndoRedoAction (startPainting s)) with (isUndoRedoAction s) in F.
  change (initialRoomState (startPainting s)) with (Some (room s)) in I.
  change (paintedTiles (startPainting s)) with (@nil BatchedTile) in E.
  change (room (startPainting s)) with (room s) in B.
  cbn [app] in E.
  split; [|split].
  - intros Hb.
    assert (He : e <> []).
    { intros He. apply B in He. congruence. }
    assert (Hu : undoStack (endPainting st)
                 = undoStack s
                     ++ [mkAction "BATCH_ADD_TILES"
                           [("batchedTiles", PBatched e);
                            ("previousRoom", PRoom (room s))]]).
    { unfold endPainting, addToHistory. rewrite P, E, F, Hf, I.
      destruct e; [contradiction|]. cbn. rewrite U. reflexivity. }
    destruct (undo_snapshot (endPainting st) _ _ (room s) Hu eq_refl)
      as (Hr & Hu' & _).
    split; [|split; [assumption|rewrite Hu'; reflexivity]].
    eexists. exact Hu.
  - intros Hb. apply B in Hb. rewrite Hb in E.
    unfold endPainting. rewrite P, E. cbn. exact U.
  - intros st0 H0. unfold endPainting. rewrite H0. cbn.
    rewrite orb_true_r. reflexivity.
Qed.

Lemma paintSession_records_one_entry_witness :
  let ops := [PaintAdd "TilesForest" 0 0 1; PaintAdd "TilesForest" 16 0 1;
              PaintAdd "TilesForest" 32 0 1; PaintAdd "TilesForest" 48 0 1;
              PaintAdd "TilesForest" 64 0 1] in
  isUndoRedoAction initialState = false
  /\ existsb (buffered (room initialState)) ops = true
  /\ sessionRecordsOneEntry ops initialState
  /\ room (undo (paintSession ops initialState)) = room initialState
  /\ List.length (undoStack (undo (paintSession ops initialState)))
     = List.length (undoStack initialState).
Proof.
  cbv zeta. split; [reflexivity|]. split; [reflexivity|].
  exact (proj1 (paintSession_records_one_entry
                  [PaintAdd "TilesForest" 0 0 1; PaintAdd "TilesForest" 16 0 1;
                   PaintAdd "TilesForest" 32 0 1; PaintAdd "TilesForest" 48 0 1;
                   PaintAdd "TilesForest" 64 0 1]
                  initialState eq_refl) eq_refl).
Defined.

(** ** Undoing a sequence of commands (C2) *)

Lemma updateRoomWithHistory_snapshot newRoom action s :
  isUndoRedoAction s = false -> isPainting s = false ->
  exists a,
    undoStack (updateRoomWithHistory newRoom action s) = undoStack s ++ [a]
    /\ field "previousRoom" (payload a) = PRoom (room s)
    /\ isUndoRedoAction (updateRoomWithHistory newRoom action s) = false
    /\ isPainting (updateRoomWithHistory newRoom action s) = false.
Proof.
  intros Hf Hp. eexists. split; [apply updateRoomWithHistory_undoStack, Hf|].
  split; [reflexivity|].
  unfold updateRoomWithHistory, addToHistory. rewrite Hf. cbn. auto.
Qed.

Section UndoAll.

Variable trim : string -> string.

(** A command of the snapshot kind either leaves the state as it is or
    pushes one entry that holds the room it started from. *)
Lemma exec_snapshot c s :
  snapshotCommand c = true ->
  isUndoRedoAction s = false -> isPainting s = false ->
  exec trim c s = s
  \/ exists a,
       undoStack (exec trim c s) = undoStack s ++ [a]
       /\ field "previousRoom" (payload a) = PRoom (room s)
       /\ isUndoRedoAction (exec trim c s) = false
       /\ isPainting (exec trim c s) = false.
Proof.
  intros Hc Hf Hp.
  destruct c; try discriminate Hc; cbn [exec].
  - right. apply updateRoomWithHistory_snapshot; assumption.
  - unfold addInstance.
    destruct (canPlaceObjectOnLayer (room s) (instance_layer_name i)); cbn [negb].
    + right. apply updateRoomWithHistory_snapshot; assumption.
    + left. reflexivity.
  - unfold removeInstance. destruct (jsNth (instances (room s)) i).
    + right. apply updateRoomWithHistory_snapshot; assumption.
    + left. reflexivity.
  - right. apply updateRoomWithHistory_snapshot; assumption.
  - unfold removeLayer. destruct (find (hasName n) (layers (room s))).
    + right. apply updateRoomWithHistory_snapshot; assumption.
    + left. reflexivity.
  - right. apply updateRoomWithHistory_snapshot; assumption.
  - right. apply updateRoomWithHistory_snapshot; assumption.
  - right. apply updateRoomWithHistory_snapshot; assumption.
  - unfold addTile, deepCopy. destruct (find (hasName layerName) (layers (room s))) as [l|].
    + destruct (isTileLayer l); cbn [negb].
      * rewrite Hp. right. apply updateRoomWithHistory_snapshot; assumption.
      * left. reflexivity.
    + left. reflexivity.
  - right. unfold updateRoomSize, addToHistory. cbn. rewrite Hf.
    eexists. split; [reflexivity|]. cbn. auto.
  - right. apply updateRoomWithHistory_snapshot; assumption.
  - right. apply updateRoomWithHistory_snapshot; assumption.
  - unfold applyTileBrush. destruct (tileBrush s) as [brush|]; [|left; reflexivity].
    destruct (findIndex (hasName layerName) (layers (room s))) as [li|];
      [|left; reflexivity].
    destruct (nth_error (layers (room s)) li) as [l|]; [|left; reflexivity].
    destruct (isTileLayer l); cbn [negb]; [|left; reflexivity].
    destruct (fold_left _ _ _) as [tiles batched].
    rewrite Hp. right. unfold addToHistory. rewrite Hf. cbn.
    eexists. split; [reflexivity|]. cbn. auto.
Qed.

(** The entries a sequence pushes: every one holds a room, and the first
    one holds the room the sequence started from. *)
Lemma run_snapshots cs : forall s,
  isUndoRedoAction s = false -> isPainting s = false ->
  forallb snapshotCommand cs = true ->
  exists es,
    undoStack (run trim cs s) = undoStack s ++ es
    /\ Forall hasSnapshot es
    /\ match es with
       | [] => room (run trim cs s) = room s
       | e :: _ => field "previousRoom" (payload e) = PRoom (room s)
       end
    /\ (List.length es <= List.length cs)%nat.
Proof.
  induction cs as [|c cs IH]; intros s Hf Hp Hall.
  - exists []. cbn. rewrite app_nil_r. auto.
  - cbn in Hall. apply andb_true_iff in Hall. destruct Hall as [Hc Hall].
    change (run trim (c :: cs) s) with (run trim cs (exec trim c s)).
    destruct (exec_snapshot c s Hc Hf Hp) as [Hsame|(a & Hu & Ha & Hf' & Hp')].
    + rewrite Hsame. destruct (IH s Hf Hp Hall) as (es & H1 & H2 & H3 & H4).
      exists es. split_and; try assumption. cbn. lia.
    + destruct (IH _ Hf' Hp' Hall) as (es & H1 & H2 & H3 & H4).
      exists (a :: es). split_and.
      * rewrite H1, Hu, <- app_assoc. reflexivity.
      * constructor; [exists (room s); exact Ha|exact H2].
      * exact Ha.
      * cbn. lia.
Qed.

End UndoAll.

(** As many undos as entries take the entries off, and the room is the one
    the first entry holds. *)
Lemma undoTimes_snapshots es : forall base q r0,
  undoStack q = base ++ es ->
  Forall hasSnapshot es ->
  match es with
  | [] => room q = r0
  | e :: _ => field "previousRoom" (payload e) = PRoom r0
  end ->
  room (undoTimes (List.length es) q) = r0
  /\ undoStack (undoTimes (List.length es) q) = base.
Proof.
  induction es as [|a es IH] using rev_ind; intros base q r0 Hu Hall Hhead.
  - cbn. rewrite app_nil_r in Hu. auto.
  - rewrite length_app, Nat.add_1_r. cbn [undoTimes].
    apply Forall_app in Hall. destruct Hall as [Hes Ha].
    inversion Ha as [|? ? [ra Hra] _]; subst.
    rewrite app_assoc in Hu.
    destruct (undo_snapshot q _ _ ra Hu Hra) as (Hr & Hu' & _).
    apply IH; try assumption.
    destruct es as [|e es'].
    + cbn in Hhead. rewrite Hhead in Hra. injection Hra as <-. exact Hr.
    + exact Hhead.
Qed.

(** [addInstance] on the tile layer "TilesForest" is refused and records
    nothing; the one undo counted for it takes back the renaming that came
    before the sequence, and the room is no longer the room the sequence
    started from. *)
Lemma undo_overshoots_after_refused_command :
  ~ undoneInReverse (fun n => n)
      [AddInstance (mkInstance (RefStr "TilesForest") "oTree" 16 16)]
      (setRoomName "A" initialState).
Proof.
  unfold undoneInReverse. vm_compute. intros H. discriminate H.
Qed.

(** C2, amended.  For every sequence of commands other than [RemoveTile],
    [UpdateRoomChance] and [RenameLayer], applied outside a paint session,
    the sequence records at most one entry per command (a command that is
    refused records none), and one [undo] per recorded entry gives back the
    room the sequence started from and an undo stack of the length it had.  When every command
    of the sequence recorded its entry these are as many undos as commands.  *)
Theorem undo_of_recorded_entries_restores_room (trim : string -> string)
    (cs : list Command) (s : State) :
  isUndoRedoAction s = false ->
  isPainting s = false ->
  forallb snapshotCommand cs = true ->
  let s' := run trim cs s in
  let k := (List.length (undoStack s') - List.length (undoStack s))%nat in
  (k <= List.length cs)%nat
  /\ room (undoTimes k s') = room s
  /\ List.length (undoStack (undoTimes k s')) = List.length (undoStack s)
  /\ (k = List.length cs -> undoneInReverse trim cs s).
Proof.
  intros Hf Hp Hall. cbv zeta.
  destruct (run_snapshots trim cs s Hf Hp Hall) as (es & Hu & Hes & Hhead & Hlen).
  rewrite Hu, length_app, Nat.add_comm, Nat.add_sub.
  destruct (undoTimes_snapshots es (undoStack s) (run trim cs s) (room s) Hu Hes Hhead)
    as [Hr Hs].
  split_and; try assumption.
  - rewrite Hs. reflexivity.
  - intros Hk. unfold undoneInReverse. rewrite <- Hk. exact Hr.
Qed.

Lemma undo_of_recorded_entries_restores_room_witness :
  let cs := [RenameRoom "A"; AddTile "TilesForest" 16 16 3; ResizeRoom 400 300;
             AddInstance (mkInstance (RefStr "TilesForest") "oTree" 16 16);
             UpdateRoomType (Some "boss")] in
  let s' := run (fun n => n) cs initialState in
  isUndoRedoAction initialState = false
  /\ isPainting initialState = false
  /\ forallb snapshotCommand cs = true
  /\ List.length (undoStack s') = 4%nat
  /\ room (undoTimes 4 s') = room initialState.
Proof.
  cbv zeta. do 4 (split; [reflexivity|]).
  exact (proj1 (proj2 (undo_of_recorded_entries_restores_room (fun n => n)
           [RenameRoom "A"; AddTile "TilesForest" 16 16 3; ResizeRoom 400 300;
            AddInstance (mkInstance (RefStr "TilesForest") "oTree" 16 16);
            UpdateRoomType (Some "boss")]
           initialState eq_refl eq_refl eq_refl))).
Defined.

(** What the amended statement leaves out.  Outside a session [removeTile]
    records the room as it is after the removal, and its undo removes
    nothing; a renamed layer and a changed chance are not recorded. *)
Lemma removeTile_undo_keeps_removal :
  let s := addTile "TilesForest" 16 16 3 initialState in
  tilesOf "TilesForest" (room s) = [mkTile 16 16 3 None]
  /\ tilesOf "TilesForest" (room (removeTile "TilesForest" 16 16 s)) = []
  /\ tilesOf "TilesForest" (room (undo (removeTile "TilesForest" 16 16 s))) = [].
Proof. repeat split. Qed.

(** ** One tile per cell (C7) *)

Section ArrayFacts.

Context {A : Type}.

Lemma findIndex_None (p : A -> bool) l :
  findIndex p l = None -> forall a, In a l -> p a = false.
Proof.
  induction l as [|b l IH]; cbn; [intros _ a []|].
  destruct (p b) eqn:E; [discriminate|].
  destruct (findIndex p l); [discriminate|].
  intros _ a [<-|Ha]; [exact E|exact (IH eq_refl a Ha)].
Qed.

(** The index [findIndex] returns splits the array at its first match. *)
Lemma findIndex_Some (p : A -> bool) l : forall k,
  findIndex p l = Some k ->
  exists l1 a l2,
    l = l1 ++ a :: l2 /\ List.length l1 = k /\ p a = true
    /\ forall b, In b l1 -> p b = false.
Proof.
  induction l as [|b l IH]; cbn; [discriminate|].
  intros k. destruct (p b) eqn:E.
  - intros [= <-]. exists [], b, l. cbn. split_and; try reflexivity; try assumption.
    intros ? [].
  - destruct (findIndex p l) as [j|]; [|discriminate].
    cbn. intros [= <-].
    destruct (IH j eq_refl) as (l1 & a & l2 & -> & <- & Ha & Hl1).
    exists (b :: l1), a, l2. cbn. split_and; try reflexivity; try assumption.
    intros c [<-|Hc]; [exact E|exact (Hl1 c Hc)].
Qed.

Lemma replaceAt_app (v : A) l1 a l2 :
  replaceAt (List.length l1) v (l1 ++ a :: l2) = l1 ++ v :: l2.
Proof. induction l1 as [|b l1 IH]; cbn; [reflexivity|rewrite IH; reflexivity]. Qed.

Lemma removeAt_app l1 (a : A) l2 :
  removeAt (List.length l1) (l1 ++ a :: l2) = l1 ++ l2.
Proof. induction l1 as [|b l1 IH]; cbn; [reflexivity|rewrite IH; reflexivity]. Qed.

Lemma filter_none (p : A -> bool) l :
  (forall a, In a l -> p a = false) -> filter p l = [].
Proof. intros H. apply filter_nil_iff. exact H. Qed.


Lemma Forall_updateAt (P : A -> Prop) f l : forall k,
  (forall a, P a -> P (f a)) -> Forall P l -> Forall P (updateAt k f l).
Proof.
  intros k Hf H. revert k. induction H as [|a l Ha Hl IH]; intros [|k]; cbn;
    constructor; auto.
Qed.



Lemma find_updateFirst (p : A -> bool) f l a :
  find p l = Some a -> p (f a) = true -> find p (updateFirst p f l) = Some (f a).
Proof.
  induction l as [|b l IH]; cbn; [discriminate|].
  destruct (p b) eqn:E.
  - intros [= ->] Hf. cbn. rewrite Hf. reflexivity.
  - intros H Hf. cbn. rewrite E. exact (IH H Hf).
Qed.

End ArrayFacts.

Lemma NoDup_snoc (A : Type) (l : list A) (a : A) :
  NoDup l -> ~ In a l -> NoDup (l ++ [a]).
Proof.
  intros Hl Ha. induction Hl as [|b l Hb Hl IH]; cbn.
  - constructor; [intros []|constructor].
  - constructor.
    + rewrite in_app_iff. intros [H|[H|[]]]; [exact (Hb H)|].
      apply Ha. left. symmetry. exact H.
    + apply IH. intros H. apply Ha. right. exact H.
Qed.

Lemma sameCell_cell x y t : sameCell x y t = true <-> cell t = (x, y).
Proof.
  unfold sameCell, cell. rewrite andb_true_iff, !Z.eqb_eq.
  split; [intros [-> ->]; reflexivity|intros [= -> ->]; split; reflexivity].
Qed.

Lemma sameCell_false_not_in x y tiles :
  (forall t, In t tiles -> sameCell x y t = false) -> ~ In (x, y) (map cell tiles).
Proof.
  intros H Hin. apply in_map_iff in Hin. destruct Hin as (t & Ht & Hin).
  apply sameCell_cell in Ht. rewrite (H t Hin) in Ht. discriminate.
Qed.

Lemma not_in_sameCell_false x y tiles :
  ~ In (x, y) (map cell tiles) -> forall t, In t tiles -> sameCell x y t = false.
Proof.
  intros H t Hin. destruct (sameCell x y t) eqn:E; [|reflexivity].
  exfalso. apply H. apply sameCell_cell in E. rewrite <- E. apply in_map. exact Hin.
Qed.


(** The tile [findIndex] finds is the only one on its cell. *)
Lemma uniqueCells_split x y l1 t l2 :
  uniqueCells (l1 ++ t :: l2) -> sameCell x y t = true ->
  ~ In (x, y) (map cell (l1 ++ l2)) /\ uniqueCells (l1 ++ l2).
Proof.
  unfold uniqueCells. rewrite !map_app. cbn [map]. intros H Ht.
  apply sameCell_cell in Ht. rewrite Ht in H.
  split; [apply (NoDup_remove_2 _ _ _ H)|apply (NoDup_remove_1 _ _ _ H)].
Qed.




Lemma stampTile_unique r n x y acc b :
  uniqueCells (fst acc) -> uniqueCells (fst (stampTile r n x y acc b)).
Proof.
  destruct acc as [tiles batched]. unfold stampTile. cbn [fst].
  set (tx := x + _). set (ty := y + _). intros H.
  destruct ((tx <? 0) || (ty <? 0) || (tx >=? width r) || (ty >=? height r));
    [exact H|].
  cbn [fst]. unfold uniqueCells. rewrite map_app. cbn [map].
  change (cell (mkTile tx ty (brush_index b) None)) with (tx, ty).
  destruct (findIndex (sameCell tx ty) tiles) as [k|] eqn:F.
  - apply findIndex_Some in F. destruct F as (l1 & t & l2 & -> & <- & Ht & _).
    rewrite removeAt_app.
    destruct (uniqueCells_split tx ty l1 t l2 H Ht) as [Hno Hu].
    apply NoDup_snoc; assumption.
  - apply NoDup_snoc; [exact H|].
    apply sameCell_false_not_in. exact (findIndex_None _ _ F).
Qed.


Lemma addTile_room n x y i s layer :
  find (hasName n) (layers (room s)) = Some layer ->
  isTileLayer layer = true ->
  room (addTile n x y i s)
  = setLayers
      (updateFirst (hasName n)
         (fun l => setLayerTiles (upsertTile x y i (layer_tiles l)) l)
         (layers (room s)))
      (room s).
Proof.
  intros F T. unfold addTile, deepCopy. rewrite F, T. cbn [negb].
  destruct (isPainting s); reflexivity.
Qed.

Lemma addTile_find n x y i s layer :
  find (hasName n) (layers (room s)) = Some layer ->
  isTileLayer layer = true ->
  find (hasName n) (layers (room (addTile n x y i s)))
  = Some (setLayerTiles (upsertTile x y i (layer_tiles layer)) layer).
Proof.
  intros F T. rewrite (addTile_room n x y i s layer F T). cbn [layers setLayers].
  apply (find_updateFirst (hasName n)
           (fun l => setLayerTiles (upsertTile x y i (layer_tiles l)) l)); [exact F|].
  apply find_some in F. exact (proj2 F).
Qed.

Section TileInvariant.

Variable trim : string -> string.


End TileInvariant.

(** A layer of the room is written by position ([findIndex]) by the brush
    and by its first match ([find]) by [addTile]. *)
Lemma find_findIndex (A : Type) (p : A -> bool) (l : list A) :
  find p l = match findIndex p l with
             | Some k => nth_error l k
             | None => None
             end.
Proof.
  induction l as [|a l IH]; [reflexivity|].
  cbn. destruct (p a); [reflexivity|].
  rewrite IH. destruct (findIndex p l); reflexivity.
Qed.

(** *** What a brush stamp leaves on a cell *)

Lemma find_app_none (A : Type) (p : A -> bool) (l l' : list A) :
  (forall b, In b l -> p b = false) -> find p (l ++ l') = find p l'.
Proof.
  induction l as [|a l IH]; intros H; [reflexivity|].
  cbn. rewrite (H a (or_introl eq_refl)). apply IH.
  intros b Hb. apply H. right. exact Hb.
Qed.

Lemma find_replaceAt (A : Type) (p : A -> bool) (l : list A) (k : nat) (v : A) :
  findIndex p l = Some k -> p v = true -> find p (replaceAt k v l) = Some v.
Proof.
  intros F Hv. apply findIndex_Some in F.
  destruct F as (l1 & a & l2 & -> & <- & _ & Hl1).
  rewrite replaceAt_app, (find_app_none _ _ _ _ Hl1). cbn. rewrite Hv. reflexivity.
Qed.

Lemma outOfRoom_false r tx ty :
  (tx <? 0) || (ty <? 0) || (tx >=? width r) || (ty >=? height r) = false
  <-> insideRoom (width r) (height r) tx ty.
Proof.
  unfold insideRoom. rewrite !orb_false_iff, !Z.ltb_ge. split.
  - intros [[[G1 G2] G3] G4].
    assert (tx < width r) by (destruct (Z.geb_spec tx (width r)); [discriminate|lia]).
    assert (ty < height r) by (destruct (Z.geb_spec ty (height r)); [discriminate|lia]).
    lia.
  - intros [[H1 H2] [H3 H4]]. split_and; lia.
Qed.

Lemma sameCell_other cx cy tx ty t :
  (tx, ty) <> (cx, cy) -> sameCell tx ty t = true -> sameCell cx cy t = false.
Proof.
  intros Hne Ht. destruct (sameCell cx cy t) eqn:E; [|reflexivity].
  apply sameCell_cell in Ht, E. rewrite Ht in E. contradiction.
Qed.

(** A brush tile that lands on another cell leaves the cell as it is. *)
Lemma stampTile_other_cell r n x y acc b cx cy :
  stampCell x y b <> (cx, cy) ->
  filter (sameCell cx cy) (fst (stampTile r n x y acc b))
  = filter (sameCell cx cy) (fst acc).
Proof.
  destruct acc as [tiles batched]. unfold stampCell, stampOffset, stampTile.
  cbn [fst snd].
  set (tx := x + _). set (ty := y + _). intros Hne.
  destruct ((tx <? 0) || (ty <? 0) || (tx >=? width r) || (ty >=? height r));
    [reflexivity|].
  cbn [fst]. rewrite filter_app. cbn [filter].
  assert (Hnew : sameCell cx cy (mkTile tx ty (brush_index b) None) = false).
  { apply (sameCell_other cx cy tx ty); [exact Hne|].
    apply sameCell_cell. reflexivity. }
  rewrite Hnew, app_nil_r.
  destruct (findIndex (sameCell tx ty) tiles) as [k|] eqn:F; [|reflexivity].
  apply findIndex_Some in F. destruct F as (l1 & t & l2 & -> & <- & Ht & _).
  rewrite removeAt_app, !filter_app. cbn [filter].
  rewrite (sameCell_other cx cy tx ty t Hne Ht). reflexivity.
Qed.

Lemma stampTiles_other_cell r n x y cx cy bs : forall acc,
  (forall b, In b bs -> stampCell x y b <> (cx, cy)) ->
  filter (sameCell cx cy) (fst (fold_left (stampTile r n x y) bs acc))
  = filter (sameCell cx cy) (fst acc).
Proof.
  induction bs as [|b bs IH]; intros acc H; [reflexivity|].
  cbn [fold_left]. rewrite IH.
  - apply stampTile_other_cell. apply H. left. reflexivity.
  - intros b' Hb'. apply H. right. exact Hb'.
Qed.

(** A brush tile that lands inside the room leaves its own tile on its
    cell, and no other. *)
Lemma stampTile_own_cell r n x y acc b cx cy :
  uniqueCells (fst acc) ->
  stampCell x y b = (cx, cy) ->
  insideRoom (width r) (height r) cx cy ->
  filter (sameCell cx cy) (fst (stampTile r n x y acc b))
  = [mkTile cx cy (brush_index b) None].
Proof.
  destruct acc as [tiles batched]. unfold stampCell, stampOffset, stampTile.
  cbn [fst snd].
  set (tx := x + _). set (ty := y + _). intros Hu Heq Hin.
  injection Heq as Hx Hy. subst cx cy.
  apply outOfRoom_false in Hin. rewrite Hin. cbn [fst].
  rewrite filter_app. cbn [filter].
  assert (Hnew : sameCell tx ty (mkTile tx ty (brush_index b) None) = true).
  { apply sameCell_cell. reflexivity. }
  rewrite Hnew.
  destruct (findIndex (sameCell tx ty) tiles) as [k|] eqn:F.
  - apply findIndex_Some in F. destruct F as (l1 & t & l2 & -> & <- & Ht & _).
    rewrite removeAt_app.
    destruct (uniqueCells_split tx ty l1 t l2 Hu Ht) as [Hno _].
    rewrite (filter_none _ _ (not_in_sameCell_false tx ty _ Hno)). reflexivity.
  - rewrite (filter_none _ _ (findIndex_None _ _ F)). reflexivity.
Qed.

Lemma stampTiles_own_cell r n x y b cx cy bs : forall acc,
  uniqueCells (fst acc) ->
  NoDup (map (stampCell x y) bs) ->
  In b bs ->
  stampCell x y b = (cx, cy) ->
  insideRoom (width r) (height r) cx cy ->
  filter (sameCell cx cy) (fst (fold_left (stampTile r n x y) bs acc))
  = [mkTile cx cy (brush_index b) None].
Proof.
  induction bs as [|b0 bs IH]; intros acc Hu Hnd Hb Hc Hin; [destruct Hb|].
  cbn [fold_left]. cbn [map] in Hnd. inversion Hnd as [|? ? Hnot Hnd']; subst.
  destruct Hb as [->|Hb].
  - rewrite stampTiles_other_cell.
    + apply stampTile_own_cell; assumption.
    + intros b' Hb' Heq. apply Hnot. rewrite Hc, <- Heq. apply in_map. exact Hb'.
  - apply IH; try assumption. apply stampTile_unique. exact Hu.
Qed.

Lemma applyTileBrush_tilesOf n x y s brush l :
  tileBrush s = Some brush ->
  find (hasName n) (layers (room s)) = Some l ->
  layer_type l = TileLayer ->
  tilesOf n (room (applyTileBrush n x y s))
  = fst (fold_left (stampTile (room s) n x y) (brush_tiles brush) (layer_tiles l, [])).
Proof.
  intros B F T. unfold applyTileBrush. rewrite B.
  pose proof (find_some_name _ _ _ F) as [_ Hn].
  rewrite find_findIndex in F.
  destruct (findIndex (hasName n) (layers (room s))) as [k|] eqn:Fi; [|discriminate].
  rewrite F. unfold isTileLayer. rewrite T. cbn [negb].
  destruct (fold_left _ _ _) as [tiles batched]. cbn [fst].
  assert (Hfind : find (hasName n)
                    (replaceAt k (setLayerTiles tiles l) (layers (room s)))
                  = Some (setLayerTiles tiles l)).
  { apply find_replaceAt; [exact Fi|]. unfold hasName. cbn. rewrite Hn.
    apply String.eqb_refl. }
  unfold tilesOf. destruct (isPainting s); cbn; rewrite Hfind; reflexivity.
Qed.






(** * Further properties of the engine *)

(** ** The two stacks *)

Lemma undo_stacks s stack a :
  undoStack s = stack ++ [a] ->
  undoStack (undo s) = stack /\ redoStack (undo s) = redoStack s ++ [a].
Proof.
  intros Hs. unfold undo. rewrite Hs, top_snoc, removelast_last.
  destruct (field "previousRoom" (payload a)); split; reflexivity.
Qed.

Lemma redo_stacks s stack a :
  redoStack s = stack ++ [a] ->
  redoStack (redo s) = stack /\ undoStack (redo s) = undoStack s ++ [a].
Proof.
  intros Hs. unfold redo. rewrite Hs, top_snoc, removelast_last.
  split; reflexivity.
Qed.

(** X1.  [undo] and [redo] only move the top entry from one stack to the
    other, whatever its kind: with an empty undo stack [undo] changes
    nothing, with an empty redo stack [redo] changes nothing, and after
    [undo] then [redo], or [redo] then [undo], both stacks are as they
    were. *)
Theorem undo_redo_move_top_entry (s : State) :
  (undoStack s = [] -> undo s = s)
  /\ (redoStack s = [] -> redo s = s)
  /\ (forall stack a, undoStack s = stack ++ [a] ->
        undoStack (undo s) = stack
        /\ redoStack (undo s) = redoStack s ++ [a]
        /\ undoStack (redo (undo s)) = undoStack s
        /\ redoStack (redo (undo s)) = redoStack s)
  /\ (forall stack a, redoStack s = stack ++ [a] ->
        redoStack (redo s) = stack
        /\ undoStack (redo s) = undoStack s ++ [a]
        /\ undoStack (undo (redo s)) = undoStack s
        /\ redoStack (undo (redo s)) = redoStack s).
Proof.
  split; [apply undo_empty|]. split.
  - intros H. unfold redo. rewrite H. reflexivity.
  - split.
    + intros stack a Hs. destruct (undo_stacks s stack a Hs) as [Hu Hr].
      destruct (redo_stacks (undo s) (redoStack s) a Hr) as [Hr' Hu'].
      split_and; try assumption. rewrite Hu', Hu. symmetry. exact Hs.
    + intros stack a Hs. destruct (redo_stacks s stack a Hs) as [Hr Hu].
      destruct (undo_stacks (redo s) (undoStack s) a Hu) as [Hu' Hr'].
      split_and; try assumption. rewrite Hr', Hr. symmetry. exact Hs.
Qed.

(** ** Recording *)

Lemma updateRoomWithHistory_stacks newRoom action s :
  (undoStack (updateRoomWithHistory newRoom action s) = undoStack s
   /\ redoStack (updateRoomWithHistory newRoom action s) = redoStack s)
  \/ (exists a, undoStack (updateRoomWithHistory newRoom action s) = undoStack s ++ [a])
     /\ redoStack (updateRoomWithHistory newRoom action s) = [].
Proof.
  unfold updateRoomWithHistory, addToHistory.
  destruct (isUndoRedoAction s) eqn:E; cbn; rewrite ?E; cbn.
  - left. split; reflexivity.
  - right. split; [eexists|]; reflexivity.
Qed.

Lemma addToHistory_stacks action s :
  (undoStack (addToHistory action s) = undoStack s
   /\ redoStack (addToHistory action s) = redoStack s)
  \/ (exists a, undoStack (addToHistory action s) = undoStack s ++ [a])
     /\ redoStack (addToHistory action s) = [].
Proof.
  unfold addToHistory. destruct (isUndoRedoAction s).
  - left. split; reflexivity.
  - right. split; [eexists|]; reflexivity.
Qed.

(** The stacks of the embedding after a command.  The embedding follows an
    entry as the value it was recorded with. *)
Lemma exec_stacks (trim : string -> string) (c : Command) (s : State) :
  (undoStack (exec trim c s) = undoStack s
   /\ redoStack (exec trim c s) = redoStack s)
  \/ (exists a, undoStack (exec trim c s) = undoStack s ++ [a])
     /\ redoStack (exec trim c s) = [].
Proof.
  assert (Hsame : (undoStack s = undoStack s /\ redoStack s = redoStack s)
                  \/ (exists a, undoStack s = undoStack s ++ [a]) /\ redoStack s = []).
  { left. split; reflexivity. }
  destruct c; cbn [exec].
  - apply updateRoomWithHistory_stacks.
  - unfold addInstance.
    destruct (negb (canPlaceObjectOnLayer (room s) (instance_layer_name i)));
      [exact Hsame|apply updateRoomWithHistory_stacks].
  - unfold removeInstance. destruct (jsNth (instances (room s)) i);
      [apply updateRoomWithHistory_stacks|exact Hsame].
  - apply updateRoomWithHistory_stacks.
  - unfold removeLayer. destruct (find (hasName n) (layers (room s)));
      [apply updateRoomWithHistory_stacks|exact Hsame].
  - apply updateRoomWithHistory_stacks.
  - apply updateRoomWithHistory_stacks.
  - apply updateRoomWithHistory_stacks.
  - unfold handleSaveRename.
    destruct (negb (truthyString (trim newName)) || (newName =? oldName)%string);
      [exact Hsame|].
    destruct (find (hasName oldName) (layers (room s))); exact Hsame.
  - unfold addTile, deepCopy.
    destruct (find (hasName layerName) (layers (room s))) as [l|]; [|exact Hsame].
    destruct (negb (isTileLayer l)); [exact Hsame|].
    destruct (isPainting s); [exact Hsame|apply updateRoomWithHistory_stacks].
  - unfold removeTile. destruct (isPainting s).
    + destruct (find (hasName layerName) (layers (room s))) as [l|]; [|exact Hsame].
      destruct (negb (isTileLayer l)); exact Hsame.
    + destruct (find (hasName layerName) (layers (room s))) as [l|]; [|exact Hsame].
      destruct (negb (isTileLayer l)); [exact Hsame|].
      destruct (findIndex (sameCell x y) (layer_tiles l)); [|exact Hsame].
      match goal with
      | |- context [updateRoomWithHistory ?nr ?a ?st] =>
          exact (updateRoomWithHistory_stacks nr a st)
      end.
  - unfold updateRoomSize.
    match goal with
    | |- context [addToHistory ?a ?st] => exact (addToHistory_stacks a st)
    end.
  - apply updateRoomWithHistory_stacks.
  - apply updateRoomWithHistory_stacks.
  - exact Hsame.
  - unfold applyTileBrush. destruct (tileBrush s) as [brush|]; [|exact Hsame].
    destruct (findIndex (hasName layerName) (layers (room s))) as [li|]; [|exact Hsame].
    destruct (nth_error (layers (room s)) li) as [l|]; [|exact Hsame].
    destruct (negb (isTileLayer l)); [exact Hsame|].
    destruct (fold_left _ _ _) as [tiles batched].
    destruct (isPainting s); [exact Hsame|].
    match goal with
    | |- context [addToHistory ?a ?st] => exact (addToHistory_stacks a st)
    end.
Qed.

(** X2.  The history is linear: whatever the command and the state, a
    command either leaves the entries of both stacks in their number, order
    and kinds, or pushes exactly one entry on the undo stack, above the
    entries that were there, and empties the redo stack.  The statement is
    on the kinds of the entries: an entry can hold an object that the room
    still shares (the layer of an [ADD_LAYER] entry), and a brush stamp
    writes through it. *)
Theorem command_records_one_entry_and_clears_redo (trim : string -> string)
    (c : Command) (s : State) :
  (kinds (undoStack (exec trim c s)) = kinds (undoStack s)
   /\ kinds (redoStack (exec trim c s)) = kinds (redoStack s))
  \/ (exists k, kinds (undoStack (exec trim c s)) = kinds (undoStack s) ++ [k])
     /\ redoStack (exec trim c s) = [].
Proof.
  destruct (exec_stacks trim c s) as [[Hu Hr]|[[a Hu] Hr]].
  - left. rewrite Hu, Hr. split; reflexivity.
  - right. split; [|exact Hr].
    exists (action_type a). unfold kinds. rewrite Hu, map_app. reflexivity.
Qed.

(** ** Redo of the instance and layer commands *)

(** After a recorded command and its undo, [redo] applies the [case] of the
    entry to the room the command started from. *)
Lemma redo_after_undo newRoom action s :
  isUndoRedoAction s = false ->
  room (redo (undo (updateRoomWithHistory newRoom action s)))
  = redoSwitch (mkAction (action_type action)
                         (("previousRoom", PRoom (room s)) :: payload action))
               (room s).
Proof.
  intros Hf.
  pose proof (updateRoomWithHistory_undoStack newRoom action s Hf) as Hu.
  destruct (undo_snapshot (updateRoomWithHistory newRoom action s) _ _ (room s)
              Hu eq_refl) as (Hr & _ & Hrs & _).
  unfold redo. rewrite Hrs, top_snoc.
  cbn [room setIsUndoRedoAction setRoom setRedoStack setUndoStack].
  rewrite Hr. reflexivity.
Qed.

(** X3.  An instance that [addInstance] accepts is taken away by [undo] and
    put back by [redo]: the room after [undo] and [redo] is the room after
    the command. *)
Theorem addInstance_undo_redo (s : State) (i : Instance) :
  isUndoRedoAction s = false ->
  canPlaceObjectOnLayer (room s) (instance_layer_name i) = true ->
  room (undo (addInstance i s)) = room s
  /\ room (redo (undo (addInstance i s))) = room (addInstance i s).
Proof.
  intros Hf Hc. split.
  - unfold addInstance. rewrite Hc. cbn [negb].
    match goal with
    | |- context [updateRoomWithHistory ?nr ?a s] =>
        pose proof (updateRoomWithHistory_undoStack nr a s Hf) as Hu;
        exact (proj1 (undo_snapshot (updateRoomWithHistory nr a s) _ _ (room s)
                        Hu eq_refl))
    end.
  - apply undo_redo_addInstance; assumption.
Qed.

Lemma addInstance_undo_redo_witness :
  let i := mkInstance (RefStr "Objects") "oTree" 16 16 in
  isUndoRedoAction initialState = false
  /\ canPlaceObjectOnLayer (room initialState) (instance_layer_name i) = true
  /\ room (undo (addInstance i initialState)) = room initialState
  /\ room (redo (undo (addInstance i initialState))) = room (addInstance i initialState).
Proof.
  cbv zeta. do 2 (split; [reflexivity|]).
  exact (addInstance_undo_redo initialState
           (mkInstance (RefStr "Objects") "oTree" 16 16) eq_refl eq_refl).
Defined.

(** X4.  [redo] of a removed instance removes the first instance with the
    position and the object name of the removed one.  When the removed
    instance is that first one, [undo] then [redo] gives the room after the
    removal; [undo] alone gives the room before it. *)
Theorem removeInstance_undo_redo (s s' : State) (i : Z) (removed : Instance) :
  isUndoRedoAction s = false ->
  removeInstance i s = Some s' ->
  jsNth (instances (room s)) i = Some removed ->
  findIndex (sameInstance removed) (instances (room s)) = Some (Z.to_nat i) ->
  room (undo s') = room s /\ room (redo (undo s')) = room s'.
Proof.
  intros Hf Hrm Hn Hfirst. unfold removeInstance in Hrm. rewrite Hn in Hrm.
  injection Hrm as <-. split.
  - match goal with
    | |- context [updateRoomWithHistory ?nr ?a s] =>
        pose proof (updateRoomWithHistory_undoStack nr a s Hf) as Hu;
        exact (proj1 (undo_snapshot (updateRoomWithHistory nr a s) _ _ (room s)
                        Hu eq_refl))
    end.
  - rewrite redo_after_undo by exact Hf.
    unfold redoSwitch. cbn. rewrite Hfirst. reflexivity.
Qed.

Lemma removeInstance_undo_redo_witness :
  let i := mkInstance (RefStr "Objects") "oTree" 16 16 in
  let s := addInstance i initialState in
  isUndoRedoAction s = false
  /\ (exists s', removeInstance 0 s = Some s'
                 /\ room (undo s') = room s /\ room (redo (undo s')) = room s').
Proof.
  cbv zeta. split; [reflexivity|].
  eexists. split; [reflexivity|].
  exact (removeInstance_undo_redo
           (addInstance (mkInstance (RefStr "Objects") "oTree" 16 16) initialState)
           _ 0 (mkInstance (RefStr "Objects") "oTree" 16 16)
           eq_refl eq_refl eq_refl eq_refl).
Defined.

(** Two instances of one object on one spot, on two layers: after the
    second is removed, undone and redone, the first is the one missing. *)
Lemma removeInstance_redo_removes_first_match :
  let a := mkInstance (RefStr "Objects") "oTree" 16 16 in
  let b := mkInstance (RefStr "Props") "oTree" 16 16 in
  let s := addInstance b (addInstance a
             (addLayer (mkLayer "Props" 200 ObjectLayer true [] None) initialState)) in
  option_map (fun s' => instances (room s')) (removeInstance 1 s) = Some [a]
  /\ option_map (fun s' => instances (room (redo (undo s')))) (removeInstance 1 s)
     = Some [b].
Proof. split; reflexivity. Qed.

(** X5.  A layer that [addLayer] appends is taken away by [undo] and
    appended again by [redo]; a layer that [removeLayer] removes, with the
    instances on it, comes back by [undo] and is removed again, with these
    instances, by [redo]. *)
Theorem layer_commands_undo_redo (s : State) :
  isUndoRedoAction s = false ->
  (forall l,
     room (undo (addLayer l s)) = room s
     /\ room (redo (undo (addLayer l s))) = room (addLayer l s))
  /\ (forall n layer,
        find (hasName n) (layers (room s)) = Some layer ->
        room (undo (removeLayer n s)) = room s
        /\ room (redo (undo (removeLayer n s))) = room (removeLayer n s)).
Proof.
  intros Hf. split.
  - intros l. split.
    + unfold addLayer.
      match goal with
      | |- context [updateRoomWithHistory ?nr ?a s] =>
          pose proof (updateRoomWithHistory_undoStack nr a s Hf) as Hu;
          exact (proj1 (undo_snapshot (updateRoomWithHistory nr a s) _ _ (room s)
                          Hu eq_refl))
      end.
    + unfold addLayer. rewrite redo_after_undo by exact Hf. reflexivity.
  - intros n layer F. split.
    + unfold removeLayer. rewrite F.
      match goal with
      | |- context [updateRoomWithHistory ?nr ?a s] =>
          pose proof (updateRoomWithHistory_undoStack nr a s Hf) as Hu;
          exact (proj1 (undo_snapshot (updateRoomWithHistory nr a s) _ _ (room s)
                          Hu eq_refl))
      end.
    + unfold removeLayer. rewrite F. rewrite redo_after_undo by exact Hf.
      apply find_some_name in F. destruct F as [_ Hn].
      unfold redoSwitch. cbn. rewrite Hn. reflexivity.
Qed.

Lemma layer_commands_undo_redo_witness :
  let l := mkLayer "Ground" 0 TileLayer true [] None in
  isUndoRedoAction initialState = false
  /\ room (redo (undo (addLayer l initialState))) = room (addLayer l initialState)
  /\ room (redo (undo (removeLayer "Objects" initialState)))
     = room (removeLayer "Objects" initialState).
Proof.
  cbv zeta. split; [reflexivity|]. split.
  - exact (proj2 (proj1 (layer_commands_undo_redo initialState eq_refl)
                        (mkLayer "Ground" 0 TileLayer true [] None))).
  - exact (proj2 (proj2 (layer_commands_undo_redo initialState eq_refl)
                        "Objects" _ eq_refl)).
Defined.

(** ** Layer removal *)

(** X6.  [removeLayer] of a name no layer bears changes nothing.  Otherwise
    it removes every layer of that name and every instance on it, keeps the
    other layers and instances, and the entry it records carries the removed
    layer and exactly the removed instances. *)
Theorem removeLayer_cascades (n : string) (s : State) :
  (find (hasName n) (layers (room s)) = None -> removeLayer n s = s)
  /\ (forall layer,
        find (hasName n) (layers (room s)) = Some layer ->
        (forall l, In l (layers (room (removeLayer n s)))
                   <-> In l (layers (room s)) /\ layer_name l <> n)
        /\ (forall i, In i (instances (room (removeLayer n s)))
                      <-> In i (instances (room s))
                          /\ instance_layer_name i <> RefStr n)
        /\ (isUndoRedoAction s = false ->
            exists a removed,
              undoStack (removeLayer n s) = undoStack s ++ [a]
              /\ field "layer" (payload a) = PLayer layer
              /\ field "removedInstances" (payload a) = PInstances removed
              /\ forall i, In i removed
                           <-> In i (instances (room s))
                               /\ instance_layer_name i = RefStr n)).
Proof.
  assert (Hon : forall i, onLayer n i = true <-> instance_layer_name i = RefStr n).
  { intros i. unfold onLayer. destruct (instance_layer_name i) as [m|m].
    - rewrite String.eqb_eq. split; [intros ->; reflexivity|intros [= ->]; reflexivity].
    - split; discriminate. }
  split.
  - intros F. unfold removeLayer. rewrite F. reflexivity.
  - intros layer F. unfold removeLayer. rewrite F. cbn [room updateRoomWithHistory
      setRoom]. cbn [layers instances setInstances setLayers]. split_and.
    + intros l. rewrite filter_In. unfold hasName.
      rewrite negb_true_iff, String.eqb_neq. reflexivity.
    + intros i. rewrite filter_In, negb_true_iff, <- not_true_iff_false, Hon.
      reflexivity.
    + intros Hf. rewrite updateRoomWithHistory_undoStack by exact Hf.
      eexists. eexists. split; [reflexivity|]. cbn. split; [reflexivity|].
      split; [reflexivity|]. intros i. rewrite filter_In, Hon. reflexivity.
Qed.

(** ** Guards of the tile commands *)

(** X7.  On a name that no layer bears, or whose first layer is of type
    [object], the tile commands are refused: [addTile] and [applyTileBrush]
    leave the whole state as it is, in a paint session or outside, and
    [removeTile] leaves the room and both stacks as they are. *)
Theorem tile_commands_refused_off_tile_layers (n : string) (s : State) :
  (forall l, find (hasName n) (layers (room s)) = Some l ->
             layer_type l = ObjectLayer) ->
  (forall x y i, addTile n x y i s = s)
  /\ (forall x y, applyTileBrush n x y s = s)
  /\ (forall x y, room (removeTile n x y s) = room s
                  /\ undoStack (removeTile n x y s) = undoStack s
                  /\ redoStack (removeTile n x y s) = redoStack s).
Proof.
  intros H.
  assert (Ht : forall l, find (hasName n) (layers (room s)) = Some l ->
                         isTileLayer l = false).
  { intros l F. unfold isTileLayer. rewrite (H l F). reflexivity. }
  split_and.
  - intros x y i. unfold addTile, deepCopy.
    destruct (find (hasName n) (layers (room s))) as [l|] eqn:F; [|reflexivity].
    rewrite (Ht l eq_refl). reflexivity.
  - intros x y. unfold applyTileBrush. destruct (tileBrush s); [|reflexivity].
    rewrite find_findIndex in Ht.
    destruct (findIndex (hasName n) (layers (room s))) as [k|]; [|reflexivity].
    destruct (nth_error (layers (room s)) k) as [l|]; [|reflexivity].
    rewrite (Ht l eq_refl). reflexivity.
  - intros x y. unfold removeTile.
    destruct (find (hasName n) (layers (room s))) as [l|] eqn:F.
    + rewrite (Ht l eq_refl). destruct (isPainting s); split_and; reflexivity.
    + destruct (isPainting s); split_and; reflexivity.
Qed.

Lemma tile_commands_refused_off_tile_layers_witness :
  (forall l, find (hasName "Objects") (layers (room initialState)) = Some l ->
             layer_type l = ObjectLayer)
  /\ addTile "Objects" 16 16 3 initialState = initialState.
Proof.
  assert (H : forall l, find (hasName "Objects") (layers (room initialState)) = Some l ->
                        layer_type l = ObjectLayer).
  { intros l [= <-]. reflexivity. }
  split; [exact H|].
  exact (proj1 (tile_commands_refused_off_tile_layers "Objects" initialState H) 16 16 3).
Defined.

(** ** The reference string of the room *)

Lemma exec_keeps_name trim c s :
  (forall n, c <> RenameRoom n) ->
  name (room (exec trim c s)) = name (room s)
  /\ index (room (exec trim c s)) = index (room s).
Proof.
  intros Hc. destruct c; cbn [exec].
  - exfalso. exact (Hc n eq_refl).
  - unfold addInstance.
    destruct (negb (canPlaceObjectOnLayer (room s) (instance_layer_name i)));
      split; reflexivity.
  - unfold removeInstance. destruct (jsNth (instances (room s)) i); split; reflexivity.
  - split; reflexivity.
  - unfold removeLayer. destruct (find (hasName n) (layers (room s))); split; reflexivity.
  - split; reflexivity.
  - split; reflexivity.
  - split; reflexivity.
  - unfold handleSaveRename.
    destruct (negb (truthyString (trim newName)) || (newName =? oldName)%string);
      [split; reflexivity|].
    destruct (find (hasName oldName) (layers (room s))); split; reflexivity.
  - unfold addTile, deepCopy.
    destruct (find (hasName layerName) (layers (room s))) as [l|]; [|split; reflexivity].
    destruct (negb (isTileLayer l)); [split; reflexivity|].
    destruct (isPainting s); split; reflexivity.
  - unfold removeTile. destruct (isPainting s).
    + destruct (find (hasName layerName) (layers (room s))) as [l|]; [|split; reflexivity].
      destruct (negb (isTileLayer l)); split; reflexivity.
    + destruct (find (hasName layerName) (layers (room s))) as [l|]; [|split; reflexivity].
      destruct (negb (isTileLayer l)); [split; reflexivity|].
      destruct (findIndex (sameCell x y) (layer_tiles l)); split; reflexivity.
  - rewrite updateRoomSize_room. split; reflexivity.
  - split; reflexivity.
  - split; reflexivity.
  - split; reflexivity.
  - unfold applyTileBrush. destruct (tileBrush s) as [brush|]; [|split; reflexivity].
    destruct (findIndex (hasName layerName) (layers (room s))) as [li|];
      [|split; reflexivity].
    destruct (nth_error (layers (room s)) li) as [l|]; [|split; reflexivity].
    destruct (negb (isTileLayer l)); [split; reflexivity|].
    destruct (fold_left _ _ _) as [tiles batched].
    destruct (isPainting s); split; reflexivity.
Qed.

(** X8.  The reference string follows the name: [setRoomName] sets
    [@ref room(<name>)] for the name it sets, no other command touches the
    name or the reference, and so every command keeps the reference string
    of a room in step with its name. *)
Theorem commands_keep_index_in_step (trim : string -> string) (s : State) :
  (forall n, name (room (setRoomName n s)) = n
             /\ indexMatchesName (room (setRoomName n s)))
  /\ (forall c, (forall n, c <> RenameRoom n) ->
                name (room (exec trim c s)) = name (room s)
                /\ index (room (exec trim c s)) = index (room s))
  /\ (forall c, indexMatchesName (room s) ->
                indexMatchesName (room (exec trim c s))).
Proof.
  split; [|split].
  - intros n. split; reflexivity.
  - intros c Hc. apply exec_keeps_name. exact Hc.
  - intros c H. destruct c;
      try (unfold indexMatchesName in *;
           match goal with
           | |- index (room (exec trim ?c s)) = _ =>
               destruct (exec_keeps_name trim c s) as [Hn Hi];
               [intros ? ?; discriminate|rewrite Hn, Hi; exact H]
           end).
    reflexivity.
Qed.

(** ** Instances sit on object layers *)

Lemma find_hasName_sig_object n ls ls' :
  map layerSig ls = map layerSig ls' ->
  option_map isObjectLayer (find (hasName n) ls)
  = option_map isObjectLayer (find (hasName n) ls').
Proof.
  revert ls'. induction ls as [|l ls IH]; intros [|l' ls'] H; try discriminate.
  - reflexivity.
  - cbn in H. injection H as Hn Ht Hrest.
    cbn. unfold hasName at 1 3. rewrite Hn.
    destruct (layer_name l' =? n)%string.
    + cbn. unfold isObjectLayer. rewrite Ht. reflexivity.
    + apply IH. exact Hrest.
Qed.

Lemma canPlace_sig r r' ref :
  map layerSig (layers r) = map layerSig (layers r') ->
  canPlaceObjectOnLayer r ref = canPlaceObjectOnLayer r' ref.
Proof.
  intros H. destruct ref as [n|n]; [|reflexivity].
  cbn. pose proof (find_hasName_sig_object n _ _ H) as Hf.
  destruct (find (hasName n) (layers r)), (find (hasName n) (layers r'));
    cbn in Hf; congruence.
Qed.

Lemma instancesPlaced_transfer r r' :
  map layerSig (layers r') = map layerSig (layers r) ->
  (forall i, In i (instances r') -> In i (instances r)) ->
  instancesPlaced r -> instancesPlaced r'.
Proof.
  intros Hs Hi H i Hin. rewrite (canPlace_sig r' r _ Hs). apply H, Hi, Hin.
Qed.

Lemma removeAt_incl (A : Type) (l : list A) : forall k a,
  In a (removeAt k l) -> In a l.
Proof.
  induction l as [|b l IH]; intros [|k] a; cbn; auto.
  intros [H|H]; [left; exact H|right; exact (IH k a H)].
Qed.

Lemma replaceAt_sig l tiles : forall ls k,
  nth_error ls k = Some l ->
  map layerSig (replaceAt k (setLayerTiles tiles l) ls) = map layerSig ls.
Proof.
  induction ls as [|a ls IH]; intros [|k] H; try discriminate.
  - injection H as ->. reflexivity.
  - cbn. rewrite (IH k H). reflexivity.
Qed.

Lemma map_sig_same (f : Layer -> Layer) ls :
  (forall l, layerSig (f l) = layerSig l) ->
  map layerSig (map f ls) = map layerSig ls.
Proof.
  intros H. rewrite map_map. apply map_ext. exact H.
Qed.

(** A command that writes tiles or fields of the room keeps the names and
    types of the layers and adds no instance. *)
Lemma exec_keeps_signatures trim c s :
  match c with
  | AddInstance _ | AddLayer _ | RemoveLayer _
  | UpdateLayerType _ _ | RenameLayer _ _ => True
  | _ =>
      map layerSig (layers (room (exec trim c s))) = map layerSig (layers (room s))
      /\ forall i, In i (instances (room (exec trim c s))) ->
                   In i (instances (room s))
  end.
Proof.
  assert (Hsame : map layerSig (layers (room s)) = map layerSig (layers (room s))
                  /\ forall i, In i (instances (room s)) -> In i (instances (room s))).
  { split; [reflexivity|auto]. }
  destruct c; cbn [exec]; try exact I; try exact Hsame.
  - unfold removeInstance. destruct (jsNth (instances (room s)) i); [|exact Hsame].
    cbn. split; [reflexivity|apply removeAt_incl].
  - cbn. split; [|auto]. apply map_sig_same. intros l.
    destruct (hasName n l); reflexivity.
  - cbn. split; [|auto]. apply map_sig_same. intros l.
    destruct (hasName n l); reflexivity.
  - unfold addTile, deepCopy.
    destruct (find (hasName layerName) (layers (room s))) as [l|]; [|exact Hsame].
    destruct (negb (isTileLayer l)); [exact Hsame|].
    destruct (isPainting s); cbn; (split; [apply updateFirst_sig; reflexivity|auto]).
  - unfold removeTile. destruct (isPainting s).
    + destruct (find (hasName layerName) (layers (room s))) as [l|]; [|exact Hsame].
      destruct (negb (isTileLayer l)); [exact Hsame|].
      cbn. split; [apply updateFirst_sig; reflexivity|auto].
    + destruct (find (hasName layerName) (layers (room s))) as [l|]; [|exact Hsame].
      destruct (negb (isTileLayer l)); [exact Hsame|].
      destruct (findIndex (sameCell x y) (layer_tiles l)); [|exact Hsame].
      cbn. split; [apply updateFirst_sig; reflexivity|auto].
  - rewrite updateRoomSize_room. cbn. split.
    + apply map_sig_same. intros l. destruct (isTileLayer l); reflexivity.
    + intros i Hi. apply filter_In in Hi. apply Hi.
  - unfold applyTileBrush. destruct (tileBrush s) as [brush|]; [|exact Hsame].
    destruct (findIndex (hasName layerName) (layers (room s))) as [li|]; [|exact Hsame].
    destruct (nth_error (layers (room s)) li) as [l|] eqn:N; [|exact Hsame].
    destruct (negb (isTileLayer l)); [exact Hsame|].
    destruct (fold_left _ _ _) as [tiles batched].
    destruct (isPainting s); cbn; (split; [apply replaceAt_sig; exact N|auto]).
Qed.

Lemma find_app_some (A : Type) (p : A -> bool) (l l' : list A) (a : A) :
  find p l = Some a -> find p (l ++ l') = Some a.
Proof.
  induction l as [|b l IH]; cbn; [discriminate|].
  destruct (p b); [auto|exact IH].
Qed.

Lemma find_filter_other n m ls :
  (m =? n)%string = false ->
  find (hasName m) (filter (fun l => negb (hasName n l)) ls) = find (hasName m) ls.
Proof.
  intros Hmn. induction ls as [|l ls IH]; [reflexivity|].
  cbn. destruct (hasName n l) eqn:Hn; cbn.
  - destruct (hasName m l) eqn:Hm; [|exact IH].
    exfalso. unfold hasName in *. apply String.eqb_eq in Hn, Hm.
    rewrite <- Hn, <- Hm, String.eqb_refl in Hmn. discriminate.
  - destruct (hasName m l); [reflexivity|exact IH].
Qed.

(** Retyping the layer of an instance leaves the instance on a tile
    layer. *)
Lemma updateLayerType_strands_instances :
  let s := addInstance (mkInstance (RefStr "Objects") "oTree" 16 16) initialState in
  instancesPlaced (room s)
  /\ ~ instancesPlaced (room (updateLayerType "Objects" TileLayer s)).
Proof.
  cbv zeta. split.
  - intros i [<-|[]]. reflexivity.
  - intros H. specialize (H (mkInstance (RefStr "Objects") "oTree" 16 16)).
    cbn in H. specialize (H (or_introl eq_refl)). discriminate H.
Qed.

(** X9.  In a room whose instances all sit on layers that take objects,
    every command other than the retyping and the renaming of a layer
    leaves a room whose instances all sit on layers that take objects:
    [addInstance] adds only what its guard accepts, [removeLayer] takes the
    instances of the layer with it, and no other command adds an instance
    or changes the name or the type of a layer. *)
Theorem commands_keep_instances_placed (trim : string -> string) (c : Command)
    (s : State) :
  keepsLayerSignatures c = true ->
  instancesPlaced (room s) ->
  instancesPlaced (room (exec trim c s)).
Proof.
  intros Hc H.
  pose proof (exec_keeps_signatures trim c s) as Hk.
  destruct c; try discriminate Hc;
    try (match type of Hk with
         | _ /\ _ => exact (instancesPlaced_transfer (room s) _ (proj1 Hk) (proj2 Hk) H)
         end).
  - cbn [exec]. unfold addInstance.
    destruct (canPlaceObjectOnLayer (room s) (instance_layer_name i)) eqn:E;
      cbn [negb]; [|exact H].
    intros j Hj. cbn in Hj. apply in_app_or in Hj.
    change (canPlaceObjectOnLayer (room s) (instance_layer_name j) = true).
    destruct Hj as [Hj|[<-|[]]]; [exact (H j Hj)|exact E].
  - cbn [exec]. intros j Hj. cbn in Hj. specialize (H j Hj).
    unfold canPlaceObjectOnLayer in *. cbn [layers room addLayer
      updateRoomWithHistory setRoom setLayers].
    destruct (instance_layer_name j) as [m|m]; [|discriminate H].
    destruct (find (hasName m) (layers (room s))) as [lm|] eqn:F; [|discriminate H].
    rewrite (find_app_some _ _ _ _ _ F). exact H.
  - cbn [exec]. unfold removeLayer.
    destruct (find (hasName n) (layers (room s))) as [ln|] eqn:F; [|exact H].
    intros j Hj. cbn in Hj. apply filter_In in Hj. destruct Hj as [Hj Hoff].
    specialize (H j Hj). unfold canPlaceObjectOnLayer in *.
    cbn [layers room updateRoomWithHistory setRoom setLayers setInstances].
    unfold onLayer in Hoff.
    destruct (instance_layer_name j) as [m|m]; [|discriminate H].
    apply negb_true_iff in Hoff.
    rewrite (find_filter_other n m _ Hoff). exact H.
Qed.

Lemma commands_keep_instances_placed_witness :
  let s := addInstance (mkInstance (RefStr "Objects") "oTree" 16 16) initialState in
  keepsLayerSignatures (RemoveLayer "TilesForest") = true
  /\ instancesPlaced (room s)
  /\ instancesPlaced (room (exec (fun n => n) (RemoveLayer "TilesForest") s)).
Proof.
  cbv zeta.
  assert (H : instancesPlaced
                (room (addInstance (mkInstance (RefStr "Objects") "oTree" 16 16)
                                   initialState))).
  { intros i [<-|[]]. reflexivity. }
  split; [reflexivity|]. split; [exact H|].
  exact (commands_keep_instances_placed (fun n => n) (RemoveLayer "TilesForest")
           _ eq_refl H).
Defined.

(** ** Resizing twice, and resizing without loss *)

Lemma filter_idem (A : Type) (p : A -> bool) (l : list A) :
  filter p (filter p l) = filter p l.
Proof.
  induction l as [|a l IH]; [reflexivity|].
  cbn. destruct (p a) eqn:E; cbn; rewrite ?E, IH; reflexivity.
Qed.

Lemma filter_all (A : Type) (p : A -> bool) (l : list A) :
  (forall a, In a l -> p a = true) -> filter p l = l.
Proof.
  induction l as [|a l IH]; intros H; [reflexivity|].
  cbn. rewrite (H a (or_introl eq_refl)), IH; [reflexivity|].
  intros b Hb. apply H. right. exact Hb.
Qed.

Lemma map_id_on (A : Type) (f : A -> A) (l : list A) :
  (forall a, In a l -> f a = a) -> map f l = l.
Proof.
  induction l as [|a l IH]; intros H; [reflexivity|].
  cbn. rewrite (H a (or_introl eq_refl)), IH; [reflexivity|].
  intros b Hb. apply H. right. exact Hb.
Qed.

Lemma pruned_layer_idem (w h : Z) (l : Layer) :
  let prune := fun layer : Layer =>
                 if isTileLayer layer then
                   setLayerTiles
                     (filter (fun tile => withinBounds w h (tile_x tile) (tile_y tile))
                             (layer_tiles layer))
                     layer
                 else layer in
  prune (prune l) = prune l.
Proof.
  cbv zeta beta. destruct l as [ln ld lt lv ltiles ltex]. destruct lt.
  - cbn. rewrite filter_idem. reflexivity.
  - reflexivity.
Qed.

Lemma pruned_room_idem (w h : Z) (r : Room) :
  let prune := fun r0 : Room =>
    setInstances
      (filter (fun i => withinBounds w h (inst_x i) (inst_y i)) (instances r0))
      (setLayers
         (map (fun layer =>
                 if isTileLayer layer then
                   setLayerTiles
                     (filter (fun tile => withinBounds w h (tile_x tile) (tile_y tile))
                             (layer_tiles layer))
                     layer
                 else layer)
              (layers r0))
         (setHeight h (setWidth w r0))) in
  prune (prune r) = prune r.
Proof.
  cbv zeta beta. destruct r as [ins ls rw rh nm ix ty bi ch]. cbn.
  rewrite filter_idem, map_map.
  rewrite (map_ext _ _ (pruned_layer_idem w h)). reflexivity.
Qed.

(** X10.  A second resize to the same size changes nothing in the room, and
    a resize to bounds that hold every instance and every tile of the tile
    layers keeps all instances and all layers as they are. *)
Theorem updateRoomSize_twice_and_without_loss (w h : Z) (s : State) :
  room (updateRoomSize w h (updateRoomSize w h s)) = room (updateRoomSize w h s)
  /\ ((forall i, In i (instances (room s)) -> insideRoom w h (inst_x i) (inst_y i)) ->
      (forall l t, In l (layers (room s)) -> layer_type l = TileLayer ->
                   In t (layer_tiles l) -> insideRoom w h (tile_x t) (tile_y t)) ->
      instances (room (updateRoomSize w h s)) = instances (room s)
      /\ layers (room (updateRoomSize w h s)) = layers (room s)).
Proof.
  split.
  - rewrite (updateRoomSize_room w h (updateRoomSize w h s)).
    generalize (updateRoomSize_room w h s).
    generalize (room (updateRoomSize w h s)). intros r1 ->.
    apply pruned_room_idem.
  - intros Hi Ht. rewrite updateRoomSize_room.
    cbn [instances layers setInstances setLayers setHeight setWidth]. split.
    + apply filter_all. intros i Hin. apply withinBounds_inside. exact (Hi i Hin).
    + apply map_id_on. intros l Hl. unfold isTileLayer.
      destruct (layer_type l) eqn:T; [|reflexivity].
      rewrite filter_all; [destruct l; reflexivity|].
      intros t Hin. apply withinBounds_inside. exact (Ht l t Hl T Hin).
Qed.

(** ** What addTile writes *)

Lemma findIndex_existsb (A : Type) (p : A -> bool) (l : list A) :
  existsb p l = match findIndex p l with Some _ => true | None => false end.
Proof.
  induction l as [|a l IH]; [reflexivity|].
  cbn. destruct (p a); [reflexivity|]. rewrite IH.
  destruct (findIndex p l); reflexivity.
Qed.

Lemma upsertTile_outside_cell x y i tiles :
  filter (fun t => negb (sameCell x y t)) (upsertTile x y i tiles)
  = filter (fun t => negb (sameCell x y t)) tiles.
Proof.
  assert (Hnew : sameCell x y (mkTile x y i None) = true).
  { apply sameCell_cell. reflexivity. }
  unfold upsertTile.
  destruct (findIndex (sameCell x y) tiles) as [k|] eqn:F.
  - apply findIndex_Some in F. destruct F as (l1 & t & l2 & -> & <- & Ht & _).
    rewrite replaceAt_app, !filter_app. cbn [filter]. rewrite Hnew, Ht. reflexivity.
  - rewrite filter_app. cbn [filter]. rewrite Hnew. cbn. apply app_nil_r.
Qed.

Lemma upsertTile_length x y i tiles :
  List.length (upsertTile x y i tiles)
  = if existsb (sameCell x y) tiles then List.length tiles
    else S (List.length tiles).
Proof.
  rewrite findIndex_existsb. unfold upsertTile.
  destruct (findIndex (sameCell x y) tiles) as [k|] eqn:F.
  - apply findIndex_Some in F. destruct F as (l1 & t & l2 & -> & <- & _ & _).
    rewrite replaceAt_app, !length_app. reflexivity.
  - rewrite length_app, Nat.add_1_r. reflexivity.
Qed.

Lemma upsertTile_In x y i tiles : In (mkTile x y i None) (upsertTile x y i tiles).
Proof.
  unfold upsertTile.
  destruct (findIndex (sameCell x y) tiles) as [k|] eqn:F.
  - apply findIndex_Some in F. destruct F as (l1 & t & l2 & -> & <- & _ & _).
    rewrite replaceAt_app. apply in_or_app. right. left. reflexivity.
  - apply in_or_app. right. left. reflexivity.
Qed.

(** X11.  [addTile] on a tile layer writes one cell: the tiles of the layer
    on other cells stay, in their order; the new tile is in the layer; the
    layer grows by one tile when the cell was free and keeps its size when
    the cell was taken; the instances stay.  In a paint session and outside
    alike. *)
Theorem addTile_writes_one_cell (n : string) (x y i : Z) (s : State)
    (layer : Layer) :
  find (hasName n) (layers (room s)) = Some layer ->
  layer_type layer = TileLayer ->
  filter (fun t => negb (sameCell x y t)) (tilesOf n (room (addTile n x y i s)))
  = filter (fun t => negb (sameCell x y t)) (layer_tiles layer)
  /\ In (mkTile x y i None) (tilesOf n (room (addTile n x y i s)))
  /\ List.length (tilesOf n (room (addTile n x y i s)))
     = (if existsb (sameCell x y) (layer_tiles layer)
        then List.length (layer_tiles layer)
        else S (List.length (layer_tiles layer)))
  /\ instances (room (addTile n x y i s)) = instances (room s)
  /\ List.length (layers (room (addTile n x y i s))) = List.length (layers (room s)).
Proof.
  intros F T.
  assert (Ti : isTileLayer layer = true) by (unfold isTileLayer; rewrite T; reflexivity).
  unfold tilesOf. rewrite (addTile_find n x y i s layer F Ti).
  cbn [layer_tiles setLayerTiles].
  rewrite (addTile_room n x y i s layer F Ti). cbn [instances layers setLayers].
  split_and.
  - apply upsertTile_outside_cell.
  - apply upsertTile_In.
  - apply upsertTile_length.
  - reflexivity.
  - rewrite <- (length_map layerSig), updateFirst_sig by reflexivity.
    apply length_map.
Qed.

Lemma addTile_writes_one_cell_witness :
  find (hasName "TilesForest") (layers (room squareRoomState))
  = Some (mkLayer "TilesForest" 0 TileLayer true
            [mkTile 0 0 1 None; mkTile 16 0 2 None; mkTile 0 16 3 None;
             mkTile 16 16 4 None] (Some "tileset_forest"))
  /\ List.length (tilesOf "TilesForest"
                    (room (addTile "TilesForest" 16 0 9 squareRoomState))) = 4%nat.
Proof.
  split; [reflexivity|].
  exact (proj1 (proj2 (proj2 (addTile_writes_one_cell "TilesForest" 16 0 9
                                squareRoomState _ eq_refl eq_refl)))).
Defined.

(** ** Renaming a layer *)

(** X12.  [handleSaveRename] is refused for a new name that trims to the
    empty string, for a new name equal to the old one and for an old name no
    layer bears.  Otherwise every layer of the old name takes the trimmed
    new name and every instance on the old name moves to it, nothing else
    changes in the room, and nothing is recorded: both stacks stay. *)
Theorem handleSaveRename_retargets_instances (trim : string -> string)
    (oldName newName : string) (s : State) :
  undoStack (handleSaveRename trim oldName newName s) = undoStack s
  /\ redoStack (handleSaveRename trim oldName newName s) = redoStack s
  /\ ((trim newName = ""%string \/ newName = oldName
       \/ find (hasName oldName) (layers (room s)) = None) ->
      handleSaveRename trim oldName newName s = s)
  /\ (trim newName <> ""%string -> newName <> oldName ->
      find (hasName oldName) (layers (room s)) <> None ->
      map layer_name (layers (room (handleSaveRename trim oldName newName s)))
      = map (fun l => if (layer_name l =? oldName)%string then trim newName
                      else layer_name l)
            (layers (room s))
      /\ map layer_tiles (layers (room (handleSaveRename trim oldName newName s)))
         = map layer_tiles (layers (room s))
      /\ map layer_type (layers (room (handleSaveRename trim oldName newName s)))
         = map layer_type (layers (room s))
      /\ map instance_layer_name
             (instances (room (handleSaveRename trim oldName newName s)))
         = map (fun i => match instance_layer_name i with
                         | RefStr m => if (m =? oldName)%string
                                       then RefStr (trim newName) else RefStr m
                         | RefNum k => RefNum k
                         end)
               (instances (room s))
      /\ map (fun i => (obj_name i, inst_x i, inst_y i))
             (instances (room (handleSaveRename trim oldName newName s)))
         = map (fun i => (obj_name i, inst_x i, inst_y i)) (instances (room s))).
Proof.
  unfold handleSaveRename, truthyString.
  split_and.
  - destruct (negb (negb (trim newName =? "")%string) || (newName =? oldName)%string);
      [reflexivity|].
    destruct (find (hasName oldName) (layers (room s))); reflexivity.
  - destruct (negb (negb (trim newName =? "")%string) || (newName =? oldName)%string);
      [reflexivity|].
    destruct (find (hasName oldName) (layers (room s))); reflexivity.
  - intros [H|[H|H]].
    + rewrite H. reflexivity.
    + rewrite H, String.eqb_refl, orb_true_r. reflexivity.
    + rewrite H.
      destruct (negb (negb (trim newName =? "")%string) || (newName =? oldName)%string);
        reflexivity.
  - intros H1 H2 H3.
    apply String.eqb_neq in H1, H2. rewrite H1, H2. cbn [negb orb].
    destruct (find (hasName oldName) (layers (room s))); [|contradiction].
    cbn. rewrite !map_map. split_and; apply map_ext; intros a.
    + unfold hasName. destruct (layer_name a =? oldName)%string; reflexivity.
    + destruct (hasName oldName a); reflexivity.
    + destruct (hasName oldName a); reflexivity.
    + unfold onLayer. destruct (instance_layer_name a) as [m|k] eqn:E.
      * destruct (m =? oldName)%string; [reflexivity|exact E].
      * exact E.
    + destruct (onLayer oldName a); reflexivity.
Qed.

(** ** Placement stays inside the room *)










(** ** What a brush stamp writes *)

(** X14.  A brush stamp on a tile layer writes the cells its tiles land on
    and no other.  A cell no brush tile lands on keeps its tiles.  When the
    layer holds at most one tile per cell and the brush tiles land on
    distinct cells, every brush tile that lands inside the room leaves
    exactly one tile on its cell, with its own index. *)
Theorem applyTileBrush_writes_brush_cells (n : string) (x y : Z) (s : State)
    (brush : TileBrush) (l : Layer) :
  tileBrush s = Some brush ->
  find (hasName n) (layers (room s)) = Some l ->
  layer_type l = TileLayer ->
  (forall cx cy,
     (forall b, In b (brush_tiles brush) -> stampCell x y b <> (cx, cy)) ->
     filter (sameCell cx cy) (tilesOf n (room (applyTileBrush n x y s)))
     = filter (sameCell cx cy) (layer_tiles l))
  /\ (uniqueCells (layer_tiles l) ->
      NoDup (map (stampCell x y) (brush_tiles brush)) ->
      forall b cx cy,
        In b (brush_tiles brush) ->
        stampCell x y b = (cx, cy) ->
        insideRoom (width (room s)) (height (room s)) cx cy ->
        filter (sameCell cx cy) (tilesOf n (room (applyTileBrush n x y s)))
        = [mkTile cx cy (brush_index b) None]).
Proof.
  intros B F T. rewrite (applyTileBrush_tilesOf n x y s brush l B F T). split.
  - intros cx cy H. apply (stampTiles_other_cell _ _ _ _ _ _ _ (layer_tiles l, []) H).
  - intros Hu Hnd b cx cy Hb Hc Hin.
    apply (stampTiles_own_cell _ _ _ _ b cx cy _ (layer_tiles l, [])); assumption.
Qed.

Lemma applyTileBrush_writes_brush_cells_witness :
  let brush := mkTileBrush [mkBrushTile 0 0 7; mkBrushTile 1 0 8] 2 1 "t" 1 0 in
  let s := setTileBrush (Some brush) squareRoomState in
  tileBrush s = Some brush
  /\ filter (sameCell 0 16) (tilesOf "TilesForest"
                               (room (applyTileBrush "TilesForest" 0 0 s)))
     = [mkTile 0 16 3 None]
  /\ filter (sameCell 16 0) (tilesOf "TilesForest"
                               (room (applyTileBrush "TilesForest" 0 0 s)))
     = [mkTile 16 0 8 None].
Proof.
  cbv zeta. split; [reflexivity|].
  pose (brush := mkTileBrush [mkBrushTile 0 0 7; mkBrushTile 1 0 8] 2 1 "t" 1 0).
  pose (s := setTileBrush (Some brush) squareRoomState).
  pose proof (applyTileBrush_writes_brush_cells "TilesForest" 0 0 s brush _
                eq_refl eq_refl eq_refl) as [H1 H2].
  split.
  - apply (H1 0 16). intros b [<-|[<-|[]]]; vm_compute; discriminate.
  - apply (H2 (ltac:(vm_compute; repeat constructor; cbn; intuition discriminate))
              (ltac:(vm_compute; repeat constructor; cbn; intuition discriminate))
              (mkBrushTile 1 0 8) 16 0).
    + right. left. reflexivity.
    + vm_compute. reflexivity.
    + unfold insideRoom. cbn. lia.
Defined.

(** ** Deriving a brush from a selection *)

Lemma mathRound_scaled d t :
  0 < t ->
  mathRound (inject_Z d / inject_Z t * inject_Z brushTileSize)
  = (32 * d + t) / (2 * t).
Proof.
  intros Ht. destruct t as [|p|p]; try lia.
  cbv [mathRound Qfloor Qplus Qmult Qdiv Qinv inject_Z Qnum Qden brushTileSize].
  rewrite !Pos.mul_1_r. f_equal; lia.
Qed.

Lemma mathRound_same_size d :
  mathRound (inject_Z d / inject_Z 16 * inject_Z brushTileSize) = d.
Proof.
  rewrite mathRound_scaled by lia. symmetry.
  apply (Z.div_unique (32 * d + 16) (2 * 16) d 16); lia.
Qed.

Lemma minOf_le l : forall a,
  minOf a l <= a /\ forall b, In b l -> minOf a l <= b.
Proof.
  unfold minOf. induction l as [|c l IH]; intros a; cbn.
  - split; [lia|intros b []].
  - destruct (IH (Z.min a c)) as [H1 H2]. split; [lia|].
    intros b [<-|Hb]; [lia|exact (H2 b Hb)].
Qed.

Lemma minOf_attained l : forall a, minOf a l = a \/ In (minOf a l) l.
Proof.
  unfold minOf. induction l as [|c l IH]; intros a; cbn; [left; reflexivity|].
  destruct (IH (Z.min a c)) as [H|H]; [|right; right; exact H].
  rewrite H. destruct (Z.min_spec a c) as [[_ ->]|[_ ->]];
    [left; reflexivity|right; left; reflexivity].
Qed.

(** What [copySelectionToBrush] has seen when it sets a brush. *)
Lemma copySelectionToBrush_Some tileSize selectionArea selectedLayer r brush :
  copySelectionToBrush tileSize selectionArea selectedLayer r = Some brush ->
  exists sel n layer texture t0 rest,
    selectionArea = Some sel /\ selectedLayer = Some n
    /\ find (hasName n) (layers r) = Some layer
    /\ layer_type layer = TileLayer
    /\ layer_texture layer = Some texture /\ texture <> ""%string
    /\ getTilesInSelection sel layer = t0 :: rest
    /\ brush
       = mkTileBrush
           (map (fun tile =>
                   mkBrushTile
                     (inject_Z (tile_x tile - minOf (tile_x t0) (map tile_x rest))
                      / inject_Z tileSize)
                     (inject_Z (tile_y tile - minOf (tile_y t0) (map tile_y rest))
                      / inject_Z tileSize)
                     (tile_index tile))
                (t0 :: rest))
           (ceilDiv (sel_width sel) tileSize) (ceilDiv (sel_height sel) tileSize)
           texture
           (floorDiv (ceilDiv (sel_width sel) tileSize) 2)
           (floorDiv (ceilDiv (sel_height sel) tileSize) 2).
Proof.
  unfold copySelectionToBrush.
  destruct selectionArea as [sel|]; [|discriminate].
  destruct selectedLayer as [n|]; [|discriminate].
  destruct (find (hasName n) (layers r)) as [layer|] eqn:F; [|discriminate].
  destruct (layer_texture layer) as [texture|] eqn:X; [|discriminate].
  unfold isTileLayer. destruct (layer_type layer) eqn:T; cbn [negb orb];
    [|discriminate].
  destruct (truthyString texture) eqn:Tr; cbn [negb]; [|discriminate].
  destruct (getTilesInSelection sel layer) as [|t0 rest] eqn:G; [discriminate|].
  intros [= <-].
  exists sel, n, layer, texture, t0, rest.
  split_and; try reflexivity; try assumption.
  intros ->. discriminate Tr.
Qed.

(** X15.  The brush the canvas derives from a selection stores each selected
    tile by its offset from the smallest x and the smallest y of the
    selection, divided by the tile size of the canvas, with its index.
    [applyTileBrush] multiplies by 16: when the tile size of the canvas is
    16 the stamp offsets are the pixel offsets of the selection, all of them
    non-negative, so the stamp reproduces the selection; for a tile size [t]
    that is another power of two an offset [d] is stamped as [d * 16 / t]
    rounded, not as [d].  The selected layer has a name: the canvas returns
    at an empty one. *)
Theorem copySelectionToBrush_stamp_offsets (tileSize : Z)
    (selectionArea : option SelectionArea) (selectedLayer : option string)
    (r : Room) (brush : TileBrush) :
  copySelectionToBrush tileSize selectionArea selectedLayer r = Some brush ->
  selectedLayer <> Some ""%string ->
  exists sel n layer minX minY,
    selectionArea = Some sel /\ selectedLayer = Some n
    /\ find (hasName n) (layers r) = Some layer
    /\ (forall t, In t (getTilesInSelection sel layer) ->
                  minX <= tile_x t /\ minY <= tile_y t)
    /\ (exists t, In t (getTilesInSelection sel layer) /\ tile_x t = minX)
    /\ (exists t, In t (getTilesInSelection sel layer) /\ tile_y t = minY)
    /\ map brush_index (brush_tiles brush)
       = map tile_index (getTilesInSelection sel layer)
    /\ (tileSize = 16 ->
        map stampOffset (brush_tiles brush)
        = map (fun t => (tile_x t - minX, tile_y t - minY))
              (getTilesInSelection sel layer))
    /\ (forall k, 0 <= k -> tileSize = 2 ^ k ->
        map stampOffset (brush_tiles brush)
        = map (fun t => ((32 * (tile_x t - minX) + tileSize) / (2 * tileSize),
                         (32 * (tile_y t - minY) + tileSize) / (2 * tileSize)))
              (getTilesInSelection sel layer)).
Proof.
  intros H _. apply copySelectionToBrush_Some in H.
  destruct H as (sel & n & layer & texture & t0 & rest
                 & -> & -> & F & T & X & Xn & G & ->).
  exists sel, n, layer, (minOf (tile_x t0) (map tile_x rest)),
         (minOf (tile_y t0) (map tile_y rest)).
  rewrite G. cbn [brush_tiles].
  split_and; try reflexivity; try assumption.
  - intros t [<-|Ht].
    + split; [exact (proj1 (minOf_le (map tile_x rest) (tile_x t0)))
             |exact (proj1 (minOf_le (map tile_y rest) (tile_y t0)))].
    + split; [apply (proj2 (minOf_le (map tile_x rest) (tile_x t0)))
             |apply (proj2 (minOf_le (map tile_y rest) (tile_y t0)))];
        apply in_map; exact Ht.
  - destruct (minOf_attained (map tile_x rest) (tile_x t0)) as [E|E].
    + exists t0. split; [left; reflexivity|symmetry; exact E].
    + apply in_map_iff in E. destruct E as (t & Et & Hin).
      exists t. split; [right; exact Hin|exact Et].
  - destruct (minOf_attained (map tile_y rest) (tile_y t0)) as [E|E].
    + exists t0. split; [left; reflexivity|symmetry; exact E].
    + apply in_map_iff in E. destruct E as (t & Et & Hin).
      exists t. split; [right; exact Hin|exact Et].
  - rewrite map_map. reflexivity.
  - intros ->. rewrite map_map. apply map_ext. intros t.
    unfold stampOffset. cbn [brush_x brush_y].
    rewrite !mathRound_same_size. reflexivity.
  - intros k Hk Ht.
    assert (Hpos : 0 < tileSize) by (rewrite Ht; apply Z.pow_pos_nonneg; lia).
    rewrite map_map. apply map_ext. intros t.
    unfold stampOffset. cbn [brush_x brush_y].
    rewrite !mathRound_scaled by exact Hpos. reflexivity.
Qed.

Lemma copySelectionToBrush_stamp_offsets_witness :
  (exists brush,
     copySelectionToBrush 16 (Some squareSelection) (Some "TilesForest")
                          (room squareRoomState) = Some brush
     /\ map stampOffset (brush_tiles brush) = [(0, 0); (16, 0); (0, 16); (16, 16)])
  /\ exists brush sel n layer minX minY,
       copySelectionToBrush 32 (Some squareSelection) (Some "TilesForest")
                            (room squareRoomState) = Some brush
       /\ Some "TilesForest"%string <> Some ""%string
       /\ Some squareSelection = Some sel /\ Some "TilesForest" = Some n
       /\ find (hasName n) (layers (room squareRoomState)) = Some layer
       /\ (forall t, In t (getTilesInSelection sel layer) ->
                     minX <= tile_x t /\ minY <= tile_y t)
       /\ (exists t, In t (getTilesInSelection sel layer) /\ tile_x t = minX)
       /\ (exists t, In t (getTilesInSelection sel layer) /\ tile_y t = minY)
       /\ map brush_index (brush_tiles brush)
          = map tile_index (getTilesInSelection sel layer)
       /\ (32 = 16 ->
           map stampOffset (brush_tiles brush)
           = map (fun t => (tile_x t - minX, tile_y t - minY))
                 (getTilesInSelection sel layer))
       /\ (forall k, 0 <= k -> 32 = 2 ^ k ->
           map stampOffset (brush_tiles brush)
           = map (fun t => ((32 * (tile_x t - minX) + 32) / (2 * 32),
                            (32 * (tile_y t - minY) + 32) / (2 * 32)))
                 (getTilesInSelection sel layer)).
Proof.
  split.
  - eexists. split; [vm_compute; reflexivity|]. vm_compute. reflexivity.
  - eexists.
    pose proof (fun b (H : copySelectionToBrush 32 (Some squareSelection)
                             (Some "TilesForest") (room squareRoomState) = Some b) =>
                  copySelectionToBrush_stamp_offsets 32 (Some squareSelection)
                    (Some "TilesForest") (room squareRoomState) b H) as Hthm.
    specialize (Hthm _ eq_refl).
    assert (Hn : Some "TilesForest"%string <> Some ""%string) by discriminate.
    destruct (Hthm Hn) as (sel & n & layer & minX & minY & H).
    exists sel, n, layer, minX, minY.
    split; [reflexivity|]. split; [exact Hn|exact H].
Defined.

(** A canvas with tiles of size 32: two tiles 32 apart are stamped 16
    apart. *)
Lemma copySelectionToBrush_other_tile_size :
  let s := addTile "TilesForest" 32 0 2 (addTile "TilesForest" 0 0 1 initialState) in
  option_map (fun brush => map stampOffset (brush_tiles brush))
             (copySelectionToBrush 32 (Some (mkSelection 0 0 64 32))
                                   (Some "TilesForest") (room s))
  = Some [(0, 0); (16, 0)].
Proof. vm_compute. reflexivity. Qed.

Lemma ceilDiv_bounds a t :
  0 < t -> a <= ceilDiv a t * t < a + t.
Proof.
  intros Ht. unfold ceilDiv.
  pose proof (Z.div_mod (- a) t ltac:(lia)) as Hd.
  pose proof (Z.mod_pos_bound (- a) t Ht) as Hm.
  nia.
Qed.

(** X16.  The brush derived from a selection of positive size, with a
    positive tile size, has one tile per selected tile, a bounding box of
    the least number of cells that covers the selection on each axis, at
    least one cell, and a hot-spot inside the box, at half the width and
    half the height rounded down.  The selected layer has a name: the
    canvas returns at an empty one. *)
Theorem copySelectionToBrush_box_and_hot_spot (tileSize : Z) (sel : SelectionArea)
    (n : string) (r : Room) (brush : TileBrush) :
  copySelectionToBrush tileSize (Some sel) (Some n) r = Some brush ->
  n <> ""%string ->
  0 < tileSize -> 0 < sel_width sel -> 0 < sel_height sel ->
  sel_width sel <= brush_width brush * tileSize < sel_width sel + tileSize
  /\ sel_height sel <= brush_height brush * tileSize < sel_height sel + tileSize
  /\ 1 <= brush_width brush /\ 1 <= brush_height brush
  /\ 0 <= offsetX brush < brush_width brush
  /\ 0 <= offsetY brush < brush_height brush
  /\ 2 * offsetX brush <= brush_width brush < 2 * offsetX brush + 2
  /\ 2 * offsetY brush <= brush_height brush < 2 * offsetY brush + 2
  /\ (1 <= List.length (brush_tiles brush))%nat
  /\ exists layer,
       find (hasName n) (layers r) = Some layer
       /\ List.length (brush_tiles brush)
          = List.length (getTilesInSelection sel layer)
       /\ layer_texture layer = Some (brush_texture brush).
Proof.
  intros H _ Ht Hw Hh. apply copySelectionToBrush_Some in H.
  destruct H as (sel' & n' & layer & texture & t0 & rest
                 & [= <-] & [= <-] & F & T & X & Xn & G & ->).
  cbn [brush_width brush_height offsetX offsetY brush_tiles brush_texture].
  pose proof (ceilDiv_bounds (sel_width sel) tileSize Ht) as Bw.
  pose proof (ceilDiv_bounds (sel_height sel) tileSize Ht) as Bh.
  assert (Hcw : 1 <= ceilDiv (sel_width sel) tileSize) by nia.
  assert (Hch : 1 <= ceilDiv (sel_height sel) tileSize) by nia.
  unfold floorDiv.
  pose proof (Z.div_mod (ceilDiv (sel_width sel) tileSize) 2 ltac:(lia)) as Dw.
  pose proof (Z.mod_pos_bound (ceilDiv (sel_width sel) tileSize) 2 ltac:(lia)) as Mw.
  pose proof (Z.div_mod (ceilDiv (sel_height sel) tileSize) 2 ltac:(lia)) as Dh.
  pose proof (Z.mod_pos_bound (ceilDiv (sel_height sel) tileSize) 2 ltac:(lia)) as Mh.
  split_and; try lia.
  - rewrite length_map. cbn. lia.
  - exists layer. split_and; [exact F| |exact X].
    rewrite length_map, G. reflexivity.
Qed.

Lemma copySelectionToBrush_box_and_hot_spot_witness :
  exists brush,
    copySelectionToBrush 16 (Some squareSelection) (Some "TilesForest")
                         (room squareRoomState) = Some brush
    /\ "TilesForest"%string <> ""%string
    /\ 0 < 16 /\ 0 < sel_width squareSelection /\ 0 < sel_height squareSelection
    /\ 0 <= offsetX brush < brush_width brush.
Proof.
  eexists. split; [vm_compute; reflexivity|].
  split; [discriminate|].
  split; [lia|]. split; [cbn; lia|]. split; [cbn; lia|].
  refine (proj1 (proj2 (proj2 (proj2 (proj2
            (copySelectionToBrush_box_and_hot_spot 16 squareSelection "TilesForest"
               (room squareRoomState) _ eq_refl _ _ _ _)))))); cbn; try lia.
  discriminate.
Defined.

(** ** The list of recent rooms *)

Lemma firstn_incl (A : Type) (l : list A) : forall k a, In a (firstn k l) -> In a l.
Proof.
  induction l as [|b l IH]; intros [|k] a; cbn; auto.
  - intros [].
  - intros [H|H]; [left; exact H|right; exact (IH k a H)].
Qed.

Lemma NoDup_firstn_of (A : Type) (l : list A) : forall k,
  NoDup l -> NoDup (firstn k l).
Proof.
  induction l as [|b l IH]; intros [|k] H; cbn; try constructor.
  - inversion H as [|? ? Hn Hd]; subst. intros Hin. apply Hn.
    exact (firstn_incl _ _ _ _ Hin).
  - inversion H; subst. apply IH. assumption.
Qed.

Lemma filter_length_le (A : Type) (p : A -> bool) (l : list A) :
  (List.length (filter p l) <= List.length l)%nat.
Proof.
  induction l as [|a l IH]; cbn; [lia|]. destruct (p a); cbn; lia.
Qed.

(** X17.  After a room is saved or loaded the list of recent rooms starts
    with its name, holds the name once, holds ten names at most, and holds
    besides the name only names it held before; a list without repeats stays
    without repeats, and a list of nine names or fewer loses none. *)
Theorem updatedRecent_most_recent_first (n : string) (recentRooms : list string) :
  (exists rest,
     updatedRecent n recentRooms = n :: rest
     /\ ~ In n rest
     /\ forall r, In r rest -> In r recentRooms)
  /\ (List.length (updatedRecent n recentRooms) <= 10)%nat
  /\ (NoDup recentRooms -> NoDup (updatedRecent n recentRooms))
  /\ ((List.length recentRooms <= 9)%nat ->
      forall r, In r recentRooms -> In r (updatedRecent n recentRooms)).
Proof.
  unfold updatedRecent.
  set (others := filter (fun r => negb (r =? n)%string) recentRooms).
  assert (Ho : forall r, In r others <-> In r recentRooms /\ r <> n).
  { intros r. unfold others. rewrite filter_In, negb_true_iff, String.eqb_neq.
    reflexivity. }
  change (firstn 10 (n :: others)) with (n :: firstn 9 others).
  split_and.
  - exists (firstn 9 others). split_and; [reflexivity| |].
    + intros H. apply firstn_incl in H. apply Ho in H. apply (proj2 H). reflexivity.
    + intros r H. apply firstn_incl in H. apply Ho in H. apply H.
  - change (S (List.length (firstn 9 others)) <= 10)%nat.
    pose proof (firstn_le_length 9 others). lia.
  - intros Hnd. constructor.
    + intros H. apply firstn_incl in H. apply Ho in H. apply (proj2 H). reflexivity.
    + apply NoDup_firstn_of. unfold others. apply NoDup_filter. exact Hnd.
  - intros Hlen r Hr.
    rewrite firstn_all2
      by (unfold others; pose proof (filter_length_le _ (fun r0 => negb (r0 =? n)%string)
                                       recentRooms); lia).
    destruct (String.eqb_spec r n) as [->|Hne]; [left; reflexivity|].
    right. apply Ho. split; assumption.
Qed.

(** ** Tabs *)

Lemma saveActiveTab_ids e ts : map tab_id (saveActiveTab e ts) = map tab_id ts.
Proof.
  unfold saveActiveTab. rewrite map_map. apply map_ext. intros tab.
  destruct (hasId (activeTabId e) tab); reflexivity.
Qed.

Lemma saveActiveTab_find_other e ts id :
  (id =? activeTabId e)%string = false ->
  find (hasId id) (saveActiveTab e ts) = find (hasId id) ts.
Proof.
  intros Hne. induction ts as [|t ts IH]; [reflexivity|].
  cbn. destruct (hasId (activeTabId e) t) eqn:Ha.
  - unfold hasId in *. cbn. apply String.eqb_eq in Ha. rewrite Ha.
    rewrite String.eqb_sym, Hne. exact IH.
  - destruct (hasId id t); [reflexivity|exact IH].
Qed.

Lemma saveActiveTab_find_active e ts t :
  find (hasId (activeTabId e)) ts = Some t ->
  find (hasId (activeTabId e)) (saveActiveTab e ts)
  = Some (mkRoomTab (tab_id t) (room (live e)) (undoStack (live e))
                    (redoStack (live e)) (scale e) (panOffset e)
                    (selectedLayer e) (selectedTool e)).
Proof.
  induction ts as [|u ts IH]; [discriminate|].
  cbn. destruct (hasId (activeTabId e) u) eqn:Ha.
  - intros [= <-]. cbn. unfold hasId in *. cbn. rewrite Ha. reflexivity.
  - intros H. cbn. rewrite Ha. exact (IH H).
Qed.

(** X18.  Leaving a tab and coming back restores its document: after a
    switch from the active tab to another tab, any work of the engine
    there, and a switch back, the room, both history stacks and the view
    are those of the moment the tab was left, and the tab is active again.
    The work done in the other tab does not reach them. *)
Theorem switchToTab_round_trip (e : Editor) (other : string) (f : State -> State)
    (ta tb : RoomTab) :
  activeTabId e <> ""%string ->
  other <> activeTabId e ->
  find (hasId (activeTabId e)) (tabs e) = Some ta ->
  find (hasId other) (tabs e) = Some tb ->
  let away := switchToTab other e in
  let back := switchToTab (activeTabId e) (withLive f away) in
  activeTabId away = other
  /\ room (live away) = tab_room tb
  /\ undoStack (live away) = tab_undoStack tb
  /\ redoStack (live away) = tab_redoStack tb
  /\ activeTabId back = activeTabId e
  /\ room (live back) = room (live e)
  /\ undoStack (live back) = undoStack (live e)
  /\ redoStack (live back) = redoStack (live e)
  /\ scale back = scale e /\ panOffset back = panOffset e
  /\ selectedLayer back = selectedLayer e /\ selectedTool back = selectedTool e
  /\ map tab_id (tabs back) = map tab_id (tabs e).
Proof.
  intros Hne Hoa Fa Fb. cbv zeta.
  assert (Hoa' : (other =? activeTabId e)%string = false)
    by (apply String.eqb_neq; exact Hoa).
  assert (Hao : (activeTabId e =? other)%string = false)
    by (rewrite String.eqb_sym; exact Hoa').
  assert (Htr : truthyString (activeTabId e) = true).
  { unfold truthyString. apply negb_true_iff, String.eqb_neq. exact Hne. }
  assert (Haway : switchToTab other e
                  = mkEditor
                      (setRedoStack (tab_redoStack tb)
                         (setUndoStack (tab_undoStack tb)
                            (setRoom (tab_room tb) (live e))))
                      (tab_scale tb) (tab_panOffset tb) (tab_selectedLayer tb)
                      (tab_selectedTool tb) (saveActiveTab e (tabs e)) other).
  { unfold switchToTab. rewrite Hoa', Htr, Fb. reflexivity. }
  rewrite Haway. cbn [activeTabId live room undoStack redoStack setRoom
                      setUndoStack setRedoStack].
  split_and; try reflexivity.
  all: unfold switchToTab, withLive;
    cbn [activeTabId tabs live scale panOffset selectedLayer selectedTool];
    rewrite Hao, (saveActiveTab_find_active e (tabs e) ta Fa).
  all: try reflexivity.
  destruct (truthyString other); [|apply saveActiveTab_ids].
  cbn [tabs]. rewrite saveActiveTab_ids. apply saveActiveTab_ids.
Qed.

Lemma switchToTab_round_trip_witness :
  let e := addTab "tab-2" (setName "Cave" defaultRoom) (initialEditor "tab-1") in
  let back := switchToTab "tab-2"
                (withLive (addTile "TilesForest" 0 0 1) (switchToTab "tab-1" e)) in
  activeTabId e <> ""%string
  /\ "tab-1" <> activeTabId e
  /\ room (live back) = room (live e)
  /\ undoStack (live back) = undoStack (live e).
Proof.
  cbv zeta.
  assert (H1 : activeTabId (addTab "tab-2" (setName "Cave" defaultRoom)
                              (initialEditor "tab-1")) <> ""%string)
    by (cbn; discriminate).
  assert (H2 : "tab-1" <> activeTabId (addTab "tab-2" (setName "Cave" defaultRoom)
                                         (initialEditor "tab-1")))
    by (cbn; discriminate).
  split; [exact H1|]. split; [exact H2|].
  pose proof (switchToTab_round_trip
                (addTab "tab-2" (setName "Cave" defaultRoom) (initialEditor "tab-1"))
                "tab-1" (addTile "TilesForest" 0 0 1) _ _ H1 H2 eq_refl eq_refl) as H.
  cbv zeta in H. split; [exact (proj1 (proj2 (proj2 (proj2 (proj2 (proj2 H))))))|].
  exact (proj1 (proj2 (proj2 (proj2 (proj2 (proj2 (proj2 H))))))).
Defined.

(** X19.  [addTab] compares the name of the new room with the names of the
    rooms stored in the slots of the tabs.  When a slot stores a room of
    that name it opens no tab: it switches to the first such tab and the
    tabs keep their ids.  When no slot does, it stores the live document in
    the slot of the active tab, appends one tab and makes it active, with
    the given room (the default layers if it has none), empty history
    stacks and the default view.  The slot of the active tab stores the
    room as it was when the tab was opened or last left, not the live room:
    a name the live room took since is not seen. *)
Theorem addTab_deduplicates_by_stored_name (newTabId : string) (newRoom : Room)
    (e : Editor) :
  (forall existing,
     find (fun tab => (name (tab_room tab) =? name newRoom)%string) (tabs e)
     = Some existing ->
     map tab_id (tabs (addTab newTabId newRoom e)) = map tab_id (tabs e)
     /\ activeTabId (addTab newTabId newRoom e) = tab_id existing)
  /\ (find (fun tab => (name (tab_room tab) =? name newRoom)%string) (tabs e) = None ->
      map tab_id (tabs (addTab newTabId newRoom e)) = map tab_id (tabs e) ++ [newTabId]
      /\ activeTabId (addTab newTabId newRoom e) = newTabId
      /\ name (room (live (addTab newTabId newRoom e))) = name newRoom
      /\ layers (room (live (addTab newTabId newRoom e))) <> []
      /\ (layers newRoom <> [] ->
          room (live (addTab newTabId newRoom e)) = newRoom)
      /\ undoStack (live (addTab newTabId newRoom e)) = []
      /\ redoStack (live (addTab newTabId newRoom e)) = []
      /\ find (hasId newTabId) (tabs (addTab newTabId newRoom e)) <> None
      /\ (activeTabId e <> ""%string ->
          forall ta, find (hasId (activeTabId e)) (tabs e) = Some ta ->
                     option_map tab_room
                       (find (hasId (activeTabId e))
                             (tabs (addTab newTabId newRoom e)))
                     = Some (room (live e)))).
Proof.
  split.
  - intros existing F. unfold addTab. rewrite F. unfold switchToTab.
    destruct (tab_id existing =? activeTabId e)%string eqn:E.
    + split; [reflexivity|]. apply String.eqb_eq in E. symmetry. exact E.
    + assert (Hfind : exists t, find (hasId (tab_id existing)) (tabs e) = Some t).
      { apply find_some in F. destruct F as [Hin _].
        destruct (find (hasId (tab_id existing)) (tabs e)) as [t|] eqn:G;
          [exists t; reflexivity|].
        exfalso. pose proof (find_none _ _ G existing Hin) as Hn.
        unfold hasId in Hn. rewrite String.eqb_refl in Hn. discriminate. }
      destruct Hfind as [t ->]. cbn [tabs activeTabId]. split; [|reflexivity].
      destruct (truthyString (activeTabId e)); [apply saveActiveTab_ids|reflexivity].
  - intros F. unfold addTab. rewrite F.
    cbn [tabs activeTabId live room undoStack redoStack setRoom setUndoStack
         setRedoStack].
    split_and; try reflexivity.
    + rewrite map_app. cbn. f_equal.
      destruct (truthyString (activeTabId e)); [apply saveActiveTab_ids|reflexivity].
    + cbn. destruct (layers newRoom); cbn; discriminate.
    + intros Hl. destruct newRoom as [i ls w h nm ix ty bi ch]. cbn in *.
      destruct ls; [contradiction|reflexivity].
    + intros H.
      match type of H with
      | find _ (?l ++ [?t]) = None =>
          assert (Hin : In t (l ++ [t])) by (apply in_or_app; right; left; reflexivity);
          pose proof (find_none _ _ H t Hin) as Hn
      end.
      unfold hasId in Hn. cbn in Hn. rewrite String.eqb_refl in Hn. discriminate.
    + intros Hne ta Fa.
      assert (Htr : truthyString (activeTabId e) = true).
      { unfold truthyString. apply negb_true_iff, String.eqb_neq. exact Hne. }
      rewrite Htr.
      rewrite (find_app_some _ _ _ _ _ (saveActiveTab_find_active e (tabs e) ta Fa)).
      reflexivity.
Qed.

(** The live room renamed to "Cave" in the first tab, its slot still
    storing "New Room": [addTab] of a room named "Cave" opens a second tab,
    and two documents named "Cave" are open. *)
Lemma addTab_misses_renamed_live_room :
  let e := withLive (setRoomName "Cave") (initialEditor "tab-1") in
  let e' := addTab "tab-2" (setName "Cave" defaultRoom) e in
  name (room (live e)) = "Cave"%string
  /\ map (fun tab => name (tab_room tab)) (tabs e) = ["New Room"%string]
  /\ map tab_id (tabs e') = ["tab-1"%string; "tab-2"%string]
  /\ map (fun tab => name (tab_room tab)) (tabs e') = ["Cave"%string; "Cave"%string].
Proof. cbv zeta. split_and; reflexivity. Qed.

Lemma hasId_filter_other tabId ts id :
  id <> tabId ->
  In id (map tab_id ts) ->
  In id (map tab_id (filter (fun tab => negb (hasId tabId tab)) ts)).
Proof.
  intros Hne Hin. apply in_map_iff in Hin. destruct Hin as (t & Ht & Hin).
  apply in_map_iff. exists t. split; [exact Ht|].
  apply filter_In. split; [exact Hin|].
  unfold hasId. rewrite Ht. apply negb_true_iff, String.eqb_neq. exact Hne.
Qed.

Lemma filter_out_one_length (ts : list RoomTab) tabId :
  NoDup (map tab_id ts) ->
  (List.length ts
   <= S (List.length (filter (fun tab => negb (hasId tabId tab)) ts)))%nat.
Proof.
  induction ts as [|t ts IH]; intros Hnd; cbn; [lia|].
  cbn in Hnd. inversion Hnd as [|? ? Hn Hd]; subst.
  destruct (hasId tabId t) eqn:E; cbn.
  - assert (Hall : filter (fun tab => negb (hasId tabId tab)) ts = ts).
    { apply filter_all. intros u Hu. apply negb_true_iff.
      destruct (hasId tabId u) eqn:Eu; [|reflexivity].
      exfalso. apply Hn. unfold hasId in *. apply String.eqb_eq in E, Eu.
      rewrite E, <- Eu. apply in_map. exact Hu. }
    rewrite Hall. lia.
  - specialize (IH Hd). lia.
Qed.

(** The tab [closeTab] switches to when the active tab is closed is another
    tab of the list. *)
Lemma closeTab_neighbour (ts : list RoomTab) tabId k neighbour :
  NoDup (map tab_id ts) ->
  findIndex (hasId tabId) ts = Some k ->
  nth_error ts (match k with O => 1%nat | S j => j end) = Some neighbour ->
  tab_id neighbour <> tabId /\ In neighbour ts.
Proof.
  intros Hnd F N. split; [|exact (nth_error_In _ _ N)].
  apply findIndex_Some in F. destruct F as (l1 & t & l2 & -> & <- & Ht & _).
  unfold hasId in Ht. apply String.eqb_eq in Ht.
  rewrite map_app in Hnd. cbn [map] in Hnd. rewrite Ht in Hnd.
  pose proof (NoDup_remove_2 _ _ _ Hnd) as Hnot.
  intros Heq. apply Hnot. rewrite <- Heq.
  destruct l1 as [|a l1]; cbn in N.
  - destruct l2 as [|b l2]; [discriminate|]. injection N as <-.
    cbn. left. reflexivity.
  - apply in_or_app. left.
    assert (Hin : In neighbour (a :: l1)).
    { change (a :: l1 ++ t :: l2) with ((a :: l1) ++ t :: l2) in N.
      rewrite nth_error_app1 in N by (cbn; lia).
      exact (nth_error_In _ _ N). }
    apply in_map. exact Hin.
Qed.

Lemma find_hasId_unique (ts : list RoomTab) (t : RoomTab) :
  NoDup (map tab_id ts) -> In t ts -> find (hasId (tab_id t)) ts = Some t.
Proof.
  induction ts as [|u ts IH]; intros Hnd Hin; [destruct Hin|].
  cbn in Hnd. inversion Hnd as [|? ? Hn Hd]; subst.
  cbn. destruct (hasId (tab_id t) u) eqn:E.
  - destruct Hin as [->|Hin]; [reflexivity|].
    exfalso. apply Hn. unfold hasId in E. apply String.eqb_eq in E.
    rewrite E. apply in_map. exact Hin.
  - destruct Hin as [->|Hin]; [|exact (IH Hd Hin)].
    unfold hasId in E. rewrite String.eqb_refl in E. discriminate.
Qed.

Lemma closeTab_neighbour_exists (ts : list RoomTab) tabId k :
  (2 <= List.length ts)%nat ->
  findIndex (hasId tabId) ts = Some k ->
  exists neighbour, nth_error ts (match k with O => 1%nat | S j => j end) = Some neighbour.
Proof.
  intros Hlen F. apply findIndex_Some in F.
  destruct F as (l1 & t & l2 & -> & <- & _ & _).
  rewrite length_app in Hlen. cbn in Hlen.
  destruct (nth_error (l1 ++ t :: l2)
              (match List.length l1 with O => 1%nat | S j => j end)) as [u|] eqn:N;
    [exists u; reflexivity|].
  apply nth_error_None in N. rewrite length_app in N. cbn in N.
  destruct l1; cbn in *; lia.
Qed.

(** X20.  With tabs of distinct ids, [closeTab] never closes the last tab.
    With one tab it changes nothing.  Closing a tab that is not the active
    one removes it and leaves the live document and the active id alone.
    Closing the active tab switches to its neighbour first: the neighbour is
    the active tab afterwards, its stored room and history are the live
    ones, it is among the tabs that remain, and the closed tab is not. *)
Theorem closeTab_keeps_a_tab (tabId : string) (e : Editor) :
  NoDup (map tab_id (tabs e)) ->
  ((List.length (tabs e) <= 1)%nat -> closeTab tabId e = Some e)
  /\ ((2 <= List.length (tabs e))%nat -> tabId <> activeTabId e ->
      exists e',
        closeTab tabId e = Some e'
        /\ live e' = live e /\ activeTabId e' = activeTabId e
        /\ (1 <= List.length (tabs e'))%nat
        /\ forall t, In t (tabs e') <-> In t (tabs e) /\ tab_id t <> tabId)
  /\ ((2 <= List.length (tabs e))%nat -> tabId = activeTabId e ->
      In tabId (map tab_id (tabs e)) ->
      exists e' neighbour,
        closeTab tabId e = Some e'
        /\ In neighbour (tabs e) /\ tab_id neighbour <> tabId
        /\ activeTabId e' = tab_id neighbour
        /\ room (live e') = tab_room neighbour
        /\ undoStack (live e') = tab_undoStack neighbour
        /\ redoStack (live e') = tab_redoStack neighbour
        /\ In (tab_id neighbour) (map tab_id (tabs e'))
        /\ ~ In tabId (map tab_id (tabs e'))).
Proof.
  intros Hnd. split_and.
  - intros Hlen. unfold closeTab.
    destruct (Nat.leb_spec (List.length (tabs e)) 1); [reflexivity|lia].
  - intros Hlen Hne. unfold closeTab.
    destruct (Nat.leb_spec (List.length (tabs e)) 1); [lia|].
    apply String.eqb_neq in Hne. rewrite Hne.
    eexists. split; [reflexivity|]. cbn [live activeTabId tabs].
    split_and; try reflexivity.
    + pose proof (filter_out_one_length (tabs e) tabId Hnd). lia.
    + intros t. rewrite filter_In. unfold hasId.
      rewrite negb_true_iff, String.eqb_neq. reflexivity.
  - intros Hlen Heq Hin. unfold closeTab.
    destruct (Nat.leb_spec (List.length (tabs e)) 1); [lia|].
    rewrite <- Heq, String.eqb_refl.
    destruct (findIndex (hasId tabId) (tabs e)) as [k|] eqn:F.
    + destruct (closeTab_neighbour_exists (tabs e) tabId k Hlen F) as [nb N].
      rewrite N.
      destruct (closeTab_neighbour (tabs e) tabId k nb Hnd F N) as [Hnb Hnbin].
      exists (mkEditor (live (switchToTab (tab_id nb) e))
                       (scale (switchToTab (tab_id nb) e))
                       (panOffset (switchToTab (tab_id nb) e))
                       (selectedLayer (switchToTab (tab_id nb) e))
                       (selectedTool (switchToTab (tab_id nb) e))
                       (filter (fun tab => negb (hasId tabId tab))
                               (tabs (switchToTab (tab_id nb) e)))
                       (activeTabId (switchToTab (tab_id nb) e))), nb.
      split; [reflexivity|]. cbn [live activeTabId tabs].
      assert (Hsw : switchToTab (tab_id nb) e
                    = mkEditor
                        (setRedoStack (tab_redoStack nb)
                           (setUndoStack (tab_undoStack nb)
                              (setRoom (tab_room nb) (live e))))
                        (tab_scale nb) (tab_panOffset nb) (tab_selectedLayer nb)
                        (tab_selectedTool nb)
                        (if truthyString (activeTabId e)
                         then saveActiveTab e (tabs e) else tabs e)
                        (tab_id nb)).
      { unfold switchToTab.
        assert (Hn' : (tab_id nb =? activeTabId e)%string = false)
          by (apply String.eqb_neq; rewrite <- Heq; exact Hnb).
        rewrite Hn', (find_hasId_unique (tabs e) nb Hnd Hnbin). reflexivity. }
      rewrite Hsw. cbn [live activeTabId tabs room undoStack redoStack setRoom
                        setUndoStack setRedoStack].
      assert (Hids : map tab_id (if truthyString (activeTabId e)
                                 then saveActiveTab e (tabs e) else tabs e)
                     = map tab_id (tabs e)).
      { destruct (truthyString (activeTabId e)); [apply saveActiveTab_ids|reflexivity]. }
      split_and; try reflexivity; try assumption.
      * apply hasId_filter_other; [exact Hnb|]. rewrite Hids.
        apply in_map. exact Hnbin.
      * intros Hc. apply in_map_iff in Hc. destruct Hc as (t & Ht & Hc).
        apply filter_In in Hc. destruct Hc as [_ Hc].
        unfold hasId in Hc. rewrite Ht, String.eqb_refl in Hc. discriminate.
    + exfalso. apply in_map_iff in Hin. destruct Hin as (t & Ht & Hin).
      pose proof (findIndex_None _ _ F t Hin) as Hn.
      unfold hasId in Hn. rewrite Ht, String.eqb_refl in Hn. discriminate.
Qed.

Lemma closeTab_keeps_a_tab_witness :
  let e := addTab "tab-2" (setName "Cave" defaultRoom) (initialEditor "tab-1") in
  NoDup (map tab_id (tabs e))
  /\ option_map (fun e' => (map tab_id (tabs e'), activeTabId e', name (room (live e'))))
                (closeTab "tab-2" e)
     = Some (["tab-1"], "tab-1", "New Room")
  /\ (List.length (tabs (initialEditor "tab-1")) <= 1)%nat
  /\ closeTab "tab-1" (initialEditor "tab-1") = Some (initialEditor "tab-1").
Proof.
  cbv zeta.
  assert (Hnd : NoDup (map tab_id (tabs (addTab "tab-2" (setName "Cave" defaultRoom)
                                           (initialEditor "tab-1"))))).
  { cbn. repeat constructor; cbn; intuition discriminate. }
  assert (Hnd1 : NoDup (map tab_id (tabs (initialEditor "tab-1")))).
  { cbn. repeat constructor; cbn; intuition discriminate. }
  split; [exact Hnd|]. split; [reflexivity|].
  assert (Hlen : (List.length (tabs (initialEditor "tab-1")) <= 1)%nat) by (cbn; lia).
  split; [exact Hlen|].
  exact (proj1 (closeTab_keeps_a_tab "tab-1" (initialEditor "tab-1") Hnd1) Hlen).
Defined.

(** ** Entries that [redo] does not apply again *)

(** After the undo of an entry that holds a snapshot, [redo] applies the
    [case] of the entry to the snapshot. *)
Lemma redo_after_undo_of_entry s stack a r :
  undoStack s = stack ++ [a] ->
  field "previousRoom" (payload a) = PRoom r ->
  room (undo s) = r /\ room (redo (undo s)) = redoSwitch a r.
Proof.
  intros Hu Ha.
  destruct (undo_snapshot s stack a r Hu Ha) as (Hr & _ & Hrs & _).
  split; [exact Hr|].
  unfold redo. rewrite Hrs, top_snoc.
  cbn [room setIsUndoRedoAction setRoom setRedoStack setUndoStack].
  rewrite Hr. reflexivity.
Qed.

Lemma exec_redo_leaves_room trim c s :
  redoLeavesRoom c = true ->
  isUndoRedoAction s = false -> isPainting s = false ->
  undoStack (exec trim c s) = undoStack s
  \/ exists a,
       undoStack (exec trim c s) = undoStack s ++ [a]
       /\ field "previousRoom" (payload a) = PRoom (room s)
       /\ redoSwitch a (room s) = room s.
Proof.
  intros Hc Hf Hp.
  assert (Hrec : forall newRoom t p,
            (t =? "ADD_INSTANCE")%string = false ->
            redoSwitch (mkAction t (("previousRoom", PRoom (room s)) :: p)) (room s)
            = room s ->
            undoStack (updateRoomWithHistory newRoom (mkAction t p) s) = undoStack s
            \/ exists a,
                 undoStack (updateRoomWithHistory newRoom (mkAction t p) s)
                 = undoStack s ++ [a]
                 /\ field "previousRoom" (payload a) = PRoom (room s)
                 /\ redoSwitch a (room s) = room s).
  { intros newRoom t p _ Hsw. right. eexists.
    split; [apply updateRoomWithHistory_undoStack; exact Hf|].
    split; [reflexivity|exact Hsw]. }
  destruct c; try discriminate Hc; cbn [exec].
  - apply Hrec; reflexivity.
  - apply Hrec; reflexivity.
  - apply Hrec; reflexivity.
  - apply Hrec; reflexivity.
  - unfold addTile, deepCopy.
    destruct (find (hasName layerName) (layers (room s))) as [l|];
      [|left; reflexivity].
    destruct (isTileLayer l); cbn [negb]; [|left; reflexivity].
    rewrite Hp. apply Hrec; reflexivity.
  - right. unfold updateRoomSize, addToHistory. cbn. rewrite Hf.
    eexists. split; [reflexivity|]. split; reflexivity.
  - apply Hrec; reflexivity.
  - apply Hrec; reflexivity.
Qed.

(** X21.  The renaming of the room, the switch of a layer's visibility, the
    change of a layer's type or texture, the resize, the change of the type
    or the biome of the room and the placement of a single tile can be
    undone but not redone: when such a command has recorded an entry, [undo]
    gives the room the command started from, and [redo] after it leaves
    that room as it is. *)
Theorem redo_leaves_room_as_undone (trim : string -> string) (c : Command)
    (s : State) :
  isUndoRedoAction s = false ->
  isPainting s = false ->
  redoLeavesRoom c = true ->
  undoStack (exec trim c s) <> undoStack s ->
  room (undo (exec trim c s)) = room s
  /\ room (redo (undo (exec trim c s))) = room s.
Proof.
  intros Hf Hp Hc Hrec.
  destruct (exec_redo_leaves_room trim c s Hc Hf Hp) as [Hsame|(a & Hu & Ha & Hsw)];
    [contradiction|].
  destruct (redo_after_undo_of_entry (exec trim c s) (undoStack s) a (room s) Hu Ha)
    as [H1 H2].
  split; [exact H1|]. rewrite H2. exact Hsw.
Qed.

Lemma redo_leaves_room_as_undone_witness :
  let s := exec (fun n => n) (RenameRoom "Cave") initialState in
  isUndoRedoAction initialState = false
  /\ isPainting initialState = false
  /\ undoStack s <> undoStack initialState
  /\ name (room s) = "Cave"%string
  /\ room (undo s) = room initialState
  /\ room (redo (undo s)) = room initialState.
Proof.
  cbv zeta.
  assert (Hrec : undoStack (exec (fun n => n) (RenameRoom "Cave") initialState)
                 <> undoStack initialState) by (cbn; discriminate).
  do 2 (split; [reflexivity|]). split; [exact Hrec|]. split; [reflexivity|].
  exact (redo_leaves_room_as_undone (fun n => n) (RenameRoom "Cave") initialState
           eq_refl eq_refl eq_refl Hrec).
Defined.

(** ** Redo of a stroke *)




















(** A removal that aims at a layer of type [object]: the stroke leaves the
    tiles of that layer alone, the entry it buffers does not, and [redo]
    clears the cell. *)
Lemma paintSession_redo_clears_object_layer :
  let deco := mkLayer "Deco" 300 ObjectLayer true [mkTile 0 0 9 None] None in
  let s := addLayer deco initialState in
  let ops := [PaintRemove "Deco" 0 0] in
  tilesOf "Deco" (room (paintSession ops s)) = [mkTile 0 0 9 None]
  /\ tilesOf "Deco" (room (redo (undo (paintSession ops s)))) = [].
Proof. split; reflexivity. Qed.

(** ** Deleting a selection *)

Lemma filter_map_pre (A B : Type) (f : A -> B) (p : B -> bool) (l : list A) :
  filter p (map f l) = map f (filter (fun a => p (f a)) l).
Proof.
  induction l as [|a l IH]; [reflexivity|].
  cbn. destruct (p (f a)); cbn; rewrite IH; reflexivity.
Qed.


Lemma layer_tiles_set t l : layer_tiles (setLayerTiles t l) = t.
Proof. destruct l; reflexivity. Qed.

Lemma getTilesInSelection_filter sel l :
  getTilesInSelection sel l = filter (inSelection sel) (layer_tiles l).
Proof. reflexivity. Qed.

Lemma getTilesInSelection_marked sel l :
  getTilesInSelection sel (markSelected sel l)
  = map (fun tile => mkTile (tile_x tile) (tile_y tile) (tile_index tile)
                            (Some (inSelection sel tile)))
        (getTilesInSelection sel l).
Proof.
  rewrite !getTilesInSelection_filter. unfold markSelected.
  rewrite layer_tiles_set, filter_map_pre. reflexivity.
Qed.








(** ** Cutting a selection *)

(** X24.  Ctrl+X removes what [deleteSelectedTiles] removes and records
    what it records: the room and both stacks are the same after the one as
    after the other, whatever the selection and the layer.  On a tile layer
    with tiles in the selection it also sets a brush with one tile per
    selected tile, in their order and with their indices, and the texture of
    the layer, [default] without one; with tiles of size 16 the brush stamps
    each tile at its offset from the corner of the selection, not from the
    first occupied column and row as the brush of [copySelectionToBrush]
    does.  Without a tile in the selection the brush stays. *)
Theorem cutSelection_deletes_and_copies (tileSize : Z) (sel : SelectionArea)
    (selected : string) (layer : Layer) (s : State) :
  truthyString selected = true ->
  find (hasName selected) (layers (room s)) = Some layer ->
  isTileLayer layer = true ->
  (forall selectionArea selectedLayer,
     room (cutSelection tileSize selectionArea selectedLayer s)
     = room (deleteSelectedTiles selectionArea selectedLayer s)
     /\ undoStack (cutSelection tileSize selectionArea selectedLayer s)
        = undoStack (deleteSelectedTiles selectionArea selectedLayer s)
     /\ redoStack (cutSelection tileSize selectionArea selectedLayer s)
        = redoStack (deleteSelectedTiles selectionArea selectedLayer s))
  /\ (getTilesInSelection sel layer = [] ->
      tileBrush (cutSelection tileSize (Some sel) (Some selected) s) = tileBrush s)
  /\ (getTilesInSelection sel layer <> [] ->
      exists brush,
        tileBrush (cutSelection tileSize (Some sel) (Some selected) s) = Some brush
        /\ map brush_index (brush_tiles brush)
           = map tile_index (getTilesInSelection sel layer)
        /\ brush_texture brush = textureOrDefault (layer_texture layer)
        /\ (tileSize = 16 ->
            map stampOffset (brush_tiles brush)
            = map (fun t => (tile_x t - sel_x sel, tile_y t - sel_y sel))
                  (getTilesInSelection sel layer))).
Proof.
  intros Ht F T. split_and.
  - intros selectionArea selectedLayer.
    unfold cutSelection, deleteSelectedTiles.
    destruct selectionArea as [sa|]; [|split_and; reflexivity].
    destruct selectedLayer as [n|]; [|split_and; reflexivity].
    destruct (negb (truthyString n)); [split_and; reflexivity|].
    destruct (find (hasName n) (layers (room s))) as [l|]; [|split_and; reflexivity].
    destruct (negb (isTileLayer l)); [split_and; reflexivity|].
    destruct (getTilesInSelection sa (markSelected sa l)) as [|t0 rest];
      [split_and; reflexivity|].
    cbn [List.length Nat.eqb Nat.ltb Nat.leb].
    unfold addToHistory. cbn [isUndoRedoAction setRoom setTileBrush].
    destruct (isUndoRedoAction s); split_and; reflexivity.
  - intros G. unfold cutSelection. rewrite Ht, F, T. cbn [negb].
    rewrite getTilesInSelection_marked, G. reflexivity.
  - intros G. unfold cutSelection. rewrite Ht, F, T. cbn [negb].
    rewrite getTilesInSelection_marked.
    destruct (getTilesInSelection sel layer) as [|t0 rest] eqn:E; [contradiction|].
    cbn [map List.length Nat.ltb Nat.leb].
    eexists. split.
    + unfold addToHistory. cbn [isUndoRedoAction setRoom setTileBrush].
      destruct (isUndoRedoAction s); reflexivity.
    + cbn [brush_tiles brush_texture brush_index map tile_x tile_y tile_index].
      split_and.
      * rewrite !map_map. reflexivity.
      * reflexivity.
      * intros ->. unfold stampOffset. cbn [brush_x brush_y fst snd].
        rewrite !mathRound_same_size. f_equal.
        rewrite !map_map. apply map_ext. intros t.
        cbn [brush_x brush_y tile_x tile_y]. rewrite !mathRound_same_size.
        reflexivity.
Qed.

Lemma cutSelection_deletes_and_copies_witness :
  let sel := mkSelection 0 0 32 32 in
  let s := addTile "TilesForest" 16 16 4 initialState in
  truthyString "TilesForest" = true
  /\ map tileData (tilesOf "TilesForest" (room s)) = [(16, 16, 4)]
  /\ tilesOf "TilesForest" (room (cutSelection 16 (Some sel) (Some "TilesForest") s)) = []
  /\ option_map (fun brush => map stampOffset (brush_tiles brush))
                (tileBrush (cutSelection 16 (Some sel) (Some "TilesForest") s))
     = Some [(16, 16)]
  /\ option_map (fun brush => map stampOffset (brush_tiles brush))
                (copySelectionToBrush 16 (Some sel) (Some "TilesForest") (room s))
     = Some [(0, 0)]
  /\ room (cutSelection 16 (Some sel) (Some "TilesForest") s)
     = room (deleteSelectedTiles (Some sel) (Some "TilesForest") s).
Proof.
  cbv zeta. split; [reflexivity|]. split; [reflexivity|]. split; [reflexivity|].
  split; [vm_compute; reflexivity|]. split; [vm_compute; reflexivity|].
  exact (proj1 (proj1 (cutSelection_deletes_and_copies 16 (mkSelection 0 0 32 32)
                         "TilesForest" _ (addTile "TilesForest" 16 16 4 initialState)
                         eq_refl eq_refl eq_refl)
                      (Some (mkSelection 0 0 32 32)) (Some "TilesForest"))).
Defined.
